(** * Finance analytics engine: a shallow embedding of [analytics.py]

    The development follows [FinanceAnalytics] (category insights, annual
    projection, anomaly detection, financial score) together with the part
    of [FinanceDatabase] that feeds it ([get_monthly_summary]).

    Conventions of the embedding.
    - A pandas frame is the list of its rows, in row order.
    - Amounts are exact rationals ([Q]); the Python code computes on IEEE
      doubles, whose rounding is not modelled.  Equality of amounts is
      [Qeq] (written [==]).  The one place where rounding decides a
      branch, the test [std_amount > 0] of [detect_anomalies], is embedded
      a second time on binary64 floats ([Doubles]).
    - The divisions the Python code guards ([savings_rate], the z-score)
      are a checked operation that raises [ZeroDivisionError] on a zero
      divisor, threaded through a small error monad.  Divisions inside
      the numeric libraries (means, least squares) and by the literal 12
      do not raise and use the total division of [Q].
    - A Python [dict] is an association list in insertion order.
    - [datetime.now()] is an explicit argument (the current year and
      month); the date window of [get_transactions] is applied by the
      store, so the engine's functions take the fetched frame. *)

From Stdlib Require Import ZArith QArith Qabs Qminmax String DecimalString List Bool Lia Lqa.
From Stdlib Require Import Permutation Sorted.
From Stdlib Require Import PrimFloat.
Import ListNotations.

Open Scope Q_scope.

(** ** Numbers *)

Definition Qlt_bool (x y : Q) : bool := negb (Qle_bool y x).

Definition sum (l : list Q) : Q := fold_right Qplus 0 l.

Definition Zsum (l : list Z) : Z := fold_right Z.add 0%Z l.

Definition Qlen {A} (l : list A) : Q := inject_Z (Z.of_nat (length l)).

(** [Series.mean]: the sum over the number of entries. *)
Definition mean (l : list Q) : Q := sum l / Qlen l.

(** ** Errors *)

Inductive Error : Set := ZeroDivisionError.

Inductive outcome (A : Type) : Type :=
| Ok (a : A)
| Raise (e : Error).

Arguments Ok {A} a.
Arguments Raise {A} e.

Definition bind {A B} (c : outcome A) (k : A -> outcome B) : outcome B :=
  match c with
  | Ok a => k a
  | Raise e => Raise e
  end.

Notation "x <- c ;; k" := (bind c (fun x => k))
  (at level 61, c at next level, right associativity).

(** Python's [/]: fails on a zero divisor. *)
Definition checked_div (x y : Q) : outcome Q :=
  if Qeq_bool y 0 then Raise ZeroDivisionError else Ok (x / y).

(** A loop over [l] that updates a state and may fail. *)
Fixpoint foldM {A S} (step : S -> A -> outcome S) (l : list A) (s : S) : outcome S :=
  match l with
  | [] => Ok s
  | x :: l' => s' <- step s x ;; foldM step l' s'
  end.

(** ** Lists as frames *)

Section Frames.
Context {A : Type}.

(** [Series.unique]: the distinct values in order of first appearance. *)
Fixpoint unique (eqb : A -> A -> bool) (l : list A) : list A :=
  match l with
  | [] => []
  | x :: l' => x :: filter (fun y => negb (eqb x y)) (unique eqb l')
  end.

(** Insertion into a list ordered by [before]; [x] is placed in front of
    the first element it may precede. *)
Fixpoint insert (before : A -> A -> bool) (x : A) (l : list A) : list A :=
  match l with
  | [] => [x]
  | y :: l' => if before x y then x :: y :: l' else y :: insert before x l'
  end.

(** Stable sort: elements are inserted from the right, so an element
    stays in front of the later elements it may precede. *)
Definition sort (before : A -> A -> bool) (l : list A) : list A :=
  fold_right (insert before) [] l.

(** Descending order of a rational key; equal keys keep their order.
    This is [sorted(l, key=..., reverse=True)], the order of
    [DataFrame.nlargest] and SQL's [ORDER BY key DESC]. *)
Definition sort_desc (key : A -> Q) : list A -> list A :=
  sort (fun x y => Qle_bool (key y) (key x)).

(** [DataFrame.nlargest(n, key)] with the default [keep='first']. *)
Definition nlargest (n : nat) (key : A -> Q) (l : list A) : list A :=
  firstn n (sort_desc key l).
End Frames.

(** ** Dictionaries *)

Definition dict (V : Type) : Type := list (string * V).

Fixpoint dict_get {V} (d : dict V) (k : string) : option V :=
  match d with
  | [] => None
  | (k', v) :: d' => if String.eqb k' k then Some v else dict_get d' k
  end.

(** [d[k] = v]: an existing key keeps its position, a new key is appended. *)
Fixpoint dict_set {V} (d : dict V) (k : string) (v : V) : dict V :=
  match d with
  | [] => [(k, v)]
  | (k', v') :: d' =>
      if String.eqb k' k then (k', v) :: d' else (k', v') :: dict_set d' k v
  end.

Definition dict_keys {V} (d : dict V) : list string := map fst d.

(** [Series.to_dict] of a series given as (index, value) pairs. *)
Definition to_dict {V} (l : list (string * V)) : dict V :=
  fold_left (fun d kv => dict_set d (fst kv) (snd kv)) l [].

(** ** Data model (the [transactions] table of [database.py]) *)

(** The [type] column: [CHECK (type IN ('receita', 'despesa'))]. *)
Inductive Kind : Set := receita | despesa.

Definition Kind_eqb (a b : Kind) : bool :=
  match a, b with
  | receita, receita | despesa, despesa => true
  | _, _ => false
  end.

(** Order of the type strings: ["despesa" < "receita"]. *)
Definition Kind_leb (a b : Kind) : bool :=
  match a, b with
  | receita, despesa => false
  | _, _ => true
  end.

Record Date : Type := mkDate { year : Z; month : Z; day : Z }.

Record Transaction : Type := mkTransaction {
  tx_id : Z;
  tx_date : Date;
  tx_description : string;
  tx_amount : Q;
  tx_category : string;
  tx_type : Kind;
  tx_due_date : option Date;
  tx_status : string
}.

(** A row of [get_monthly_summary]: [category, type, total, count]. *)
Record SummaryRow : Type := mkSummaryRow {
  sr_category : string;
  sr_type : Kind;
  sr_total : Q;
  sr_count : Z
}.

Module FinanceDatabase.

(** The table, as the list of its rows. *)
Definition t : Type := list Transaction.

Definition group_eqb (a b : string * Kind) : bool :=
  String.eqb (fst a) (fst b) && Kind_eqb (snd a) (snd b).

Definition in_group (g : string * Kind) (tx : Transaction) : bool :=
  group_eqb (tx_category tx, tx_type tx) g.

Definition in_month (y m : Z) (tx : Transaction) : bool :=
  (year (tx_date tx) =? y)%Z && (month (tx_date tx) =? m)%Z.

(** [SELECT category, type, SUM(amount) AS total, COUNT( * ) AS count
     FROM transactions WHERE (year and month of date match)
     GROUP BY category, type ORDER BY total DESC].
    Groups are taken in order of first appearance before the ordering;
    SQLite leaves the order among equal totals open, and nothing below
    depends on it. *)
Definition get_monthly_summary (db : t) (y m : Z) : list SummaryRow :=
  let rows := filter (in_month y m) db in
  let groups := unique group_eqb (map (fun tx => (tx_category tx, tx_type tx)) rows) in
  sort_desc sr_total
    (map (fun g =>
            let members := filter (in_group g) rows in
            mkSummaryRow (fst g) (snd g)
              (sum (map tx_amount members))
              (Z.of_nat (length members)))
         groups).

(** *** The tables and the statements that change or read them *)

(** A row of the [categories] table. *)
Record Category : Type := mkCategory {
  cat_id : Z;
  cat_name : string;
  cat_type : Kind;
  cat_budget : Q;
  cat_color : string
}.

(** The two tables with their [AUTOINCREMENT] counters (the rows of
    [sqlite_sequence]).  The [goals] table is never read or written. *)
Record tables : Type := mkTables {
  transactions : t;
  transactions_seq : Z;
  categories : list Category;
  categories_seq : Z
}.

(** The outcome of a statement that can violate a constraint. *)
Inductive sql_result (A : Type) : Type :=
| Stored (a : A)
| IntegrityError.

Arguments Stored {A} a.
Arguments IntegrityError {A}.

Definition max_id (ids : list Z) : Z := fold_right Z.max 0%Z ids.

(** [INTEGER PRIMARY KEY AUTOINCREMENT]: one more than the largest id the
    table holds or has ever held. *)
Definition next_id (ids : list Z) (seq : Z) : Z :=
  (Z.max seq (max_id ids) + 1)%Z.

(** Dates are stored as ['YYYY-MM-DD'] text; comparing such texts is
    comparing (year, month, day). *)
Definition date_leb (a b : Date) : bool :=
  (year a <? year b)%Z
  || ((year a =? year b)%Z
      && ((month a <? month b)%Z
          || ((month a =? month b)%Z && (day a <=? day b)%Z))).

Definition date_ltb (a b : Date) : bool := negb (date_leb b a).

(** [add_transaction]: [date=None] stands for the current day; returns the
    tables and [cursor.lastrowid]. *)
Definition add_transaction (d : tables) (today : Date)
    (description : string) (amount : Q) (transaction_type : Kind)
    (category : string) (date : option Date) (due_date : option Date)
    (status : string) : tables * Z :=
  let date := match date with Some x => x | None => today end in
  let i := next_id (map tx_id (transactions d)) (transactions_seq d) in
  ({| transactions :=
        transactions d ++
        [mkTransaction i date description amount category transaction_type
           due_date status];
      transactions_seq := i;
      categories := categories d;
      categories_seq := categories_seq d |}, i).

(** The [WHERE] clause of [get_transactions]. *)
Definition in_range (start_date end_date : option Date) (tx : Transaction) : bool :=
  match start_date, end_date with
  | Some s, Some e => date_leb s (tx_date tx) && date_leb (tx_date tx) e
  | Some s, None => date_leb s (tx_date tx)
  | None, Some e => date_leb (tx_date tx) e
  | None, None => true
  end.

(** [get_transactions]: [... ORDER BY date DESC]. *)
Definition get_transactions (d : tables) (start_date end_date : option Date)
    : list Transaction :=
  sort (fun x y => date_leb (tx_date y) (tx_date x))
       (filter (in_range start_date end_date) (transactions d)).

Definition delete_transaction (d : tables) (transaction_id : Z) : tables :=
  {| transactions :=
       filter (fun tx => negb (tx_id tx =? transaction_id)%Z) (transactions d);
     transactions_seq := transactions_seq d;
     categories := categories d;
     categories_seq := categories_seq d |}.

Definition update_transaction_status (d : tables) (transaction_id : Z)
    (status : string) : tables :=
  {| transactions :=
       map (fun tx =>
              if (tx_id tx =? transaction_id)%Z
              then mkTransaction (tx_id tx) (tx_date tx) (tx_description tx)
                     (tx_amount tx) (tx_category tx) (tx_type tx)
                     (tx_due_date tx) status
              else tx)
           (transactions d);
     transactions_seq := transactions_seq d;
     categories := categories d;
     categories_seq := categories_seq d |}.

(** [cursor.fetchone()]: the row or [None]. *)
Definition get_transaction_by_id (d : tables) (transaction_id : Z)
    : option Transaction :=
  find (fun tx => (tx_id tx =? transaction_id)%Z) (transactions d).

Definition is_pending (tx : Transaction) : bool :=
  String.eqb (tx_status tx) "pendente".

(** Ascending order of a nullable date: [NULL] sorts first. *)
Definition due_leb (a b : option Date) : bool :=
  match a, b with
  | None, _ => true
  | Some _, None => false
  | Some x, Some y => date_leb x y
  end.

(** [... WHERE status = 'pendente' ORDER BY due_date, date] *)
Definition get_pending_transactions (d : tables) : list Transaction :=
  sort (fun x y =>
          if due_leb (tx_due_date x) (tx_due_date y)
          then if due_leb (tx_due_date y) (tx_due_date x)
               then date_leb (tx_date x) (tx_date y)
               else true
          else false)
       (filter is_pending (transactions d)).

(** [... WHERE status = 'pendente' AND due_date < ? AND due_date IS NOT NULL
    ORDER BY due_date] *)
Definition get_overdue_transactions (d : tables) (today : Date)
    : list Transaction :=
  sort (fun x y => due_leb (tx_due_date x) (tx_due_date y))
       (filter (fun tx =>
                  is_pending tx
                  && match tx_due_date tx with
                     | Some due => date_ltb due today
                     | None => false
                     end)
               (transactions d)).

(** [add_category]: [name] is [UNIQUE]; a second category of the same name
    is refused and nothing is committed. *)
Definition add_category (d : tables) (name : string) (category_type : Kind)
    (budget : Q) (color : string) : sql_result (tables * Z) :=
  if existsb (fun c => String.eqb (cat_name c) name) (categories d)
  then IntegrityError
  else
    let i := next_id (map cat_id (categories d)) (categories_seq d) in
    Stored
      ({| transactions := transactions d;
          transactions_seq := transactions_seq d;
          categories :=
            categories d ++ [mkCategory i name category_type budget color];
          categories_seq := i |}, i).

Definition get_category_by_id (d : tables) (category_id : Z) : option Category :=
  find (fun c => (cat_id c =? category_id)%Z) (categories d).

(** [SELECT COUNT( * ) FROM transactions WHERE category =
    (SELECT name FROM categories WHERE id = ?)]: without such a category
    the subquery is [NULL] and no row compares equal to it. *)
Definition linked_transactions (d : tables) (category_id : Z) : nat :=
  match get_category_by_id d category_id with
  | Some c =>
      length (filter (fun tx => String.eqb (tx_category tx) (cat_name c))
                     (transactions d))
  | None => 0%nat
  end.

(** [delete_category]: the tables and the pair (done, message). *)
Definition delete_category (d : tables) (category_id : Z)
    : tables * (bool * string) :=
  let count := linked_transactions d category_id in
  if (0 <? count)%nat then
    (d, (false,
         ("Não é possível excluir a categoria. Existem "
          ++ NilEmpty.string_of_uint (Nat.to_uint count)
          ++ " transação(ões) vinculada(s) a ela.")%string))
  else
    ({| transactions := transactions d;
        transactions_seq := transactions_seq d;
        categories :=
          filter (fun c => negb (cat_id c =? category_id)%Z) (categories d);
        categories_seq := categories_seq d |},
     (true, "Categoria excluída com sucesso!"%string)).


(** [update_category]: the [SET] list holds the fields that are given;
    with none of them no statement is executed.  Giving the row the name
    of another category violates [UNIQUE]; an id that is not in the table
    updates no row. *)
Definition update_category (d : tables) (category_id : Z)
    (name : option string) (budget : option Q) (color : option string)
    : sql_result tables :=
  match name, budget, color with
  | None, None, None => Stored d
  | _, _, _ =>
      if match name with
         | Some n =>
             existsb (fun c => (cat_id c =? category_id)%Z) (categories d)
             && existsb (fun c => negb (cat_id c =? category_id)%Z
                                  && String.eqb (cat_name c) n)
                        (categories d)
         | None => false
         end
      then IntegrityError
      else
        Stored
          {| transactions := transactions d;
             transactions_seq := transactions_seq d;
             categories :=
               map (fun c =>
                      if (cat_id c =? category_id)%Z
                      then mkCategory (cat_id c)
                             (match name with Some n => n | None => cat_name c end)
                             (cat_type c)
                             (match budget with Some b => b | None => cat_budget c end)
                             (match color with Some x => x | None => cat_color c end)
                      else c)
                   (categories d);
             categories_seq := categories_seq d |}
  end.

End FinanceDatabase.

(** ** Category insights *)

Record Insights : Type := mkInsights {
  total_income : Q;
  total_expenses : Q;
  balance : Q;
  savings_rate : Q;
  top_expense_categories : list SummaryRow;
  expense_distribution : dict Q
}.

(** [monthly_data[monthly_data['type'] == k]] *)
Definition rows_of_type (k : Kind) (monthly_data : list SummaryRow) : list SummaryRow :=
  filter (fun r => Kind_eqb (sr_type r) k) monthly_data.

(** The [savings_rate] entry:
    [((total_income - total_expenses) / total_income * 100) if total_income > 0 else 0] *)
Definition savings_rate_of (income expenses : Q) : outcome Q :=
  if Qlt_bool 0 income then
    q <- checked_div (income - expenses) income ;;
    Ok (q * 100)
  else Ok 0.

(** The body of [calculate_category_insights] once the summary is
    fetched; [None] is the empty dict [{}]. *)
Definition insights_of (monthly_data : list SummaryRow) : outcome (option Insights) :=
  match monthly_data with
  | [] => Ok None
  | _ =>
      let expenses := rows_of_type despesa monthly_data in
      let income := rows_of_type receita monthly_data in
      let total_expenses := sum (map sr_total expenses) in
      let total_income := sum (map sr_total income) in
      rate <- savings_rate_of total_income total_expenses ;;
      Ok (Some {|
        total_income := total_income;
        total_expenses := total_expenses;
        balance := total_income - total_expenses;
        savings_rate := rate;
        top_expense_categories := nlargest 5 sr_total expenses;
        expense_distribution :=
          to_dict (map (fun r => (sr_category r, sr_total r)) expenses)
      |})
  end.

Definition calculate_category_insights
    (db : FinanceDatabase.t) (y m : Z) : outcome (option Insights) :=
  insights_of (FinanceDatabase.get_monthly_summary db y m).

(** ** Financial score *)

(** Second component of the score: the bare string of the no-data branch
    or the list of factor strings. *)
Inductive Explanation : Type :=
| Message (s : string)
| Factors (factors : list string).

Open Scope string_scope.

(** Factor 1: savings rate. *)
Definition savings_factor (rate : Q) : Z * string :=
  if Qle_bool 20 rate then (40%Z, "Excelente taxa de poupança")
  else if Qle_bool 10 rate then (30%Z, "Boa taxa de poupança")
  else if Qle_bool 0 rate then (20%Z, "Taxa de poupança baixa")
  else (0%Z, "Gastando mais que ganha").

(** Factor 2: number of expense categories. *)
Definition diversification_factor (expense_categories : nat) : Z * string :=
  if (5 <=? expense_categories)%nat then (30%Z, "Boa diversificação de gastos")
  else if (3 <=? expense_categories)%nat then (20%Z, "Diversificação moderada")
  else (10%Z, "Poucos tipos de gastos registrados").

(** Factor 3: number of transactions of the month. *)
Definition consistency_factor (total_transactions : Z) : Z * string :=
  if (20 <=? total_transactions)%Z then (30%Z, "Registro consistente de transações")
  else if (10 <=? total_transactions)%Z then (20%Z, "Registro moderado de transações")
  else (10%Z, "Poucos registros de transações").

Definition generate_financial_score
    (db : FinanceDatabase.t) (current_year current_month : Z)
    : outcome (Z * Explanation) :=
  insights <- calculate_category_insights db current_year current_month ;;
  match insights with
  | None => Ok (0%Z, Message "Dados insuficientes")
  | Some insights =>
      let score := 0%Z in
      let factors := [] in
      let f1 := savings_factor (savings_rate insights) in
      let score := (score + fst f1)%Z in
      let factors := (factors ++ [snd f1])%list in
      let f2 := diversification_factor (length (expense_distribution insights)) in
      let score := (score + fst f2)%Z in
      let factors := (factors ++ [snd f2])%list in
      let monthly_data :=
        FinanceDatabase.get_monthly_summary db current_year current_month in
      let total_transactions :=
        match monthly_data with
        | [] => 0%Z
        | _ => Zsum (map sr_count monthly_data)
        end in
      let f3 := consistency_factor total_transactions in
      let score := (score + fst f3)%Z in
      let factors := (factors ++ [snd f3])%list in
      Ok (Z.min score 100, Factors factors)
  end.

(** The points that go with each factor string, as paired in the
    branches of [generate_financial_score]. *)
Definition factor_points (factor : string) : Z :=
  if String.eqb factor "Excelente taxa de poupança" then 40
  else if String.eqb factor "Boa taxa de poupança" then 30
  else if String.eqb factor "Taxa de poupança baixa" then 20
  else if String.eqb factor "Gastando mais que ganha" then 0
  else if String.eqb factor "Boa diversificação de gastos" then 30
  else if String.eqb factor "Diversificação moderada" then 20
  else if String.eqb factor "Poucos tipos de gastos registrados" then 10
  else if String.eqb factor "Registro consistente de transações" then 30
  else if String.eqb factor "Registro moderado de transações" then 20
  else if String.eqb factor "Poucos registros de transações" then 10
  else 0.

Close Scope string_scope.

(** ** Annual projection *)

(** A row of [df.groupby(['month_num', 'category', 'type'])['amount'].sum()]. *)
Record GroupRow : Type := mkGroupRow {
  month_num : Z;
  gr_category : string;
  gr_type : Kind;
  gr_amount : Q
}.

Definition group_key : Type := Z * string * Kind.

(** [df['date'].dt.month] with the two other grouping columns. *)
Definition key_of (tx : Transaction) : group_key :=
  (month (tx_date tx), tx_category tx, tx_type tx).

Definition key_eqb (a b : group_key) : bool :=
  let '(m1, c1, k1) := a in
  let '(m2, c2, k2) := b in
  (m1 =? m2)%Z && String.eqb c1 c2 && Kind_eqb k1 k2.

(** Lexicographic order of the group keys, the row order of a [groupby]. *)
Definition key_leb (a b : group_key) : bool :=
  let '(m1, c1, k1) := a in
  let '(m2, c2, k2) := b in
  (m1 <? m2)%Z
  || ((m1 =? m2)%Z && (String.ltb c1 c2 || (String.eqb c1 c2 && Kind_leb k1 k2))).

Definition monthly_category (df : list Transaction) : list GroupRow :=
  map (fun k : group_key =>
         let '(m, c, ty) := k in
         mkGroupRow m c ty
           (sum (map tx_amount (filter (fun tx => key_eqb (key_of tx) k) df))))
      (sort key_leb (unique key_eqb (map key_of df))).

(** [sklearn.linear_model.LinearRegression] with one feature: ordinary
    least squares on centred data.  When all abscissas coincide the
    least-norm solution has slope 0.  The fit is exact here; on doubles a
    slope that is 0 here can come out as rounding noise of either sign,
    so nothing below is drawn from the sign of a zero slope. *)
Record LinearRegression : Type := mkModel { intercept_ : Q; coef_ : Q }.

Definition fit (X y : list Q) : LinearRegression :=
  let mx := mean X in
  let my := mean y in
  let sxx := sum (map (fun x => (x - mx) * (x - mx)) X) in
  let sxy := sum (map (fun p => (fst p - mx) * (snd p - my)) (combine X y)) in
  let b := if Qeq_bool sxx 0 then 0 else sxy / sxx in
  {| intercept_ := my - b * mx; coef_ := b |}.

Definition predict (model : LinearRegression) (X : list Q) : list Q :=
  map (fun x => intercept_ model + coef_ model * x) X.

Record Projection : Type := mkProjection {
  monthly_predictions : list Q;
  annual_total : Q;
  average_monthly : Q;
  trend : string;
  confidence : Q
}.

(** [np.arange(1, 13)] *)
Definition future_months : list Q :=
  map (fun i => inject_Z (Z.of_nat i)) (seq 1 12).

(** The body of the loop of [predict_annual_projection] for one category
    that has enough rows. *)
Definition project (cat_data : list GroupRow) : Projection :=
  let X := map (fun r => inject_Z (month_num r)) cat_data in
  let y := map gr_amount cat_data in
  let model := fit X y in
  let predictions := predict model future_months in
  let predictions := map (fun p => Qmax p 0) predictions in
  {| monthly_predictions := predictions;
     annual_total := sum predictions;
     average_monthly := mean predictions;
     trend := if Qlt_bool 0 (coef_ model) then "crescente" else "decrescente";
     confidence := Qmin (Qlen cat_data / 12) 1 |}.

(** [monthly_category[monthly_category['category'] == category]] *)
Definition category_rows (category : string) (rows : list GroupRow) : list GroupRow :=
  filter (fun r => String.eqb (gr_category r) category) rows.

(** [None] is Python's [None]; [df] is the frame of the trailing 365 days. *)
Definition predict_annual_projection (df : list Transaction) : option (dict Projection) :=
  if (length df <? 3)%nat then None
  else
    let monthly_category := monthly_category df in
    Some
      (fold_left
         (fun projections category =>
            let cat_data := category_rows category monthly_category in
            if (3 <=? length cat_data)%nat
            then dict_set projections category (project cat_data)
            else projections)
         (unique String.eqb (map gr_category monthly_category))
         []).

(** ** Anomaly detection *)

Record Anomaly : Type := mkAnomaly {
  an_id : Z;
  an_date : Date;
  an_description : string;
  an_amount : Q;
  an_category : string;
  z_score : Q;
  severity : string
}.

Section Anomalies.
(** The square root of the numeric library.  It is a parameter: the
    results below use at most that it maps equal arguments to equal
    results and that the root of 0 is 0. *)
Variable sqrt : Q -> Q.

(** [Series.std], with pandas' default [ddof=1]: the divisor is the
    number of entries minus one.  The value is exact here; what the test
    [std_amount > 0] gives under rounding is the subject of [Doubles]. *)
Definition std (l : list Q) : Q :=
  sqrt (sum (map (fun x => (x - mean l) * (x - mean l)) l) / (Qlen l - 1)).

(** [abs((amount - mean_amount) / std_amount) if std_amount > 0 else 0] *)
Definition z_score_of (amount mean_amount std_amount : Q) : outcome Q :=
  if Qlt_bool 0 std_amount then
    q <- checked_div (amount - mean_amount) std_amount ;;
    Ok (Qabs q)
  else Ok 0.

(** [df[df['category'] == category]] *)
Definition category_transactions (category : string) (df : list Transaction)
    : list Transaction :=
  filter (fun tx => String.eqb (tx_category tx) category) df.

(** The inner loop: the rows of one category, appending to [anomalies]. *)
Definition scan_category (threshold : Q) (cat_data : list Transaction)
    (anomalies : list Anomaly) : outcome (list Anomaly) :=
  let mean_amount := mean (map tx_amount cat_data) in
  let std_amount := std (map tx_amount cat_data) in
  foldM
    (fun anomalies transaction =>
       z <- z_score_of (tx_amount transaction) mean_amount std_amount ;;
       if Qlt_bool threshold z then
         Ok (anomalies ++
             [ {| an_id := tx_id transaction;
                  an_date := tx_date transaction;
                  an_description := tx_description transaction;
                  an_amount := tx_amount transaction;
                  an_category := tx_category transaction;
                  z_score := z;
                  severity := if Qlt_bool 3 z then "alta" else "média" |} ])
       else Ok anomalies)
    cat_data anomalies.

(** The outer loop: the anomalies in the order they are met. *)
Definition flagged (df : list Transaction) (threshold : Q) : outcome (list Anomaly) :=
  foldM
    (fun anomalies category =>
       let cat_data := category_transactions category df in
       if (length cat_data <? 5)%nat then Ok anomalies
       else scan_category threshold cat_data anomalies)
    (unique String.eqb (map tx_category df)) [].

(** [df] is the frame of the trailing 180 days. *)
Definition detect_anomalies (df : list Transaction) (threshold : Q)
    : outcome (list Anomaly) :=
  match df with
  | [] => Ok []
  | _ =>
      anomalies <- flagged df threshold ;;
      Ok (sort_desc z_score anomalies)
  end.
End Anomalies.

(** ** Anomaly detection on doubles

    The [amount] column is [REAL] in the store and [float64] in the frame,
    and the branch [std_amount > 0] depends on how the mean and the
    deviation round.  This module embeds lines 121 to 145 of
    [detect_anomalies] on binary64 floats. *)

Module Doubles.
Local Open Scope float_scope.

(** A whole number as a double; exact below 2^53. *)
Fixpoint of_pos (p : positive) : float :=
  match p with
  | xH => 1
  | xO p' => 2 * of_pos p'
  | xI p' => 2 * of_pos p' + 1
  end.

Definition of_Z (z : Z) : float :=
  match z with
  | Z0 => 0
  | Zpos p => of_pos p
  | Zneg p => - of_pos p
  end.

Definition of_nat (n : nat) : float := of_Z (Z.of_nat n).

(** The double that stands for a decimal amount: the nearest one, which
    is what the correctly rounded quotient of numerator and denominator
    gives (both below 2^53). *)
Definition to_double (q : Q) : float := of_Z (Qnum q) / of_pos (Qden q).

(** [transaction['amount']] *)
Definition amount (tx : Transaction) : float := to_double (tx_amount tx).

Record Anomaly : Type := mkAnomaly {
  an_id : Z;
  an_date : Date;
  an_description : string;
  an_amount : float;
  an_category : string;
  z_score : float;
  severity : string
}.

Section Detect.
(** The sum of a [float64] array as the numeric library computes it.  The
    order of its additions depends on the length of the array, so it is a
    parameter; [sum_in_order] below is the order used for short arrays. *)
Variable fsum : list float -> float.

(** [Series.mean]: the sum over the count. *)
Definition mean (l : list float) : float := fsum l / of_nat (length l).

(** [Series.std], with pandas' default [ddof=1]: the squared deviations
    from the mean, summed and divided by the count minus one, and the
    square root of that. *)
Definition std (l : list float) : float :=
  let avg := mean l in
  sqrt (fsum (map (fun x => (avg - x) * (avg - x)) l) / (of_nat (length l) - 1)).

(** [abs((amount - mean_amount) / std_amount) if std_amount > 0 else 0];
    the division of doubles does not raise. *)
Definition z_score_of (amount mean_amount std_amount : float) : float :=
  if 0 <? std_amount then abs ((amount - mean_amount) / std_amount) else 0.

(** What the inner loop appends for one row. *)
Definition flag (threshold mean_amount std_amount : float)
    (transaction : Transaction) : list Anomaly :=
  let z := z_score_of (amount transaction) mean_amount std_amount in
  if threshold <? z then
    [ {| an_id := tx_id transaction;
         an_date := tx_date transaction;
         an_description := tx_description transaction;
         an_amount := amount transaction;
         an_category := tx_category transaction;
         z_score := z;
         severity := if 3 <? z then "alta" else "média" |} ]
  else [].

(** The inner loop: the rows of one category, appending to [anomalies]. *)
Definition scan_category (threshold : float) (cat_data : list Transaction)
    (anomalies : list Anomaly) : list Anomaly :=
  let mean_amount := mean (map amount cat_data) in
  let std_amount := std (map amount cat_data) in
  fold_left
    (fun anomalies transaction =>
       let z := z_score_of (amount transaction) mean_amount std_amount in
       if threshold <? z then
         (anomalies ++
          [ {| an_id := tx_id transaction;
               an_date := tx_date transaction;
               an_description := tx_description transaction;
               an_amount := amount transaction;
               an_category := tx_category transaction;
               z_score := z;
               severity := if 3 <? z then "alta" else "média" |} ])%list
       else anomalies)
    cat_data anomalies.

(** The outer loop: the anomalies in the order they are met. *)
Definition flagged (df : list Transaction) (threshold : float) : list Anomaly :=
  fold_left
    (fun anomalies category =>
       let cat_data := category_transactions category df in
       if (length cat_data <? 5)%nat then anomalies
       else scan_category threshold cat_data anomalies)
    (unique String.eqb (map tx_category df)) [].

(** [sorted(anomalies, key=lambda x: x['z_score'], reverse=True)] *)
Definition detect_anomalies (df : list Transaction) (threshold : float)
    : list Anomaly :=
  match df with
  | [] => []
  | _ => sort (fun x y => z_score y <=? z_score x) (flagged df threshold)
  end.
End Detect.

(** The sum of an array of fewer than 8 entries: the entries are added in
    row order, starting from 0. *)
Definition sum_in_order (l : list float) : float := fold_left add l 0.

End Doubles.

(** ** Monthly trends *)

(** A row of [df.groupby(['year_month', 'type'])['amount'].sum()]; the
    period is the pair (year, month). *)
Record TrendRow : Type := mkTrendRow {
  year_month : Z * Z;
  tr_type : Kind;
  tr_amount : Q
}.

Definition trend_key : Type := Z * Z * Kind.

Definition trend_key_of (tx : Transaction) : trend_key :=
  (year (tx_date tx), month (tx_date tx), tx_type tx).

Definition trend_key_eqb (a b : trend_key) : bool :=
  let '(y1, m1, k1) := a in
  let '(y2, m2, k2) := b in
  (y1 =? y2)%Z && (m1 =? m2)%Z && Kind_eqb k1 k2.

(** Lexicographic order of (period, type), the row order of the [groupby]. *)
Definition trend_key_leb (a b : trend_key) : bool :=
  let '(y1, m1, k1) := a in
  let '(y2, m2, k2) := b in
  (y1 <? y2)%Z
  || ((y1 =? y2)%Z
      && ((m1 <? m2)%Z || ((m1 =? m2)%Z && Kind_leb k1 k2))).

(** [get_monthly_trends], on the frame fetched for the last [months * 30]
    days; the empty list is the empty frame. *)
Definition get_monthly_trends (df : list Transaction) : list TrendRow :=
  match df with
  | [] => []
  | _ =>
      map (fun k : trend_key =>
             let '(y, m, ty) := k in
             mkTrendRow (y, m) ty
               (sum (map tx_amount
                       (filter (fun tx => trend_key_eqb (trend_key_of tx) k) df))))
          (sort trend_key_leb (unique trend_key_eqb (map trend_key_of df)))
  end.

(** The period [a] is not after the period [b]. *)
Definition period_le (a b : Z * Z) : Prop :=
  (fst a < fst b)%Z \/ (fst a = fst b /\ (snd a <= snd b)%Z).

(** ** Totals over projections *)

(** [sum([data['annual_total'] for data in projections.values()])], the
    total shown with the projections and in the projection report. *)
Definition total_projected (projections : dict Projection) : Q :=
  sum (map (fun kv => annual_total (snd kv)) projections).

(** ** Vocabulary of the specification *)

(** [l1] is obtained from [l2] by deleting entries, order kept. *)
Inductive subsequence {A : Type} : list A -> list A -> Prop :=
| subsequence_nil : forall l, subsequence [] l
| subsequence_take : forall x l1 l2,
    subsequence l1 l2 -> subsequence (x :: l1) (x :: l2)
| subsequence_skip : forall x l1 l2,
    subsequence l1 l2 -> subsequence l1 (x :: l2).

(** Descending order of a rational key, every element against all later ones. *)
Definition descending {A} (key : A -> Q) : list A -> Prop :=
  StronglySorted (fun a b => key b <= key a).

(** The entries of [l] whose key equals [v]. *)
Definition with_key {A} (key : A -> Q) (v : Q) (l : list A) : list A :=
  filter (fun a => Qeq_bool (key a) v) l.

(** The (category, total) entry of a summary row. *)
Definition entry (r : SummaryRow) : string * Q := (sr_category r, sr_total r).

Definition pair_eqb (a b : Z * Kind) : bool :=
  (fst a =? fst b)%Z && Kind_eqb (snd a) (snd b).

(** The distinct month numbers (1 to 12) in which [category] has data. *)
Definition distinct_months (category : string) (df : list Transaction) : nat :=
  length (unique Z.eqb
            (map (fun tx => month (tx_date tx))
                 (filter (fun tx => String.eqb (tx_category tx) category) df))).

(** The distinct (month number, type) combinations in which [category] has data. *)
Definition distinct_groups (category : string) (df : list Transaction) : nat :=
  length (unique pair_eqb
            (map (fun tx => (month (tx_date tx), tx_type tx))
                 (filter (fun tx => String.eqb (tx_category tx) category) df))).

(** All transactions of [category] carry the type [k]. *)
Definition single_type (category : string) (k : Kind) (df : list Transaction) : Prop :=
  forall tx, In tx df -> tx_category tx = category -> tx_type tx = k.

(** The z-score as a value, for a deviation that is never a failure. *)
Definition z_value (amount mean_amount std_amount : Q) : Q :=
  if Qlt_bool 0 std_amount then Qabs ((amount - mean_amount) / std_amount) else 0.

(** What one transaction adds to the anomalies. *)
Definition flag (threshold mean_amount std_amount : Q) (tx : Transaction) : list Anomaly :=
  let z := z_value (tx_amount tx) mean_amount std_amount in
  if Qlt_bool threshold z then
    [ {| an_id := tx_id tx;
         an_date := tx_date tx;
         an_description := tx_description tx;
         an_amount := tx_amount tx;
         an_category := tx_category tx;
         z_score := z;
         severity := if Qlt_bool 3 z then "alta" else "média" |} ]
  else [].

(** What one category adds to the anomalies. *)
Definition flag_category (sqrt : Q -> Q) (threshold : Q) (df : list Transaction)
    (category : string) : list Anomaly :=
  let cat_data := category_transactions category df in
  if (length cat_data <? 5)%nat then []
  else
    flat_map (flag threshold (mean (map tx_amount cat_data))
                (std sqrt (map tx_amount cat_data)))
             cat_data.

(** The transactions of one month. *)
Definition month_transactions (db : FinanceDatabase.t) (y m : Z) : list Transaction :=
  filter (FinanceDatabase.in_month y m) db.

(** The transactions of one type. *)
Definition of_type (k : Kind) (l : list Transaction) : list Transaction :=
  filter (fun tx => Kind_eqb (tx_type tx) k) l.

(** The number of distinct categories among the given transactions. *)
Definition distinct_categories (l : list Transaction) : nat :=
  length (unique String.eqb (map tx_category l)).

(** ** Sample data *)

Definition sample_tx (i : Z) (y m d : Z) (a : Q) (c : string) (k : Kind) : Transaction :=
  mkTransaction i (mkDate y m d) "lançamento" a c k None "pago".

(** One month with an income and three expense categories. *)
Definition sample_month : FinanceDatabase.t :=
  [ sample_tx 1 2024 5 2 3000 "Salário CLT" receita;
    sample_tx 2 2024 5 5 1000 "Moradia" despesa;
    sample_tx 3 2024 5 9 400 "Alimentação - Casa" despesa;
    sample_tx 4 2024 5 17 200 "Transporte" despesa;
    sample_tx 5 2024 4 17 180 "Transporte" despesa ].

(** A category entered under both types in two months. *)
Definition mixed_types : list Transaction :=
  [ sample_tx 1 2024 1 10 100 "Vendas" receita;
    sample_tx 2 2024 1 12 50 "Vendas" despesa;
    sample_tx 3 2024 2 10 120 "Vendas" receita;
    sample_tx 4 2024 2 15 60 "Vendas" despesa ].

(** A category with four consecutive months and one with a single month. *)
Definition four_months : list Transaction :=
  [ sample_tx 1 2024 1 3 100 "Transporte" despesa;
    sample_tx 2 2024 2 3 110 "Transporte" despesa;
    sample_tx 3 2024 3 3 120 "Transporte" despesa;
    sample_tx 4 2024 4 3 130 "Transporte" despesa;
    sample_tx 5 2024 4 8 70 "Pets" despesa ].

(** A rational square root, rounded down to six decimal places. *)
Definition sqrt_floor (q : Q) : Q :=
  let r := Qred q in
  Z.sqrt (Qnum r * Zpos (Qden r) * 10 ^ 12) # (Qden r * 10 ^ 6).

(** Five expenses of one category, one of them far from the others, two
    more in a category with equal amounts, and a small category. *)
Definition outlier_frame : list Transaction :=
  [ sample_tx 1 2024 5 1 50 "Transporte" despesa;
    sample_tx 2 2024 5 2 52 "Transporte" despesa;
    sample_tx 3 2024 5 3 48 "Transporte" despesa;
    sample_tx 4 2024 5 4 51 "Transporte" despesa;
    sample_tx 5 2024 5 5 500 "Transporte" despesa;
    sample_tx 6 2024 5 6 900 "Pets" despesa;
    sample_tx 7 2024 5 7 1 "Pets" despesa ].

(** Six amounts of 0.1 in one category. *)
Definition six_tenths : list Transaction :=
  [ sample_tx 1 2024 5 1 (1 # 10) "Café" despesa;
    sample_tx 2 2024 5 2 (1 # 10) "Café" despesa;
    sample_tx 3 2024 5 3 (1 # 10) "Café" despesa;
    sample_tx 4 2024 5 4 (1 # 10) "Café" despesa;
    sample_tx 5 2024 5 5 (1 # 10) "Café" despesa;
    sample_tx 6 2024 5 6 (1 # 10) "Café" despesa ].

(** Five amounts of 0.1 in one category. *)
Definition five_tenths : list Transaction :=
  [ sample_tx 1 2024 5 1 (1 # 10) "Café" despesa;
    sample_tx 2 2024 5 2 (1 # 10) "Café" despesa;
    sample_tx 3 2024 5 3 (1 # 10) "Café" despesa;
    sample_tx 4 2024 5 4 (1 # 10) "Café" despesa;
    sample_tx 5 2024 5 5 (1 # 10) "Café" despesa ].

(** Five amounts of 10 and one of 100 in one category. *)
Definition one_large : list Transaction :=
  [ sample_tx 1 2024 5 1 10 "Lazer" despesa;
    sample_tx 2 2024 5 2 10 "Lazer" despesa;
    sample_tx 3 2024 5 3 10 "Lazer" despesa;
    sample_tx 4 2024 5 4 10 "Lazer" despesa;
    sample_tx 5 2024 5 5 10 "Lazer" despesa;
    sample_tx 6 2024 5 6 100 "Lazer" despesa ].

(** One category and one type over a window of a year that holds the
    month of November twice: four calendar months, three month numbers. *)
Definition november_twice : list Transaction :=
  [ sample_tx 1 2025 11 10 100 "Internet" despesa;
    sample_tx 2 2025 12 10 100 "Internet" despesa;
    sample_tx 3 2026 1 10 100 "Internet" despesa;
    sample_tx 4 2026 11 2 100 "Internet" despesa ].

(** A month in which the expenses exceed the income. *)
Definition overspent_month : FinanceDatabase.t :=
  [ sample_tx 1 2024 5 2 100 "Vendas" receita;
    sample_tx 2 2024 5 3 150 "Moradia" despesa ].

(** A month with expenses and no income. *)
Definition no_income_month : FinanceDatabase.t :=
  [ sample_tx 1 2024 5 3 150 "Moradia" despesa;
    sample_tx 2 2024 5 4 80 "Transporte" despesa ].

(** Three transactions in three categories. *)
Definition three_categories : list Transaction :=
  [ sample_tx 1 2024 1 3 100 "Transporte" despesa;
    sample_tx 2 2024 2 3 110 "Moradia" despesa;
    sample_tx 3 2024 3 3 120 "Pets" despesa ].

(** The row [tx] with another status. *)
Definition with_status (status : string) (tx : Transaction) : Transaction :=
  mkTransaction (tx_id tx) (tx_date tx) (tx_description tx) (tx_amount tx)
    (tx_category tx) (tx_type tx) (tx_due_date tx) status.

(** The ids of the transactions are distinct and none exceeds the
    counter of the table: what [PRIMARY KEY AUTOINCREMENT] maintains. *)
Definition transaction_ids_ok (d : FinanceDatabase.tables) : Prop :=
  NoDup (map tx_id (FinanceDatabase.transactions d)) /\
  forall tx, In tx (FinanceDatabase.transactions d) ->
             (tx_id tx <= FinanceDatabase.transactions_seq d)%Z.

(** The category of [tx] is the name of a row of [categories]. *)
Definition category_known (cats : list FinanceDatabase.Category) (tx : Transaction)
    : Prop :=
  exists c, In c cats /\ FinanceDatabase.cat_name c = tx_category tx.

(** Tables with two categories and three transactions. *)
Definition sample_tables : FinanceDatabase.tables :=
  FinanceDatabase.mkTables
    [ mkTransaction 1 (mkDate 2024 5 2) "Aluguel" 1000 "Moradia" despesa
        (Some (mkDate 2024 5 10)) "pendente";
      mkTransaction 2 (mkDate 2024 5 9) "Feira" 400 "Moradia" despesa
        None "pago";
      mkTransaction 4 (mkDate 2024 4 30) "Salário" 3000 "Salário CLT" receita
        (Some (mkDate 2024 6 1)) "pendente" ]
    4
    [ FinanceDatabase.mkCategory 1 "Moradia" despesa 1500 "#8B4513";
      FinanceDatabase.mkCategory 2 "Salário CLT" receita 0 "#228B22";
      FinanceDatabase.mkCategory 3 "Pets" despesa 80 "#F0E68C" ]
    3.

(** * Properties *)

(** ** Lists *)

Section UniqueFacts.
Context {A : Type} (eqb : A -> A -> bool).
Hypothesis eqb_spec : forall x y, eqb x y = true <-> x = y.

Lemma filter_filter_comm (p q : A -> bool) l :
  filter p (filter q l) = filter q (filter p l).
Proof.
  induction l as [|x l IH]; simpl; auto.
  destruct (q x) eqn:Hq, (p x) eqn:Hp; simpl; rewrite ?Hq, ?Hp, IH; auto.
Qed.

Lemma filter_drop_other (p : A -> bool) x l :
  p x = false ->
  filter p (filter (fun y => negb (eqb x y)) l) = filter p l.
Proof.
  intros Hx. induction l as [|y l IH]; simpl; auto.
  destruct (eqb x y) eqn:E; simpl.
  - apply eqb_spec in E. subst y. rewrite Hx. exact IH.
  - rewrite IH. reflexivity.
Qed.

Lemma filter_unique (p : A -> bool) l :
  filter p (unique eqb l) = unique eqb (filter p l).
Proof.
  induction l as [|x l IH]; simpl; auto.
  destruct (p x) eqn:Hx; simpl.
  - rewrite filter_filter_comm, IH. reflexivity.
  - rewrite filter_drop_other by exact Hx. exact IH.
Qed.

Lemma unique_In x l : In x (unique eqb l) <-> In x l.
Proof.
  induction l as [|y l IH]; simpl; [tauto|].
  rewrite filter_In, IH. split.
  - intros [H | [H _]]; auto.
  - intros [H | H]; auto.
    destruct (eqb y x) eqn:E.
    + left. apply eqb_spec. exact E.
    + right. split; auto.
Qed.

Lemma unique_NoDup l : NoDup (unique eqb l).
Proof.
  induction l as [|x l IH]; simpl; constructor.
  - rewrite filter_In. intros [_ H].
    assert (E : eqb x x = true) by (apply eqb_spec; reflexivity).
    rewrite E in H. discriminate.
  - apply NoDup_filter. exact IH.
Qed.
End UniqueFacts.

(** Two projections that identify the same elements of [l] have the same
    number of distinct values on [l]. *)
Lemma unique_map_length {A B C : Type}
    (eqB : B -> B -> bool) (eqC : C -> C -> bool)
    (eqB_spec : forall x y, eqB x y = true <-> x = y)
    (eqC_spec : forall x y, eqC x y = true <-> x = y)
    (f : A -> B) (g : A -> C) :
  forall n (l : list A),
    (length l <= n)%nat ->
    (forall x y, In x l -> In y l -> (f x = f y <-> g x = g y)) ->
    length (unique eqB (map f l)) = length (unique eqC (map g l)).
Proof.
  induction n as [|n IH]; intros l Hlen Hagree.
  - destruct l; [reflexivity | simpl in Hlen; lia].
  - destruct l as [|x l]; [reflexivity|].
    simpl. f_equal.
    rewrite (filter_unique eqB eqB_spec), (filter_unique eqC eqC_spec).
    rewrite !filter_map_swap.
    assert (E : filter (fun a => negb (eqB (f x) (f a))) l
                = filter (fun a => negb (eqC (g x) (g a))) l).
    { apply filter_ext_in. intros a Ha. f_equal.
      destruct (eqB (f x) (f a)) eqn:E1, (eqC (g x) (g a)) eqn:E2; auto.
      - apply eqB_spec in E1.
        apply (Hagree x a) in E1; simpl; auto.
        apply eqC_spec in E1. congruence.
      - apply eqC_spec in E2.
        apply (Hagree x a) in E2; simpl; auto.
        apply eqB_spec in E2. congruence. }
    rewrite E. apply IH.
    + pose proof (filter_length_le (fun a => negb (eqC (g x) (g a))) l).
      simpl in Hlen. lia.
    + intros a b Ha Hb. apply filter_In in Ha, Hb.
      apply Hagree; simpl; tauto.
Qed.

Section SortFacts.
Context {A : Type}.

Lemma insert_perm (before : A -> A -> bool) x l :
  Permutation (insert before x l) (x :: l).
Proof.
  induction l as [|y l IH]; simpl; auto.
  destruct (before x y); auto.
  rewrite IH. apply perm_swap.
Qed.

Lemma sort_perm (before : A -> A -> bool) l : Permutation (sort before l) l.
Proof.
  induction l as [|x l IH]; simpl; auto.
  rewrite insert_perm. auto.
Qed.

Lemma filter_insert_length (before : A -> A -> bool) (p : A -> bool) x l :
  length (filter p (insert before x l)) = length (filter p (x :: l)).
Proof.
  induction l as [|y l IH]; simpl; auto.
  destruct (before x y); simpl; auto.
  simpl in IH.
  destruct (p y), (p x); simpl in *; rewrite IH; reflexivity.
Qed.

Lemma filter_sort_length (before : A -> A -> bool) (p : A -> bool) l :
  length (filter p (sort before l)) = length (filter p l).
Proof.
  induction l as [|x l IH]; simpl; auto.
  rewrite filter_insert_length. simpl.
  destruct (p x); simpl; rewrite IH; reflexivity.
Qed.

Variable key : A -> Q.

Let before := fun x y : A => Qle_bool (key y) (key x).

Lemma insert_desc_Forall (P : A -> Prop) x l :
  P x -> Forall P l -> Forall P (insert before x l).
Proof.
  intros Hx Hl. eapply Permutation_Forall.
  - symmetry. apply insert_perm.
  - constructor; assumption.
Qed.

Lemma insert_descending x l :
  descending key l -> descending key (insert before x l).
Proof.
  unfold descending.
  induction l as [|y l IH]; intros Hs; simpl.
  - constructor; constructor.
  - inversion Hs as [|? ? Hs' Hy]; subst.
    destruct (before x y) eqn:E; unfold before in E.
    + apply Qle_bool_iff in E.
      constructor; [exact Hs|].
      constructor; [exact E|].
      eapply Forall_impl; [|exact Hy].
      intros a Ha. simpl in Ha. eapply Qle_trans; eassumption.
    + constructor; [apply IH; exact Hs'|].
      apply insert_desc_Forall; [|exact Hy].
      destruct (Qle_bool (key y) (key x)) eqn:E'; [discriminate|].
      destruct (Qlt_le_dec (key x) (key y)) as [Hlt|Hle].
      * apply Qlt_le_weak. exact Hlt.
      * apply Qle_bool_iff in Hle. congruence.
Qed.

Lemma sort_desc_descending l : descending key (sort_desc key l).
Proof.
  induction l as [|x l IH]; simpl.
  - constructor.
  - apply insert_descending. exact IH.
Qed.

(** Stability: the entries of one key value are left in their order. *)
Lemma with_key_insert v x l :
  with_key key v (insert before x l) = with_key key v (x :: l).
Proof.
  unfold with_key.
  induction l as [|y l IH]; simpl; auto.
  destruct (before x y) eqn:E; simpl; auto.
  simpl in IH. rewrite IH.
  destruct (Qeq_bool (key x) v) eqn:Ex; auto.
  destruct (Qeq_bool (key y) v) eqn:Ey; auto.
  exfalso. apply Qeq_bool_iff in Ex, Ey.
  unfold before in E.
  assert (H : Qle_bool (key y) (key x) = true).
  { apply Qle_bool_iff. rewrite Ex, Ey. apply Qle_refl. }
  congruence.
Qed.

Lemma sort_desc_stable v l :
  with_key key v (sort_desc key l) = with_key key v l.
Proof.
  induction l as [|x l IH]; simpl; auto.
  unfold sort_desc in *. simpl. fold before.
  rewrite with_key_insert. unfold with_key in *. simpl.
  fold before in IH. rewrite IH. reflexivity.
Qed.

(** A list already in descending order is left as it is. *)
Lemma sort_desc_sorted l : descending key l -> sort_desc key l = l.
Proof.
  unfold descending.
  induction l as [|x l IH]; intros Hs; auto.
  inversion Hs as [|? ? Hs' Hx]; subst.
  unfold sort_desc in *. simpl. rewrite (IH Hs').
  destruct l as [|y l]; auto. simpl.
  inversion Hx as [|? ? Hy _]; subst.
  apply Qle_bool_iff in Hy. rewrite Hy. reflexivity.
Qed.

Lemma descending_filter (p : A -> bool) l :
  descending key l -> descending key (filter p l).
Proof.
  unfold descending.
  induction l as [|x l IH]; intros Hs; simpl; auto.
  inversion Hs as [|? ? Hs' Hx]; subst.
  destruct (p x); auto.
  constructor; auto.
  apply Forall_forall. intros a Ha. apply filter_In in Ha.
  rewrite Forall_forall in Hx. apply Hx. tauto.
Qed.

Lemma descending_firstn n l :
  descending key l -> descending key (firstn n l).
Proof.
  unfold descending. revert l.
  induction n as [|n IH]; intros l Hs; simpl; [constructor|].
  destruct l as [|x l]; [constructor|].
  inversion Hs as [|? ? Hs' Hx]; subst.
  constructor; auto.
  apply Forall_forall. intros a Ha.
  rewrite Forall_forall in Hx. apply Hx.
  rewrite <- (firstn_skipn n l). apply in_or_app. left. exact Ha.
Qed.

(** Descending order read on adjacent positions. *)
Lemma descending_adjacent l d i :
  descending key l -> (S i < length l)%nat ->
  key (nth (S i) l d) <= key (nth i l d).
Proof.
  unfold descending. revert i.
  induction l as [|x l IH]; intros i Hs Hi; simpl in Hi; [lia|].
  inversion Hs as [|? ? Hs' Hx]; subst.
  destruct i as [|i].
  - simpl. rewrite Forall_forall in Hx. apply Hx.
    destruct l; simpl in *; [lia | auto].
  - change (key (nth (S i) l d) <= key (nth i l d)).
    apply IH; auto. lia.
Qed.
End SortFacts.

(** ** Dictionaries *)

Section DictFacts.
Context {V : Type}.

Lemma dict_get_set_same (d : dict V) k v : dict_get (dict_set d k v) k = Some v.
Proof.
  induction d as [|[k' v'] d IH]; simpl.
  - rewrite String.eqb_refl. reflexivity.
  - destruct (String.eqb k' k) eqn:E; simpl; rewrite E; auto.
Qed.

Lemma dict_get_set_other (d : dict V) k k' v :
  k <> k' -> dict_get (dict_set d k v) k' = dict_get d k'.
Proof.
  intros Hne. induction d as [|[k0 v0] d IH]; simpl.
  - destruct (String.eqb k k') eqn:E; auto.
    apply String.eqb_eq in E. contradiction.
  - destruct (String.eqb k0 k) eqn:E; simpl.
    + apply String.eqb_eq in E. subst k0.
      destruct (String.eqb k k') eqn:E'; auto.
      apply String.eqb_eq in E'. contradiction.
    + rewrite IH. reflexivity.
Qed.

Lemma dict_set_fresh (d : dict V) k v :
  ~ In k (dict_keys d) -> dict_set d k v = d ++ [(k, v)].
Proof.
  induction d as [|[k' v'] d IH]; simpl; intros Hn; auto.
  destruct (String.eqb k' k) eqn:E.
  - apply String.eqb_eq in E. tauto.
  - rewrite IH; auto.
Qed.

Lemma to_dict_from (l acc : list (string * V)) :
  NoDup (map fst (acc ++ l)) ->
  fold_left (fun d kv => dict_set d (fst kv) (snd kv)) l acc = acc ++ l.
Proof.
  revert acc. induction l as [|[k v] l IH]; intros acc Hnd; simpl.
  - rewrite app_nil_r. reflexivity.
  - assert (Hacc : acc ++ (k, v) :: l = (acc ++ [(k, v)]) ++ l)
      by (rewrite <- app_assoc; reflexivity).
    rewrite dict_set_fresh.
    + rewrite IH; [symmetry; exact Hacc|]. rewrite <- Hacc. exact Hnd.
    + rewrite map_app in Hnd. simpl in Hnd.
      apply NoDup_remove_2 in Hnd. intros Hin. apply Hnd.
      apply in_or_app. left. exact Hin.
Qed.

(** A series with distinct index values becomes the dict of its entries,
    in row order. *)
Lemma to_dict_nodup (l : list (string * V)) :
  NoDup (map fst l) -> to_dict l = l.
Proof. intros H. unfold to_dict. rewrite to_dict_from; auto. Qed.
End DictFacts.

(** ** The monthly summary *)

Lemma Kind_eqb_spec a b : Kind_eqb a b = true <-> a = b.
Proof. destruct a, b; simpl; split; congruence. Qed.

Lemma group_eqb_spec a b : FinanceDatabase.group_eqb a b = true <-> a = b.
Proof.
  destruct a as [c1 k1], b as [c2 k2]. unfold FinanceDatabase.group_eqb. simpl.
  rewrite andb_true_iff, String.eqb_eq, Kind_eqb_spec.
  split; [intros [-> ->]; reflexivity | intros H; inversion H; auto].
Qed.

Lemma summary_descending db y m :
  descending sr_total (FinanceDatabase.get_monthly_summary db y m).
Proof. apply sort_desc_descending. Qed.

Lemma summary_groups_nodup db y m :
  NoDup (map (fun r => (sr_category r, sr_type r))
             (FinanceDatabase.get_monthly_summary db y m)).
Proof.
  unfold FinanceDatabase.get_monthly_summary.
  eapply Permutation_NoDup.
  - apply Permutation_map. symmetry. apply sort_perm.
  - rewrite map_map. simpl.
    rewrite (map_ext _ (fun g => g)) by (intros [c k]; reflexivity).
    rewrite map_id. apply unique_NoDup. exact group_eqb_spec.
Qed.

Lemma rows_of_type_categories k rows :
  NoDup (map (fun r => (sr_category r, sr_type r)) rows) ->
  NoDup (map sr_category (rows_of_type k rows)).
Proof.
  unfold rows_of_type.
  induction rows as [|r rows IH]; simpl; intros Hnd; [constructor|].
  inversion Hnd as [|? ? Hr Hnd']; subst.
  destruct (Kind_eqb (sr_type r) k) eqn:E; simpl; auto.
  constructor; auto.
  intros Hin. apply in_map_iff in Hin. destruct Hin as [r' [Hc Hr']].
  apply filter_In in Hr'. destruct Hr' as [Hr' E'].
  apply Kind_eqb_spec in E, E'.
  apply Hr. apply in_map_iff. exists r'. split; auto.
  rewrite Hc, E, E'. reflexivity.
Qed.

(** ** Category insights *)

Lemma savings_rate_of_ok income expenses :
  savings_rate_of income expenses =
  Ok (if Qlt_bool 0 income then (income - expenses) / income * 100 else 0).
Proof.
  unfold savings_rate_of, checked_div.
  destruct (Qlt_bool 0 income) eqn:E; auto.
  destruct (Qeq_bool income 0) eqn:E0; auto.
  apply Qeq_bool_iff in E0. unfold Qlt_bool in E.
  assert (H : Qle_bool income 0 = true).
  { apply Qle_bool_iff. rewrite E0. apply Qle_refl. }
  rewrite H in E. discriminate.
Qed.

Lemma Qlt_bool_iff x y : Qlt_bool x y = true <-> x < y.
Proof.
  unfold Qlt_bool. rewrite negb_true_iff. split.
  - intros H. destruct (Qlt_le_dec x y) as [Hlt|Hle]; auto.
    apply Qle_bool_iff in Hle. congruence.
  - intros H. destruct (Qle_bool y x) eqn:E; auto.
    apply Qle_bool_iff in E. exfalso. eapply Qlt_not_le; eassumption.
Qed.

(** The insights of a month that has rows. *)
Lemma insights_of_rows monthly_data :
  monthly_data <> [] ->
  insights_of monthly_data =
  Ok (Some
    (let expenses := rows_of_type despesa monthly_data in
     let income := rows_of_type receita monthly_data in
     let total_expenses := sum (map sr_total expenses) in
     let total_income := sum (map sr_total income) in
     {| total_income := total_income;
        total_expenses := total_expenses;
        balance := total_income - total_expenses;
        savings_rate :=
          if Qlt_bool 0 total_income
          then (total_income - total_expenses) / total_income * 100 else 0;
        top_expense_categories := nlargest 5 sr_total expenses;
        expense_distribution := to_dict (map entry expenses) |})).
Proof.
  intros Hne. destruct monthly_data as [|r rows]; [contradiction|].
  unfold insights_of. rewrite savings_rate_of_ok. reflexivity.
Qed.

Lemma subsequence_firstn {A} n (l : list A) : subsequence (firstn n l) l.
Proof.
  revert l. induction n as [|n IH]; intros l; simpl; [constructor|].
  destruct l; constructor. apply IH.
Qed.

(** The properties of the top expense rows, for any summary that meets
    the contract of the query: rows in descending order of total and one
    row per (category, type). *)
Lemma top_expenses_of_summary monthly_data ins :
  descending sr_total monthly_data ->
  NoDup (map (fun r => (sr_category r, sr_type r)) monthly_data) ->
  insights_of monthly_data = Ok (Some ins) ->
  (length (top_expense_categories ins) <= 5)%nat /\
  descending sr_total (top_expense_categories ins) /\
  subsequence (map entry (top_expense_categories ins)) (expense_distribution ins) /\
  forall v, exists rest,
    with_key sr_total v (rows_of_type despesa monthly_data) =
    with_key sr_total v (top_expense_categories ins) ++ rest.
Proof.
  intros Hdesc Hnd Hins.
  destruct monthly_data as [|r0 rows0] eqn:Em; [discriminate|].
  rewrite <- Em in *.
  rewrite insights_of_rows in Hins by (rewrite Em; discriminate).
  injection Hins as <-. simpl.
  set (expenses := rows_of_type despesa monthly_data).
  split; [apply firstn_le_length|].
  split; [apply descending_firstn, sort_desc_descending|].
  split.
  - rewrite to_dict_nodup.
    + unfold nlargest. rewrite sort_desc_sorted.
      * rewrite <- firstn_map. apply subsequence_firstn.
      * apply descending_filter. exact Hdesc.
    + rewrite map_map. simpl. apply rows_of_type_categories. exact Hnd.
  - intros v. exists (with_key sr_total v (skipn 5 (sort_desc sr_total expenses))).
    unfold nlargest, with_key. rewrite <- filter_app, firstn_skipn.
    symmetry. apply sort_desc_stable.
Qed.

(** C2. Whenever [calculate_category_insights] returns insights, the list
    [top_expense_categories] has at most 5 rows, is in descending order of
    total, its (category, total) entries are a subsequence of the entries
    of [expense_distribution], and among rows of equal total it keeps the
    order of the expense rows of the summary: for every total [v], the top
    rows of total [v] are an initial part of the expense rows of total [v]. *)
Theorem top_expense_categories_spec db y m ins :
  calculate_category_insights db y m = Ok (Some ins) ->
  (length (top_expense_categories ins) <= 5)%nat /\
  descending sr_total (top_expense_categories ins) /\
  subsequence (map entry (top_expense_categories ins)) (expense_distribution ins) /\
  forall v, exists rest,
    with_key sr_total v
      (rows_of_type despesa (FinanceDatabase.get_monthly_summary db y m)) =
    with_key sr_total v (top_expense_categories ins) ++ rest.
Proof.
  intros H. unfold calculate_category_insights in H.
  apply top_expenses_of_summary.
  - apply summary_descending.
  - apply summary_groups_nodup.
  - exact H.
Qed.

Lemma top_expense_categories_spec_witness :
  exists ins,
    calculate_category_insights sample_month 2024 5 = Ok (Some ins) /\
    (length (top_expense_categories ins) <= 5)%nat /\
    descending sr_total (top_expense_categories ins) /\
    subsequence (map entry (top_expense_categories ins)) (expense_distribution ins) /\
    forall v, exists rest,
      with_key sr_total v
        (rows_of_type despesa (FinanceDatabase.get_monthly_summary sample_month 2024 5)) =
      with_key sr_total v (top_expense_categories ins) ++ rest.
Proof.
  eexists. split.
  - vm_compute. reflexivity.
  - apply (top_expense_categories_spec sample_month 2024 5).
    vm_compute. reflexivity.
Defined.

(** C3. When the month has data, the score returned by
    [generate_financial_score] is the minimum of 100 and the sum of the
    points of the three factors, the points that go with the three emitted
    factor strings add up to that score, and the score lies between 0 and
    100. *)
Theorem financial_score_spec db y m :
  FinanceDatabase.get_monthly_summary db y m <> [] ->
  exists ins p1 f1 p2 f2 p3 f3,
    calculate_category_insights db y m = Ok (Some ins) /\
    savings_factor (savings_rate ins) = (p1, f1) /\
    diversification_factor (length (expense_distribution ins)) = (p2, f2) /\
    consistency_factor
      (Zsum (map sr_count (FinanceDatabase.get_monthly_summary db y m))) = (p3, f3) /\
    generate_financial_score db y m =
      Ok (Z.min (p1 + p2 + p3) 100, Factors [f1; f2; f3]) /\
    Zsum (map factor_points [f1; f2; f3]) = Z.min (p1 + p2 + p3) 100 /\
    (0 <= Z.min (p1 + p2 + p3) 100 <= 100)%Z.
Proof.
  intros Hne.
  pose proof (insights_of_rows _ Hne) as Hins.
  match type of Hins with _ = Ok (Some ?i) => set (ins := i) in Hins end.
  set (monthly_data := FinanceDatabase.get_monthly_summary db y m) in *.
  assert (Htot : match monthly_data with
                 | [] => 0%Z
                 | _ => Zsum (map sr_count monthly_data)
                 end = Zsum (map sr_count monthly_data))
    by (destruct monthly_data; [contradiction | reflexivity]).
  exists ins.
  destruct (savings_factor (savings_rate ins)) as [p1 f1] eqn:E1.
  destruct (diversification_factor (length (expense_distribution ins)))
    as [p2 f2] eqn:E2.
  destruct (consistency_factor (Zsum (map sr_count monthly_data))) as [p3 f3] eqn:E3.
  exists p1, f1, p2, f2, p3, f3.
  split; [exact Hins|]. split; [reflexivity|].
  split; [reflexivity|]. split; [reflexivity|].
  split.
  - unfold generate_financial_score, calculate_category_insights.
    fold monthly_data. rewrite Hins. cbv beta iota delta [bind].
    rewrite Htot, E1, E2, E3. reflexivity.
  - clear Hins Htot.
    unfold savings_factor in E1.
    unfold diversification_factor in E2.
    unfold consistency_factor in E3.
    repeat match type of E1 with context [if ?c then _ else _] => destruct c end;
    repeat match type of E2 with context [if ?c then _ else _] => destruct c end;
    repeat match type of E3 with context [if ?c then _ else _] => destruct c end;
    injection E1 as <- <-; injection E2 as <- <-; injection E3 as <- <-;
    (split; [reflexivity | vm_compute; split; discriminate]).
Qed.

Lemma financial_score_spec_witness :
  FinanceDatabase.get_monthly_summary sample_month 2024 5 <> [] /\
  exists ins p1 f1 p2 f2 p3 f3,
    calculate_category_insights sample_month 2024 5 = Ok (Some ins) /\
    savings_factor (savings_rate ins) = (p1, f1) /\
    diversification_factor (length (expense_distribution ins)) = (p2, f2) /\
    consistency_factor
      (Zsum (map sr_count (FinanceDatabase.get_monthly_summary sample_month 2024 5)))
      = (p3, f3) /\
    generate_financial_score sample_month 2024 5 =
      Ok (Z.min (p1 + p2 + p3) 100, Factors [f1; f2; f3]) /\
    Zsum (map factor_points [f1; f2; f3]) = Z.min (p1 + p2 + p3) 100 /\
    (0 <= Z.min (p1 + p2 + p3) 100 <= 100)%Z.
Proof.
  split.
  - vm_compute. discriminate.
  - apply (financial_score_spec sample_month 2024 5).
    vm_compute. discriminate.
Defined.

(** C4. [calculate_category_insights] never raises: a month without rows
    gives the empty result, and a month with rows gives insights whose
    [savings_rate] is (total_income - total_expenses) / total_income * 100
    when total_income > 0 and 0 when total_income is 0 (indeed whenever it
    is not positive), whatever the expenses are. *)
Theorem savings_rate_spec db y m :
  (FinanceDatabase.get_monthly_summary db y m = [] ->
   calculate_category_insights db y m = Ok None) /\
  (FinanceDatabase.get_monthly_summary db y m <> [] ->
   exists ins,
     calculate_category_insights db y m = Ok (Some ins) /\
     total_income ins =
       sum (map sr_total
              (rows_of_type receita (FinanceDatabase.get_monthly_summary db y m))) /\
     total_expenses ins =
       sum (map sr_total
              (rows_of_type despesa (FinanceDatabase.get_monthly_summary db y m))) /\
     (0 < total_income ins ->
      savings_rate ins =
        (total_income ins - total_expenses ins) / total_income ins * 100) /\
     (total_income ins == 0 -> savings_rate ins = 0) /\
     (~ 0 < total_income ins -> savings_rate ins = 0)).
Proof.
  unfold calculate_category_insights. split.
  - intros ->. reflexivity.
  - intros Hne. rewrite (insights_of_rows _ Hne).
    eexists. split; [reflexivity|]. simpl.
    split; [reflexivity|]. split; [reflexivity|].
    set (ti := sum (map sr_total (rows_of_type receita _))).
    split; [|split].
    + intros Hpos. apply Qlt_bool_iff in Hpos. rewrite Hpos. reflexivity.
    + intros Hz. destruct (Qlt_bool 0 ti) eqn:E; auto.
      apply Qlt_bool_iff in E. rewrite Hz in E.
      exfalso. exact (Qlt_irrefl 0 E).
    + intros Hn. destruct (Qlt_bool 0 ti) eqn:E; auto.
      apply Qlt_bool_iff in E. contradiction.
Qed.

Lemma savings_rate_spec_witness :
  FinanceDatabase.get_monthly_summary sample_month 2024 5 <> [] /\
  exists ins,
    calculate_category_insights sample_month 2024 5 = Ok (Some ins) /\
    0 < total_income ins /\
    savings_rate ins =
      (total_income ins - total_expenses ins) / total_income ins * 100.
Proof.
  assert (Hne : FinanceDatabase.get_monthly_summary sample_month 2024 5 <> [])
    by (vm_compute; discriminate).
  split; [exact Hne|].
  destruct (savings_rate_spec sample_month 2024 5) as [_ H].
  destruct (H Hne) as [ins [Hc [Hi [He [Hpos _]]]]].
  exists ins. split; [exact Hc|].
  assert (Hlt : 0 < total_income ins) by (rewrite Hi; vm_compute; reflexivity).
  split; [exact Hlt | exact (Hpos Hlt)].
Defined.

(** C9. Without data for the month [generate_financial_score] returns the
    pair of 0 and the single string "Dados insuficientes"; with data its
    second component is a list of factor strings (three of them).  The two
    branches return results of different shapes. *)
Theorem financial_score_shapes db y m :
  (FinanceDatabase.get_monthly_summary db y m = [] ->
   generate_financial_score db y m = Ok (0%Z, Message "Dados insuficientes")) /\
  (FinanceDatabase.get_monthly_summary db y m <> [] ->
   exists score f1 f2 f3,
     generate_financial_score db y m = Ok (score, Factors [f1; f2; f3])).
Proof.
  unfold generate_financial_score, calculate_category_insights. split.
  - intros ->. reflexivity.
  - intros Hne. rewrite (insights_of_rows _ Hne).
    unfold bind. repeat eexists.
Qed.

Lemma financial_score_shapes_witness :
  (FinanceDatabase.get_monthly_summary sample_month 2024 9 = [] /\
   generate_financial_score sample_month 2024 9 =
     Ok (0%Z, Message "Dados insuficientes")) /\
  (FinanceDatabase.get_monthly_summary sample_month 2024 5 <> [] /\
   exists score f1 f2 f3,
     generate_financial_score sample_month 2024 5 =
       Ok (score, Factors [f1; f2; f3])).
Proof.
  split; split.
  - vm_compute. reflexivity.
  - apply (proj1 (financial_score_shapes sample_month 2024 9)).
    vm_compute. reflexivity.
  - vm_compute. discriminate.
  - apply (proj2 (financial_score_shapes sample_month 2024 5)).
    vm_compute. discriminate.
Defined.

(** ** Annual projection *)

Lemma key_eqb_spec a b : key_eqb a b = true <-> a = b.
Proof.
  destruct a as [[m1 c1] k1], b as [[m2 c2] k2]. unfold key_eqb.
  rewrite !andb_true_iff, Z.eqb_eq, String.eqb_eq, Kind_eqb_spec.
  split; [intros [[-> ->] ->]; reflexivity | intros H; inversion H; auto].
Qed.

Lemma pair_eqb_spec a b : pair_eqb a b = true <-> a = b.
Proof.
  destruct a as [m1 k1], b as [m2 k2]. unfold pair_eqb. simpl.
  rewrite andb_true_iff, Z.eqb_eq, Kind_eqb_spec.
  split; [intros [-> ->]; reflexivity | intros H; inversion H; auto].
Qed.

(** The loop of [predict_annual_projection], read at one key. *)
Lemma fold_dict_set_get {V} (good : string -> bool) (val : string -> V) cats :
  forall acc c,
    dict_get
      (fold_left (fun d k => if good k then dict_set d k (val k) else d) cats acc) c =
    if existsb (String.eqb c) cats && good c then Some (val c) else dict_get acc c.
Proof.
  induction cats as [|k cats IH]; intros acc c; simpl; auto.
  rewrite IH.
  destruct (String.eqb c k) eqn:E; simpl.
  - apply String.eqb_eq in E. subst k.
    destruct (good c) eqn:G.
    + rewrite dict_get_set_same, andb_true_r.
      destruct (existsb (String.eqb c) cats); reflexivity.
    + rewrite andb_false_r. reflexivity.
  - assert (Hne : k <> c).
    { intros ->. rewrite String.eqb_refl in E. discriminate. }
    destruct (good k); [rewrite dict_get_set_other by exact Hne|]; reflexivity.
Qed.

(** A category is a key of the projections exactly when it has at least
    three rows in the grouped frame, and then carries [project] of them. *)
Lemma projection_get df p c :
  predict_annual_projection df = Some p ->
  dict_get p c =
  if (3 <=? length (category_rows c (monthly_category df)))%nat
  then Some (project (category_rows c (monthly_category df)))
  else None.
Proof.
  unfold predict_annual_projection.
  destruct (length df <? 3)%nat; [discriminate|].
  intros H. injection H as <-.
  cbv zeta.
  rewrite (fold_dict_set_get
             (fun k => (3 <=? length (category_rows k (monthly_category df)))%nat)
             (fun k => project (category_rows k (monthly_category df)))).
  simpl dict_get.
  destruct (existsb (String.eqb c) _) eqn:E; simpl; auto.
  destruct (category_rows c (monthly_category df)) as [|r rows] eqn:Er; auto.
  exfalso.
  assert (Hin : In r (category_rows c (monthly_category df)))
    by (rewrite Er; left; reflexivity).
  unfold category_rows in Hin. apply filter_In in Hin. destruct Hin as [Hin Hc].
  apply String.eqb_eq in Hc.
  assert (Hex : existsb (String.eqb c)
                  (unique String.eqb (map gr_category (monthly_category df))) = true).
  { apply existsb_exists. exists c. split; [|apply String.eqb_refl].
    apply (unique_In String.eqb String.eqb_eq).
    apply in_map_iff. exists r. split; assumption. }
  congruence.
Qed.

(** The rows of a category in the grouped frame are its distinct
    (month number, type) combinations. *)
Lemma category_rows_count df c :
  length (category_rows c (monthly_category df)) = distinct_groups c df.
Proof.
  unfold category_rows, monthly_category, distinct_groups.
  rewrite filter_map_swap, length_map, filter_sort_length.
  rewrite (filter_unique key_eqb key_eqb_spec), filter_map_swap.
  rewrite (filter_ext _ (fun tx => String.eqb (tx_category tx) c))
    by (intros tx; reflexivity).
  apply (unique_map_length key_eqb pair_eqb key_eqb_spec pair_eqb_spec)
    with (n := length (filter (fun tx => String.eqb (tx_category tx) c) df)).
  - apply Nat.le_refl.
  - intros x y Hx Hy. apply filter_In in Hx, Hy.
    destruct Hx as [_ Hx], Hy as [_ Hy].
    apply String.eqb_eq in Hx, Hy. unfold key_of. rewrite Hx, Hy.
    split; intros H; inversion H; reflexivity.
Qed.

(** When the category carries one type only, its groups are its months. *)
Lemma distinct_groups_single_type df c k :
  single_type c k df -> distinct_groups c df = distinct_months c df.
Proof.
  intros Hs. unfold distinct_groups, distinct_months.
  apply (unique_map_length pair_eqb Z.eqb pair_eqb_spec Z.eqb_eq)
    with (n := length (filter (fun tx => String.eqb (tx_category tx) c) df)).
  - apply Nat.le_refl.
  - intros x y Hx Hy. apply filter_In in Hx, Hy.
    destruct Hx as [Hx Hcx], Hy as [Hy Hcy].
    apply String.eqb_eq in Hcx, Hcy.
    rewrite (Hs x Hx Hcx), (Hs y Hy Hcy).
    split; intros H; [inversion H | rewrite H]; reflexivity.
Qed.

Lemma confidence_range n : 0 <= Qmin (inject_Z (Z.of_nat n) / 12) 1 <= 1.
Proof.
  split.
  - apply Q.min_glb; [|discriminate].
    apply Qle_shift_div_l; [reflexivity|].
    rewrite Qmult_0_l. change 0 with (inject_Z 0).
    rewrite <- Zle_Qle. lia.
  - apply Q.le_min_r.
Qed.

(** C1, as stated, fails: a category entered under both types in two
    months has two distinct months of data and is a key of the projection. *)
Lemma projection_two_months_counterexample :
  distinct_months "Vendas" mixed_types = 2%nat /\
  exists p pr,
    predict_annual_projection mixed_types = Some p /\
    dict_get p "Vendas" = Some pr.
Proof.
  split; [reflexivity|].
  eexists. eexists. split; vm_compute; reflexivity.
Qed.

(** C1, amended. A category is a key of the projection map exactly when
    it has at least 3 distinct (month number, type) combinations in the
    frame; so a category with fewer than 3 of them is not a key, and a
    category whose transactions all carry one type is not a key when it
    has fewer than 3 distinct months. *)
Theorem projection_needs_three_groups df p c :
  predict_annual_projection df = Some p ->
  (dict_get p c <> None <-> (3 <= distinct_groups c df)%nat) /\
  ((distinct_groups c df < 3)%nat -> dict_get p c = None) /\
  (forall k, single_type c k df ->
             (distinct_months c df < 3)%nat -> dict_get p c = None).
Proof.
  intros Hp. pose proof (projection_get df p c Hp) as Hget.
  rewrite category_rows_count in Hget.
  assert (Hlt : (distinct_groups c df < 3)%nat -> dict_get p c = None).
  { intros H. rewrite Hget.
    destruct (3 <=? distinct_groups c df)%nat eqn:E; auto.
    apply Nat.leb_le in E. lia. }
  split; [|split].
  - rewrite Hget. destruct (3 <=? distinct_groups c df)%nat eqn:E.
    + apply Nat.leb_le in E. split; [intros _; exact E | intros _; discriminate].
    + apply Nat.leb_gt in E. split; [intros H; contradiction | lia].
  - exact Hlt.
  - intros k Hs Hm. apply Hlt.
    rewrite (distinct_groups_single_type df c k Hs). exact Hm.
Qed.

Lemma projection_needs_three_groups_witness :
  exists p,
    predict_annual_projection four_months = Some p /\
    single_type "Pets" despesa four_months /\
    (distinct_months "Pets" four_months < 3)%nat /\
    dict_get p "Pets" = None.
Proof.
  assert (Hs : single_type "Pets" despesa four_months).
  { intros tx Hin Hc. simpl in Hin.
    repeat (destruct Hin as [<- | Hin]; [reflexivity || discriminate|]).
    contradiction. }
  assert (Hm : (distinct_months "Pets" four_months < 3)%nat)
    by (vm_compute; lia).
  eexists. split; [vm_compute; reflexivity|].
  split; [exact Hs|]. split; [exact Hm|].
  refine (proj2 (proj2 (projection_needs_three_groups four_months _ "Pets" _))
            despesa Hs Hm).
  vm_compute. reflexivity.
Defined.

(** C5. For every category in the projection map, the 12 monthly
    predictions are the values of the fitted line at months 1 to 12 clamped
    at 0, each of them is at least 0, and [annual_total] is the sum of these
    12 clamped predictions. *)
Theorem projection_predictions_nonnegative df p c pr :
  predict_annual_projection df = Some p ->
  dict_get p c = Some pr ->
  let cat_data := category_rows c (monthly_category df) in
  let model :=
    fit (map (fun r => inject_Z (month_num r)) cat_data) (map gr_amount cat_data) in
  monthly_predictions pr = map (fun v => Qmax v 0) (predict model future_months) /\
  length (monthly_predictions pr) = 12%nat /\
  (forall i, (1 <= i <= 12)%nat -> 0 <= nth (i - 1) (monthly_predictions pr) 0) /\
  annual_total pr = sum (monthly_predictions pr).
Proof.
  intros Hp Hc cat_data model.
  rewrite (projection_get df p c Hp) in Hc.
  destruct (3 <=? length (category_rows c (monthly_category df)))%nat;
    [|discriminate].
  injection Hc as <-. fold cat_data. unfold project. fold model.
  cbn [monthly_predictions annual_total].
  split; [reflexivity|].
  split; [unfold predict; rewrite !length_map; reflexivity|].
  split; [|reflexivity].
  intros i Hi.
  set (l := map (fun v => Qmax v 0) (predict model future_months)).
  assert (Hlen : length l = 12%nat)
    by (unfold l, predict; rewrite !length_map; reflexivity).
  assert (Hin : In (nth (i - 1) l 0) l) by (apply nth_In; lia).
  unfold l in Hin at 2. apply in_map_iff in Hin.
  destruct Hin as [v [<- _]]. apply Q.le_max_r.
Qed.

Lemma projection_predictions_nonnegative_witness :
  exists p pr,
    predict_annual_projection four_months = Some p /\
    dict_get p "Transporte" = Some pr /\
    length (monthly_predictions pr) = 12%nat /\
    (forall i, (1 <= i <= 12)%nat -> 0 <= nth (i - 1) (monthly_predictions pr) 0) /\
    annual_total pr = sum (monthly_predictions pr).
Proof.
  eexists. eexists.
  split; [vm_compute; reflexivity|].
  split; [vm_compute; reflexivity|].
  refine (proj2 (projection_predictions_nonnegative four_months _ "Transporte" _ _ _)).
  - vm_compute. reflexivity.
  - vm_compute. reflexivity.
Defined.

(** C8, as stated, fails: for the category entered under both types in two
    months the confidence is 4/12, not 2/12. *)
Lemma confidence_two_months_counterexample :
  exists p pr,
    predict_annual_projection mixed_types = Some p /\
    dict_get p "Vendas" = Some pr /\
    ~ confidence pr ==
      Qmin (inject_Z (Z.of_nat (distinct_months "Vendas" mixed_types)) / 12) 1.
Proof.
  eexists. eexists.
  split; [vm_compute; reflexivity|].
  split; [vm_compute; reflexivity|].
  intros H. vm_compute in H. discriminate.
Qed.

(** C8, amended. For every category in the projection map, the confidence
    is min(number of distinct (month number, type) combinations of the
    category / 12, 1) and lies in [0, 1]; when all transactions of the
    category carry one type, it is min(number of distinct month numbers
    (1 to 12, the year left out) / 12, 1). *)
Theorem projection_confidence df p c pr :
  predict_annual_projection df = Some p ->
  dict_get p c = Some pr ->
  confidence pr = Qmin (inject_Z (Z.of_nat (distinct_groups c df)) / 12) 1 /\
  0 <= confidence pr <= 1 /\
  (forall k, single_type c k df ->
     confidence pr = Qmin (inject_Z (Z.of_nat (distinct_months c df)) / 12) 1).
Proof.
  intros Hp Hc.
  rewrite (projection_get df p c Hp) in Hc.
  destruct (3 <=? length (category_rows c (monthly_category df)))%nat;
    [|discriminate].
  injection Hc as <-. unfold project. simpl. unfold Qlen.
  rewrite category_rows_count.
  split; [reflexivity|].
  split; [apply confidence_range|].
  intros k Hs. rewrite (distinct_groups_single_type df c k Hs). reflexivity.
Qed.

Lemma projection_confidence_witness :
  exists p pr,
    predict_annual_projection four_months = Some p /\
    dict_get p "Transporte" = Some pr /\
    single_type "Transporte" despesa four_months /\
    confidence pr = Qmin (4 / 12) 1.
Proof.
  assert (Hs : single_type "Transporte" despesa four_months).
  { intros tx Hin Hc. simpl in Hin.
    repeat (destruct Hin as [<- | Hin]; [reflexivity || discriminate|]).
    contradiction. }
  eexists. eexists.
  split; [vm_compute; reflexivity|].
  split; [vm_compute; reflexivity|].
  split; [exact Hs|].
  refine (proj2 (proj2 (projection_confidence four_months _ "Transporte" _ _ _))
            despesa Hs).
  - vm_compute. reflexivity.
  - vm_compute. reflexivity.
Defined.

(** One category under one type in four calendar months, two of them the
    November of different years: the month numbers are three, and so is
    the count the confidence is taken from. *)
Example confidence_counts_month_numbers :
  exists p pr,
    predict_annual_projection november_twice = Some p /\
    dict_get p "Internet" = Some pr /\
    length (unique (fun a b => (fst a =? fst b)%Z && (snd a =? snd b)%Z)
              (map (fun tx => (year (tx_date tx), month (tx_date tx)))
                   november_twice)) = 4%nat /\
    distinct_months "Internet" november_twice = 3%nat /\
    confidence pr == 3 # 12.
Proof.
  eexists. eexists. split; [vm_compute; reflexivity|].
  split; [vm_compute; reflexivity|].
  repeat split; reflexivity.
Qed.

(** ** Anomaly detection *)

Lemma z_score_of_ok amount mean_amount std_amount :
  z_score_of amount mean_amount std_amount =
  Ok (z_value amount mean_amount std_amount).
Proof.
  unfold z_score_of, z_value, checked_div.
  destruct (Qlt_bool 0 std_amount) eqn:E; auto.
  destruct (Qeq_bool std_amount 0) eqn:E0; auto.
  apply Qlt_bool_iff in E. apply Qeq_bool_iff in E0.
  rewrite E0 in E. exfalso. exact (Qlt_irrefl 0 E).
Qed.

Section AnomalyFacts.
Variable sqrt : Q -> Q.

(** The inner loop never fails and appends what [flag] gives, row by row. *)
Lemma scan_category_ok threshold cat_data anomalies :
  scan_category sqrt threshold cat_data anomalies =
  Ok (anomalies ++
      flat_map (flag threshold (mean (map tx_amount cat_data))
                  (std sqrt (map tx_amount cat_data)))
               cat_data).
Proof.
  unfold scan_category.
  generalize (mean (map tx_amount cat_data)) as m.
  generalize (std sqrt (map tx_amount cat_data)) as s.
  intros s m. revert anomalies.
  induction cat_data as [|tx l IH]; intros anomalies; simpl.
  - rewrite app_nil_r. reflexivity.
  - rewrite z_score_of_ok. cbv beta iota delta [bind].
    unfold flag at 1. cbv zeta.
    destruct (Qlt_bool threshold (z_value (tx_amount tx) m s)).
    + rewrite IH, <- app_assoc. reflexivity.
    + rewrite IH. reflexivity.
Qed.

Lemma flagged_from df threshold cats :
  forall anomalies,
    foldM
      (fun anomalies category =>
         let cat_data := category_transactions category df in
         if (length cat_data <? 5)%nat then Ok anomalies
         else scan_category sqrt threshold cat_data anomalies)
      cats anomalies =
    Ok (anomalies ++ flat_map (flag_category sqrt threshold df) cats).
Proof.
  induction cats as [|c cats IH]; intros anomalies; simpl.
  - rewrite app_nil_r. reflexivity.
  - unfold flag_category at 1. cbv zeta.
    destruct (length (category_transactions c df) <? 5)%nat.
    + cbv beta iota delta [bind]. rewrite IH. reflexivity.
    + rewrite scan_category_ok. cbv beta iota delta [bind].
      rewrite IH, <- app_assoc. reflexivity.
Qed.

(** The anomalies in the order they are met. *)
Lemma flagged_ok df threshold :
  flagged sqrt df threshold =
  Ok (flat_map (flag_category sqrt threshold df)
        (unique String.eqb (map tx_category df))).
Proof. unfold flagged. rewrite flagged_from. reflexivity. Qed.

Lemma detect_anomalies_ok df threshold :
  detect_anomalies sqrt df threshold =
  Ok (sort_desc z_score
        (flat_map (flag_category sqrt threshold df)
           (unique String.eqb (map tx_category df)))).
Proof.
  unfold detect_anomalies. destruct df as [|tx df]; [reflexivity|].
  rewrite flagged_ok. reflexivity.
Qed.

(** Where a flagged anomaly comes from. *)
Lemma flag_category_In df threshold cats a :
  In a (flat_map (flag_category sqrt threshold df) cats) ->
  let cat_data := category_transactions (an_category a) df in
  (5 <= length cat_data)%nat /\
  exists tx,
    In tx cat_data /\
    an_id a = tx_id tx /\
    an_amount a = tx_amount tx /\
    z_score a =
      z_value (an_amount a) (mean (map tx_amount cat_data))
        (std sqrt (map tx_amount cat_data)) /\
    threshold < z_score a.
Proof.
  intros Hin. apply in_flat_map in Hin. destruct Hin as [c [_ Hin]].
  unfold flag_category in Hin.
  destruct (length (category_transactions c df) <? 5)%nat eqn:E5;
    [contradiction|].
  apply Nat.ltb_ge in E5.
  apply in_flat_map in Hin. destruct Hin as [tx [Htx Hin]].
  unfold flag in Hin.
  destruct (Qlt_bool threshold _) eqn:Et; [|contradiction].
  destruct Hin as [<- | []]. cbn [an_category an_id an_amount z_score].
  assert (Hc : tx_category tx = c).
  { unfold category_transactions in Htx. apply filter_In in Htx.
    apply String.eqb_eq. tauto. }
  rewrite Hc. split; [exact E5|].
  exists tx. repeat split; auto.
  apply Qlt_bool_iff. exact Et.
Qed.

Lemma detect_anomalies_In df threshold a :
  In a (sort_desc z_score
          (flat_map (flag_category sqrt threshold df)
             (unique String.eqb (map tx_category df)))) ->
  In a (flat_map (flag_category sqrt threshold df)
          (unique String.eqb (map tx_category df))).
Proof. apply Permutation_in, sort_perm. Qed.
End AnomalyFacts.

(** C6. Every anomaly returned by [detect_anomalies] belongs to a category
    with at least 5 transactions in the frame; no anomaly carries the
    category of a transaction whose category has fewer than 5. *)
Theorem anomalies_need_five_transactions sqrt df threshold :
  exists anomalies,
    detect_anomalies sqrt df threshold = Ok anomalies /\
    (forall a, In a anomalies ->
       (5 <= length (category_transactions (an_category a) df))%nat) /\
    (forall tx, In tx df ->
       (length (category_transactions (tx_category tx) df) < 5)%nat ->
       forall a, In a anomalies -> an_category a <> tx_category tx).
Proof.
  eexists. split; [apply detect_anomalies_ok|].
  assert (H5 : forall a,
             In a (sort_desc z_score
                     (flat_map (flag_category sqrt threshold df)
                        (unique String.eqb (map tx_category df)))) ->
             (5 <= length (category_transactions (an_category a) df))%nat).
  { intros a Ha. apply detect_anomalies_In in Ha.
    apply flag_category_In in Ha. tauto. }
  split; [exact H5|].
  intros tx _ Hlt a Ha Heq. apply H5 in Ha. rewrite Heq in Ha. lia.
Qed.

Lemma anomalies_need_five_transactions_witness :
  exists anomalies,
    detect_anomalies sqrt_floor outlier_frame 1 = Ok anomalies /\
    (forall a, In a anomalies ->
       (5 <= length (category_transactions (an_category a) outlier_frame))%nat) /\
    (forall tx, In tx outlier_frame ->
       (length (category_transactions (tx_category tx) outlier_frame) < 5)%nat ->
       forall a, In a anomalies -> an_category a <> tx_category tx).
Proof. exact (anomalies_need_five_transactions sqrt_floor outlier_frame 1). Defined.

(** On [outlier_frame] with threshold 1 the only anomaly is the expense of
    500: the two "Pets" expenses are far apart, but the category has too
    few transactions to be looked at. *)
Example outlier_frame_anomalies :
  exists anomalies,
    detect_anomalies sqrt_floor outlier_frame 1 = Ok anomalies /\
    map an_id anomalies = [5%Z] /\
    map an_category anomalies = ["Transporte"%string].
Proof. eexists. split; [vm_compute; reflexivity|]. split; reflexivity. Qed.

(** C7. The list returned by [detect_anomalies] is in descending order of
    z-score, on every pair of adjacent positions, and anomalies of equal
    z-score stay in the order in which the loops met them. *)
Theorem anomalies_sorted_stable sqrt df threshold :
  exists encountered anomalies,
    flagged sqrt df threshold = Ok encountered /\
    detect_anomalies sqrt df threshold = Ok anomalies /\
    descending z_score anomalies /\
    (forall i d, (S i < length anomalies)%nat ->
       z_score (nth (S i) anomalies d) <= z_score (nth i anomalies d)) /\
    (forall v, with_key z_score v anomalies = with_key z_score v encountered).
Proof.
  eexists. eexists.
  split; [apply flagged_ok|].
  split; [apply detect_anomalies_ok|].
  split; [apply sort_desc_descending|].
  split.
  - intros i d Hi. apply descending_adjacent; [apply sort_desc_descending | exact Hi].
  - intros v. apply sort_desc_stable.
Qed.

Lemma anomalies_sorted_stable_witness :
  exists encountered anomalies,
    flagged sqrt_floor outlier_frame 1 = Ok encountered /\
    detect_anomalies sqrt_floor outlier_frame 1 = Ok anomalies /\
    descending z_score anomalies /\
    (forall i d, (S i < length anomalies)%nat ->
       z_score (nth (S i) anomalies d) <= z_score (nth i anomalies d)) /\
    (forall v, with_key z_score v anomalies = with_key z_score v encountered).
Proof. exact (anomalies_sorted_stable sqrt_floor outlier_frame 1). Defined.

(** ** Z-scores on doubles *)

Lemma fold_left_appends {A B} (step : list B -> A -> list B) (f : A -> list B) l :
  (forall acc x, step acc x = acc ++ f x) ->
  forall acc, fold_left step l acc = acc ++ flat_map f l.
Proof.
  intros Hstep. induction l as [|x l IH]; intros acc; simpl.
  - rewrite app_nil_r. reflexivity.
  - rewrite IH, Hstep, <- app_assoc. reflexivity.
Qed.

Section DoubleFacts.
Variable fsum : list PrimFloat.float -> PrimFloat.float.

Lemma doubles_scan_category threshold cat_data anomalies :
  Doubles.scan_category fsum threshold cat_data anomalies =
  anomalies ++
  flat_map (Doubles.flag threshold
              (Doubles.mean fsum (map Doubles.amount cat_data))
              (Doubles.std fsum (map Doubles.amount cat_data)))
           cat_data.
Proof.
  unfold Doubles.scan_category. cbv zeta.
  apply fold_left_appends. intros acc tx. unfold Doubles.flag. cbv zeta.
  destruct (PrimFloat.ltb threshold _); [reflexivity|].
  rewrite app_nil_r. reflexivity.
Qed.

(** The anomalies of one category, in row order. *)
Lemma doubles_flagged df threshold :
  Doubles.flagged fsum df threshold =
  flat_map
    (fun category =>
       let cat_data := category_transactions category df in
       if (length cat_data <? 5)%nat then []
       else flat_map (Doubles.flag threshold
                        (Doubles.mean fsum (map Doubles.amount cat_data))
                        (Doubles.std fsum (map Doubles.amount cat_data)))
                     cat_data)
    (unique String.eqb (map tx_category df)).
Proof.
  unfold Doubles.flagged.
  rewrite (fold_left_appends _
             (fun category =>
                let cat_data := category_transactions category df in
                if (length cat_data <? 5)%nat then []
                else flat_map (Doubles.flag threshold
                                 (Doubles.mean fsum (map Doubles.amount cat_data))
                                 (Doubles.std fsum (map Doubles.amount cat_data)))
                              cat_data)).
  - reflexivity.
  - intros acc c. cbv zeta.
    destruct (length (category_transactions c df) <? 5)%nat.
    + rewrite app_nil_r. reflexivity.
    + apply doubles_scan_category.
Qed.

Lemma doubles_flag_In threshold m s tx a :
  In a (Doubles.flag threshold m s tx) ->
  Doubles.an_id a = tx_id tx /\
  Doubles.an_amount a = Doubles.amount tx /\
  Doubles.an_category a = tx_category tx /\
  Doubles.z_score a = Doubles.z_score_of (Doubles.amount tx) m s /\
  PrimFloat.ltb threshold (Doubles.z_score a) = true.
Proof.
  unfold Doubles.flag. cbv zeta.
  destruct (PrimFloat.ltb threshold (Doubles.z_score_of (Doubles.amount tx) m s))
    eqn:E; [|intros []].
  intros [<- | []]. cbn. repeat split; auto.
Qed.

(** Every anomaly returned comes from a row of a category of at least 5
    rows, flagged against the mean and the deviation of that category. *)
Lemma doubles_detect_In df threshold a :
  In a (Doubles.detect_anomalies fsum df threshold) ->
  let cat_data := category_transactions (Doubles.an_category a) df in
  (5 <= length cat_data)%nat /\
  exists tx,
    In tx cat_data /\
    In a (Doubles.flag threshold
            (Doubles.mean fsum (map Doubles.amount cat_data))
            (Doubles.std fsum (map Doubles.amount cat_data)) tx).
Proof.
  intros Ha. cbv zeta.
  assert (Hf : In a (Doubles.flagged fsum df threshold)).
  { unfold Doubles.detect_anomalies in Ha. destruct df; [destruct Ha|].
    eapply Permutation_in; [apply sort_perm | exact Ha]. }
  rewrite doubles_flagged in Hf. apply in_flat_map in Hf.
  destruct Hf as [c [_ Hc]]. cbv zeta in Hc.
  destruct (length (category_transactions c df) <? 5)%nat eqn:E; [destruct Hc|].
  apply Nat.ltb_ge in E. apply in_flat_map in Hc. destruct Hc as [tx [Htx Hfl]].
  assert (Hcat : Doubles.an_category a = c).
  { destruct (doubles_flag_In _ _ _ _ _ Hfl) as [_ [_ [-> _]]].
    unfold category_transactions in Htx. apply filter_In in Htx.
    destruct Htx as [_ Htx]. apply String.eqb_eq in Htx. exact Htx. }
  rewrite Hcat. split; [exact E|]. exists tx. auto.
Qed.
End DoubleFacts.

(** C10, as stated, fails on doubles.  The six amounts of 0.1 of one
    category are all equal, yet their mean rounds to a double below 0.1,
    the deviation is above 0, every z-score is between 1/2 and 1, and with
    the positive threshold 1/2 all six transactions are flagged. *)
Lemma equal_amounts_flagged_counterexample :
  let amounts :=
    map Doubles.amount (category_transactions "Café" six_tenths) in
  (forall tx, In tx (category_transactions "Café" six_tenths) ->
     tx_amount tx == 1 # 10 /\ Doubles.amount tx = Doubles.to_double (1 # 10)) /\
  PrimFloat.ltb 0%float 0.5%float = true /\
  PrimFloat.ltb (Doubles.mean Doubles.sum_in_order amounts)
                (Doubles.to_double (1 # 10)) = true /\
  PrimFloat.ltb 0%float (Doubles.std Doubles.sum_in_order amounts) = true /\
  map Doubles.an_id
    (Doubles.detect_anomalies Doubles.sum_in_order six_tenths 0.5%float)
  = [1; 2; 3; 4; 5; 6]%Z /\
  forallb (fun a => PrimFloat.ltb 0.5%float (Doubles.z_score a)
                    && PrimFloat.ltb (Doubles.z_score a) 1%float)
    (Doubles.detect_anomalies Doubles.sum_in_order six_tenths 0.5%float) = true.
Proof.
  cbv zeta. split.
  - intros tx Hin. vm_compute in Hin.
    repeat (destruct Hin as [<- | Hin]; [split; reflexivity|]). contradiction.
  - repeat split; vm_compute; reflexivity.
Qed.

(** C10, amended.  The z-score of every anomaly that [detect_anomalies]
    returns is taken against the sample standard deviation of the amounts
    of its category: the root of the sum of the squared deviations from
    the mean over n - 1, n being at least 5; it is above the threshold.
    For a category whose deviation, so computed, is not above 0, every
    z-score is 0 and no transaction is flagged for any threshold that is
    not below 0, so for any positive one.  This holds whatever the order
    in which the sums are added. *)
Theorem z_score_sample_std fsum df threshold :
  (forall a, In a (Doubles.detect_anomalies fsum df threshold) ->
     let cat_data := category_transactions (Doubles.an_category a) df in
     let amounts := map Doubles.amount cat_data in
     let n := Doubles.of_nat (length amounts) in
     let m := PrimFloat.div (fsum amounts) n in
     let s :=
       PrimFloat.sqrt
         (PrimFloat.div
            (fsum (map (fun x => PrimFloat.mul (PrimFloat.sub m x)
                                               (PrimFloat.sub m x)) amounts))
            (PrimFloat.sub n 1%float)) in
     (5 <= length cat_data)%nat /\
     (exists tx, In tx cat_data /\ Doubles.an_id a = tx_id tx /\
                 Doubles.an_amount a = Doubles.amount tx) /\
     Doubles.z_score a =
       (if PrimFloat.ltb 0%float s
        then PrimFloat.abs (PrimFloat.div (PrimFloat.sub (Doubles.an_amount a) m) s)
        else 0%float) /\
     PrimFloat.ltb threshold (Doubles.z_score a) = true /\
     (PrimFloat.ltb threshold 0%float = false -> PrimFloat.ltb 0%float s = true)) /\
  (forall c,
     let amounts := map Doubles.amount (category_transactions c df) in
     PrimFloat.ltb 0%float (Doubles.std fsum amounts) = false ->
     (forall tx, In tx (category_transactions c df) ->
        Doubles.z_score_of (Doubles.amount tx) (Doubles.mean fsum amounts)
          (Doubles.std fsum amounts) = 0%float) /\
     (PrimFloat.ltb threshold 0%float = false ->
      forall a, In a (Doubles.detect_anomalies fsum df threshold) ->
                Doubles.an_category a <> c)).
Proof.
  split.
  - intros a Ha cat_data amounts n m s.
    destruct (doubles_detect_In fsum df threshold a Ha)
      as [Hlen [tx [Htx Hfl]]].
    destruct (doubles_flag_In _ _ _ _ _ Hfl) as [Hid [Ham [_ [Hz Ht]]]].
    split; [exact Hlen|].
    split; [exists tx; auto|].
    assert (Hzs : Doubles.z_score a =
              if PrimFloat.ltb 0%float s
              then PrimFloat.abs
                     (PrimFloat.div (PrimFloat.sub (Doubles.an_amount a) m) s)
              else 0%float)
      by (rewrite Ham; exact Hz).
    split; [exact Hzs|]. split; [exact Ht|].
    intros Hnn.
    destruct (PrimFloat.ltb 0%float s) eqn:E; [reflexivity|].
    rewrite Hzs in Ht. congruence.
  - intros c amounts Hstd. split.
    + intros tx _. unfold Doubles.z_score_of. rewrite Hstd. reflexivity.
    + intros Hnn a Ha Hc.
      destruct (doubles_detect_In fsum df threshold a Ha) as [_ [tx [_ Hfl]]].
      destruct (doubles_flag_In _ _ _ _ _ Hfl) as [_ [_ [_ [Hz Ht]]]].
      rewrite Hc in Hz. fold amounts in Hz.
      unfold Doubles.z_score_of in Hz. rewrite Hstd in Hz.
      rewrite Hz in Ht. congruence.
Qed.

(** Five amounts of 0.1: the mean is the double of 0.1, the deviation is
    0 and nothing is flagged.  Five amounts of 10 and one of 100: the
    z-score of 100 is 5 / sqrt 6, about 2.04, against n - 1 (it would be
    about 2.24 against n), so it is flagged at the threshold 2 and not at
    2.1. *)
Lemma z_score_sample_std_witness :
  PrimFloat.ltb 0
    (Doubles.std Doubles.sum_in_order
       (map Doubles.amount (category_transactions "Café" five_tenths))) = false /\
  PrimFloat.ltb 0.5%float 0 = false /\
  (forall a, In a (Doubles.detect_anomalies Doubles.sum_in_order five_tenths 0.5%float) ->
             Doubles.an_category a <> "Café"%string) /\
  map Doubles.an_id (Doubles.detect_anomalies Doubles.sum_in_order one_large 2%float)
    = [6%Z] /\
  Doubles.detect_anomalies Doubles.sum_in_order one_large
    (Doubles.to_double (21 # 10)) = [] /\
  (forall a, In a (Doubles.detect_anomalies Doubles.sum_in_order one_large 2%float) ->
     PrimFloat.ltb 2%float (Doubles.z_score a) = true).
Proof.
  assert (Hs : PrimFloat.ltb 0
    (Doubles.std Doubles.sum_in_order
       (map Doubles.amount (category_transactions "Café" five_tenths))) = false)
    by (vm_compute; reflexivity).
  assert (Ht : PrimFloat.ltb 0.5%float 0 = false) by (vm_compute; reflexivity).
  split; [exact Hs|]. split; [exact Ht|].
  split.
  - exact (proj2 (proj2 (z_score_sample_std Doubles.sum_in_order five_tenths 0.5%float)
                    "Café"%string Hs) Ht).
  - split; [vm_compute; reflexivity|]. split; [vm_compute; reflexivity|].
    intros a Ha.
    exact (proj1 (proj2 (proj2 (proj2
             (proj1 (z_score_sample_std Doubles.sum_in_order one_large 2%float) a Ha))))).
Defined.

(** ** The examples of the specification *)

(** Income 3000 and expenses of 1000, 400 and 200: the totals, the balance,
    a savings rate of 140/3 (46.67 per cent) and the top categories in
    that order. *)
Example insights_of_sample_month :
  exists ins,
    calculate_category_insights sample_month 2024 5 = Ok (Some ins) /\
    total_income ins == 3000 /\
    total_expenses ins == 1600 /\
    balance ins == 1400 /\
    savings_rate ins == 140 # 3 /\
    map sr_category (top_expense_categories ins) =
      ["Moradia"; "Alimentação - Casa"; "Transporte"]%string.
Proof.
  eexists. split; [vm_compute; reflexivity|].
  repeat split; reflexivity.
Qed.

(** Monthly amounts of 100, 110, 120 and 130 over four consecutive months:
    a rising line and a confidence of 4/12. *)
Example projection_of_four_months :
  exists p pr,
    predict_annual_projection four_months = Some p /\
    dict_keys p = ["Transporte"%string] /\
    dict_get p "Transporte" = Some pr /\
    trend pr = "crescente"%string /\
    confidence pr == 4 # 12.
Proof.
  eexists. eexists. split; [vm_compute; reflexivity|].
  split; [reflexivity|]. split; [vm_compute; reflexivity|].
  split; reflexivity.
Qed.

(** Amounts 50, 52, 48, 51 and 500 with threshold 2: the sample standard
    deviation is large enough to keep the z-score of 500 below 2 (it is
    about 1.79), so nothing is flagged. *)
Example threshold_two_flags_nothing :
  detect_anomalies sqrt_floor outlier_frame 2 = Ok [].
Proof. vm_compute. reflexivity. Qed.

(** * Further properties *)

(** ** Grouping *)

Lemma filter_filter_implied {A} (p q : A -> bool) l :
  (forall a, In a l -> q a = true -> p a = true) ->
  filter q (filter p l) = filter q l.
Proof.
  intros H. induction l as [|x l IH]; simpl; auto.
  assert (IH' : filter q (filter p l) = filter q l)
    by (apply IH; intros a Ha; apply H; right; exact Ha).
  destruct (p x) eqn:Hp; simpl.
  - rewrite IH'. reflexivity.
  - destruct (q x) eqn:Hq; auto.
    rewrite (H x) in Hp by (simpl; auto). discriminate.
Qed.

Lemma flat_map_ext_in {A B} (f g : A -> list B) l :
  (forall a, In a l -> f a = g a) -> flat_map f l = flat_map g l.
Proof.
  intros H. induction l as [|x l IH]; simpl; auto.
  rewrite (H x) by (left; reflexivity).
  rewrite IH by (intros a Ha; apply H; right; exact Ha).
  reflexivity.
Qed.

Lemma filter_split_perm {A} (p q : A -> bool) l :
  (forall a, q a = negb (p a)) ->
  Permutation (filter p l ++ filter q l) l.
Proof.
  intros H. induction l as [|x l IH]; simpl; auto.
  rewrite (H x). destruct (p x); simpl.
  - constructor. exact IH.
  - symmetry. apply Permutation_cons_app. symmetry. exact IH.
Qed.

Lemma filter_perm {A} (p : A -> bool) l l' :
  Permutation l l' -> Permutation (filter p l) (filter p l').
Proof.
  induction 1 as [|x l l' _ IH|x y l|l l' l'' _ IH1 _ IH2]; simpl.
  - constructor.
  - destruct (p x); auto.
  - destruct (p x), (p y); auto. apply perm_swap.
  - etransitivity; eassumption.
Qed.

Section GroupFacts.
Context {A K : Type} (eqb : K -> K -> bool) (f : A -> K).
Hypothesis eqb_spec : forall x y, eqb x y = true <-> x = y.

Lemma eqb_refl_of_spec x : eqb x x = true.
Proof. apply eqb_spec. reflexivity. Qed.

Lemma eqb_sym_of_spec x y : eqb x y = eqb y x.
Proof.
  destruct (eqb x y) eqn:E1, (eqb y x) eqn:E2; auto.
  - apply eqb_spec in E1. subst. rewrite eqb_refl_of_spec in E2. discriminate.
  - apply eqb_spec in E2. subst. rewrite eqb_refl_of_spec in E1. discriminate.
Qed.

(** The groups of a [groupby], taken in the order of their keys, hold
    every row exactly once. *)
Lemma groups_partition_le n :
  forall l, (length l <= n)%nat ->
    Permutation
      (flat_map (fun k => filter (fun a => eqb (f a) k) l) (unique eqb (map f l)))
      l.
Proof.
  induction n as [|n IH]; intros l Hlen.
  - destruct l; [constructor | simpl in Hlen; lia].
  - destruct l as [|x l]; [constructor|].
    set (rest := filter (fun a => negb (eqb (f x) (f a))) l).
    assert (Hkeys : unique eqb (map f (x :: l)) = f x :: unique eqb (map f rest)).
    { simpl. f_equal. unfold rest.
      rewrite (filter_unique eqb eqb_spec), filter_map_swap. reflexivity. }
    rewrite Hkeys. simpl flat_map. rewrite eqb_refl_of_spec.
    rewrite (flat_map_ext_in _ (fun k => filter (fun a => eqb (f a) k) rest)).
    + simpl. constructor.
      rewrite (IH rest).
      * apply filter_split_perm. intros a. rewrite eqb_sym_of_spec. reflexivity.
      * unfold rest.
        pose proof (filter_length_le (fun a => negb (eqb (f x) (f a))) l).
        simpl in Hlen. lia.
    + intros k Hk. apply (proj1 (unique_In eqb eqb_spec _ _)) in Hk.
      apply in_map_iff in Hk. destruct Hk as [a [<- Ha]].
      unfold rest in Ha. apply filter_In in Ha. destruct Ha as [_ Hne].
      apply negb_true_iff in Hne.
      simpl. rewrite Hne. unfold rest.
      symmetry. apply filter_filter_implied.
      intros b _ Hb. apply eqb_spec in Hb.
      rewrite Hb, Hne. reflexivity.
Qed.

Lemma groups_partition l :
  Permutation
    (flat_map (fun k => filter (fun a => eqb (f a) k) l) (unique eqb (map f l)))
    l.
Proof. apply (groups_partition_le (length l)). apply Nat.le_refl. Qed.
End GroupFacts.

Lemma sum_app l1 l2 : sum (l1 ++ l2) == sum l1 + sum l2.
Proof.
  induction l1 as [|x l1 IH]; simpl; [ring|]. rewrite IH. ring.
Qed.

Lemma sum_perm l l' : Permutation l l' -> sum l == sum l'.
Proof.
  induction 1 as [|x l l' _ IH|x y l|l l' l'' _ IH1 _ IH2]; simpl.
  - reflexivity.
  - rewrite IH. reflexivity.
  - ring.
  - rewrite IH1. exact IH2.
Qed.

Lemma Zsum_perm l l' : Permutation l l' -> Zsum l = Zsum l'.
Proof.
  induction 1 as [|x l l' _ IH|x y l|l l' l'' _ IH1 _ IH2]; simpl; lia.
Qed.

Lemma sum_flat_map {A B} (g : B -> Q) (G : A -> list B) ks :
  sum (map g (flat_map G ks)) == sum (map (fun k => sum (map g (G k))) ks).
Proof.
  induction ks as [|k ks IH]; simpl; [reflexivity|].
  rewrite map_app, sum_app, IH. reflexivity.
Qed.

Lemma Zsum_flat_map_length {A B} (G : A -> list B) ks :
  Zsum (map (fun k => Z.of_nat (length (G k))) ks) =
  Z.of_nat (length (flat_map G ks)).
Proof.
  induction ks as [|k ks IH]; simpl; [reflexivity|].
  rewrite length_app, Nat2Z.inj_add, IH. reflexivity.
Qed.

(** The sum of the group sums is the sum of the whole column. *)
Lemma sum_by_groups {A K} (eqb : K -> K -> bool) (f : A -> K) (g : A -> Q)
    (eqb_spec : forall x y, eqb x y = true <-> x = y) l :
  sum (map (fun k => sum (map g (filter (fun a => eqb (f a) k) l)))
           (unique eqb (map f l)))
  == sum (map g l).
Proof.
  rewrite <- sum_flat_map. apply sum_perm, Permutation_map.
  apply groups_partition. exact eqb_spec.
Qed.

(** ** The monthly summary and the transactions behind it *)

Lemma summary_rows_perm db y m :
  Permutation
    (FinanceDatabase.get_monthly_summary db y m)
    (map (fun g =>
            mkSummaryRow (fst g) (snd g)
              (sum (map tx_amount
                      (filter (FinanceDatabase.in_group g) (month_transactions db y m))))
              (Z.of_nat
                 (length (filter (FinanceDatabase.in_group g)
                            (month_transactions db y m)))))
         (unique FinanceDatabase.group_eqb
            (map (fun tx => (tx_category tx, tx_type tx)) (month_transactions db y m)))).
Proof. apply sort_perm. Qed.

Lemma summary_counts db y m :
  Zsum (map sr_count (FinanceDatabase.get_monthly_summary db y m)) =
  Z.of_nat (length (month_transactions db y m)).
Proof.
  rewrite (Zsum_perm _ _ (Permutation_map sr_count (summary_rows_perm db y m))).
  rewrite map_map. cbn [sr_count].
  rewrite (Zsum_flat_map_length
             (fun g => filter (FinanceDatabase.in_group g) (month_transactions db y m))).
  f_equal. apply Permutation_length.
  apply (groups_partition FinanceDatabase.group_eqb
           (fun tx => (tx_category tx, tx_type tx)) group_eqb_spec).
Qed.

Lemma summary_totals db y m :
  sum (map sr_total (FinanceDatabase.get_monthly_summary db y m)) ==
  sum (map tx_amount (month_transactions db y m)).
Proof.
  rewrite (sum_perm _ _ (Permutation_map sr_total (summary_rows_perm db y m))).
  rewrite map_map. cbn [sr_total].
  apply (sum_by_groups FinanceDatabase.group_eqb
           (fun tx => (tx_category tx, tx_type tx)) tx_amount group_eqb_spec).
Qed.

Lemma summary_nil_iff db y m :
  FinanceDatabase.get_monthly_summary db y m = [] <->
  month_transactions db y m = [].
Proof.
  split.
  - intros E. pose proof (summary_counts db y m) as Hc.
    rewrite E in Hc. simpl in Hc.
    destruct (month_transactions db y m); [reflexivity | simpl in Hc; lia].
  - intros E. unfold FinanceDatabase.get_monthly_summary.
    fold (month_transactions db y m). rewrite E. reflexivity.
Qed.

(** X1. The counts of the rows of [get_monthly_summary] add up to the
    number of transactions of the month, and their totals to the sum of
    the amounts of these transactions. *)
Theorem monthly_summary_conserves db y m :
  Zsum (map sr_count (FinanceDatabase.get_monthly_summary db y m)) =
    Z.of_nat (length (month_transactions db y m)) /\
  sum (map sr_total (FinanceDatabase.get_monthly_summary db y m)) ==
    sum (map tx_amount (month_transactions db y m)).
Proof. split; [apply summary_counts | apply summary_totals]. Qed.

(** X2. [get_monthly_summary] is empty exactly when the month has no
    transaction, and this is exactly when [calculate_category_insights]
    returns the empty result. *)
Theorem monthly_summary_empty_iff db y m :
  (FinanceDatabase.get_monthly_summary db y m = [] <->
   month_transactions db y m = []) /\
  (calculate_category_insights db y m = Ok None <->
   month_transactions db y m = []).
Proof.
  split; [apply summary_nil_iff|].
  rewrite <- summary_nil_iff. unfold calculate_category_insights.
  destruct (FinanceDatabase.get_monthly_summary db y m) as [|r rows] eqn:E.
  - split; reflexivity.
  - rewrite insights_of_rows by discriminate.
    split; discriminate.
Qed.

Lemma summary_rows_of_type_perm db y m k :
  Permutation
    (rows_of_type k (FinanceDatabase.get_monthly_summary db y m))
    (map (fun g =>
            mkSummaryRow (fst g) (snd g)
              (sum (map tx_amount
                      (filter (FinanceDatabase.in_group g)
                         (of_type k (month_transactions db y m)))))
              (Z.of_nat
                 (length (filter (FinanceDatabase.in_group g)
                            (of_type k (month_transactions db y m))))))
         (unique FinanceDatabase.group_eqb
            (map (fun tx => (tx_category tx, tx_type tx))
               (of_type k (month_transactions db y m))))).
Proof.
  unfold rows_of_type.
  rewrite (filter_perm _ _ _ (summary_rows_perm db y m)).
  rewrite filter_map_swap. cbn [sr_type].
  rewrite (filter_unique FinanceDatabase.group_eqb group_eqb_spec).
  rewrite filter_map_swap. cbn [snd]. fold (of_type k (month_transactions db y m)).
  set (L := month_transactions db y m).
  rewrite (map_ext_in
             (fun g =>
                mkSummaryRow (fst g) (snd g)
                  (sum (map tx_amount (filter (FinanceDatabase.in_group g) L)))
                  (Z.of_nat (length (filter (FinanceDatabase.in_group g) L))))
             (fun g =>
                mkSummaryRow (fst g) (snd g)
                  (sum (map tx_amount
                          (filter (FinanceDatabase.in_group g) (of_type k L))))
                  (Z.of_nat
                     (length (filter (FinanceDatabase.in_group g) (of_type k L)))))).
  - reflexivity.
  - intros g Hg.
    apply (proj1 (unique_In _ group_eqb_spec _ _)) in Hg.
    apply in_map_iff in Hg. destruct Hg as [tx [<- Htx]].
    unfold of_type in Htx. apply filter_In in Htx. destruct Htx as [_ Hk].
    assert (E : filter (FinanceDatabase.in_group (tx_category tx, tx_type tx))
                  (of_type k L)
                = filter (FinanceDatabase.in_group (tx_category tx, tx_type tx)) L).
    { unfold of_type. apply filter_filter_implied.
      intros a _ Ha. unfold FinanceDatabase.in_group in Ha.
      apply group_eqb_spec in Ha. inversion Ha as [[Hc Ht]].
      rewrite Ht. exact Hk. }
    rewrite E. reflexivity.
Qed.

Lemma summary_totals_of_type db y m k :
  sum (map sr_total (rows_of_type k (FinanceDatabase.get_monthly_summary db y m)))
  == sum (map tx_amount (of_type k (month_transactions db y m))).
Proof.
  rewrite (sum_perm _ _
             (Permutation_map sr_total (summary_rows_of_type_perm db y m k))).
  rewrite map_map. cbn [sr_total].
  apply (sum_by_groups FinanceDatabase.group_eqb
           (fun tx => (tx_category tx, tx_type tx)) tx_amount group_eqb_spec).
Qed.

Lemma summary_rows_of_type_length db y m k :
  length (rows_of_type k (FinanceDatabase.get_monthly_summary db y m)) =
  distinct_categories (of_type k (month_transactions db y m)).
Proof.
  rewrite (Permutation_length (summary_rows_of_type_perm db y m k)).
  rewrite length_map. unfold distinct_categories.
  apply (unique_map_length FinanceDatabase.group_eqb String.eqb
           group_eqb_spec String.eqb_eq)
    with (n := length (of_type k (month_transactions db y m))).
  - apply Nat.le_refl.
  - intros a b Ha Hb. unfold of_type in Ha, Hb.
    apply filter_In in Ha, Hb. destruct Ha as [_ Ha], Hb as [_ Hb].
    apply Kind_eqb_spec in Ha, Hb. rewrite Ha, Hb.
    split; intros H; [inversion H | rewrite H]; reflexivity.
Qed.

Lemma sum_of_types l :
  sum (map tx_amount l) ==
  sum (map tx_amount (of_type receita l)) + sum (map tx_amount (of_type despesa l)).
Proof.
  rewrite <- sum_app, <- map_app.
  apply sum_perm, Permutation_map. symmetry.
  apply filter_split_perm. intros a. destruct (tx_type a); reflexivity.
Qed.

(** The insights of a month, when there are any. *)
Lemma insights_some db y m ins :
  calculate_category_insights db y m = Ok (Some ins) ->
  let monthly_data := FinanceDatabase.get_monthly_summary db y m in
  let expenses := rows_of_type despesa monthly_data in
  let income := rows_of_type receita monthly_data in
  monthly_data <> [] /\
  total_income ins = sum (map sr_total income) /\
  total_expenses ins = sum (map sr_total expenses) /\
  balance ins = total_income ins - total_expenses ins /\
  savings_rate ins =
    (if Qlt_bool 0 (total_income ins)
     then (total_income ins - total_expenses ins) / total_income ins * 100
     else 0) /\
  top_expense_categories ins = nlargest 5 sr_total expenses /\
  expense_distribution ins = map entry expenses.
Proof.
  intros H. cbv zeta. unfold calculate_category_insights in H.
  set (monthly_data := FinanceDatabase.get_monthly_summary db y m) in *.
  assert (Hne : monthly_data <> []).
  { intros E. rewrite E in H. discriminate. }
  rewrite (insights_of_rows _ Hne) in H. injection H as <-.
  cbn [total_income total_expenses balance savings_rate top_expense_categories
       expense_distribution].
  repeat split; auto.
  apply to_dict_nodup. rewrite map_map. cbn [fst entry].
  apply rows_of_type_categories, summary_groups_nodup.
Qed.

(** X3. The insights of a month add up the right transactions:
    [total_income] is the sum of the amounts of the income transactions of
    the month, [total_expenses] that of its expense transactions, [balance]
    their difference, and the two totals together are the sum of all
    amounts of the month. *)
Theorem insights_totals_by_type db y m ins :
  calculate_category_insights db y m = Ok (Some ins) ->
  total_income ins ==
    sum (map tx_amount (of_type receita (month_transactions db y m))) /\
  total_expenses ins ==
    sum (map tx_amount (of_type despesa (month_transactions db y m))) /\
  balance ins ==
    sum (map tx_amount (of_type receita (month_transactions db y m)))
    - sum (map tx_amount (of_type despesa (month_transactions db y m))) /\
  total_income ins + total_expenses ins ==
    sum (map tx_amount (month_transactions db y m)).
Proof.
  intros H. destruct (insights_some db y m ins H) as [_ [Hi [He [Hb _]]]].
  assert (Ei := summary_totals_of_type db y m receita).
  assert (Ee := summary_totals_of_type db y m despesa).
  rewrite <- Hi in Ei. rewrite <- He in Ee.
  split; [exact Ei|]. split; [exact Ee|].
  split.
  - rewrite Hb, Ei, Ee. reflexivity.
  - rewrite Ei, Ee. symmetry. apply sum_of_types.
Qed.

Lemma insights_totals_by_type_witness :
  exists ins,
    calculate_category_insights sample_month 2024 5 = Ok (Some ins) /\
    total_income ins ==
      sum (map tx_amount (of_type receita (month_transactions sample_month 2024 5))) /\
    total_expenses ins ==
      sum (map tx_amount (of_type despesa (month_transactions sample_month 2024 5))).
Proof.
  eexists. split; [vm_compute; reflexivity|].
  refine ((fun H => conj (proj1 H) (proj1 (proj2 H)))
            (insights_totals_by_type sample_month 2024 5 _ _)).
  vm_compute. reflexivity.
Defined.

Lemma dict_get_In {V} (d : dict V) k v :
  NoDup (dict_keys d) -> (dict_get d k = Some v <-> In (k, v) d).
Proof.
  unfold dict_keys. induction d as [|[k' v'] d IH]; simpl; intros Hnd.
  - split; [discriminate | contradiction].
  - inversion Hnd as [|? ? Hk' Hnd']; subst.
    destruct (String.eqb k' k) eqn:E.
    + apply String.eqb_eq in E. subst k'. split.
      * intros H. injection H as <-. left. reflexivity.
      * intros [H | H]; [injection H as <-; reflexivity|].
        exfalso. apply Hk'. apply in_map_iff. exists (k, v). auto.
    + rewrite (IH Hnd'). split; [auto|].
      intros [H | H]; [|exact H].
      injection H as -> _. rewrite String.eqb_refl in E. discriminate.
Qed.

(** X4. [expense_distribution] maps a category to a value exactly when the
    month has an expense transaction of that category, and the value is
    the sum of the amounts of the month's expense transactions of that
    category. *)
Theorem expense_distribution_lookup db y m ins c v :
  calculate_category_insights db y m = Ok (Some ins) ->
  (dict_get (expense_distribution ins) c = Some v <->
   (exists tx, In tx (month_transactions db y m) /\
               tx_category tx = c /\ tx_type tx = despesa) /\
   v = sum (map tx_amount
              (filter (fun tx => String.eqb (tx_category tx) c
                                 && Kind_eqb (tx_type tx) despesa)
                      (month_transactions db y m)))).
Proof.
  intros H. destruct (insights_some db y m ins H) as [_ [_ [_ [_ [_ [_ Hd]]]]]].
  rewrite Hd, dict_get_In.
  2:{ unfold dict_keys. rewrite map_map. cbn [fst entry].
      apply rows_of_type_categories, summary_groups_nodup. }
  set (L := month_transactions db y m).
  assert (Hrow : forall r,
             In r (FinanceDatabase.get_monthly_summary db y m) <->
             exists g,
               In g (map (fun tx => (tx_category tx, tx_type tx)) L) /\
               r = mkSummaryRow (fst g) (snd g)
                     (sum (map tx_amount (filter (FinanceDatabase.in_group g) L)))
                     (Z.of_nat (length (filter (FinanceDatabase.in_group g) L)))).
  { intros r. split.
    - intros Hr. apply (Permutation_in _ (summary_rows_perm db y m)) in Hr.
      apply in_map_iff in Hr. destruct Hr as [g [<- Hg]].
      exists g. split; [|reflexivity].
      apply (unique_In _ group_eqb_spec). exact Hg.
    - intros [g [Hg ->]].
      apply (Permutation_in _ (Permutation_sym (summary_rows_perm db y m))).
      apply in_map_iff. exists g. split; [reflexivity|].
      apply (unique_In _ group_eqb_spec). exact Hg. }
  split.
  - intros Hin. apply in_map_iff in Hin. destruct Hin as [r [Er Hr]].
    unfold rows_of_type in Hr. apply filter_In in Hr. destruct Hr as [Hr Ht].
    apply Kind_eqb_spec in Ht. apply Hrow in Hr. destruct Hr as [g [Hg ->]].
    unfold entry in Er. cbn in Er, Ht. injection Er as Ec Ev.
    apply in_map_iff in Hg. destruct Hg as [tx [Eg Htx]].
    split.
    + exists tx. rewrite <- Eg in Ec, Ht. cbn in Ec, Ht. auto.
    + rewrite <- Ev. destruct g as [gc gk]. cbn in Ec, Ht. subst gc gk.
      reflexivity.
  - intros [[tx [Htx [Hc Ht]]] ->].
    apply in_map_iff.
    exists (mkSummaryRow c despesa
              (sum (map tx_amount
                      (filter (FinanceDatabase.in_group (c, despesa)) L)))
              (Z.of_nat
                 (length (filter (FinanceDatabase.in_group (c, despesa)) L)))).
    split; [reflexivity|].
    unfold rows_of_type. apply filter_In. split; [|reflexivity].
    apply Hrow. exists (c, despesa). split; [|reflexivity].
    apply in_map_iff. exists tx. rewrite Hc, Ht. auto.
Qed.

Lemma expense_distribution_lookup_witness :
  exists ins,
    calculate_category_insights sample_month 2024 5 = Ok (Some ins) /\
    (exists tx, In tx (month_transactions sample_month 2024 5) /\
                tx_category tx = "Moradia"%string /\ tx_type tx = despesa) /\
    dict_get (expense_distribution ins) "Moradia" =
      Some (sum (map tx_amount
                   (filter (fun tx => String.eqb (tx_category tx) "Moradia"
                                      && Kind_eqb (tx_type tx) despesa)
                           (month_transactions sample_month 2024 5)))).
Proof.
  eexists. split; [vm_compute; reflexivity|].
  assert (Htx : exists tx, In tx (month_transactions sample_month 2024 5) /\
                  tx_category tx = "Moradia"%string /\ tx_type tx = despesa).
  { exists (sample_tx 2 2024 5 5 1000 "Moradia" despesa).
    split; [vm_compute; auto | split; reflexivity]. }
  split; [exact Htx|].
  refine (proj2 (expense_distribution_lookup sample_month 2024 5 _ "Moradia" _ _)
            (conj Htx eq_refl)).
  vm_compute. reflexivity.
Defined.

Lemma descending_app {A} (key : A -> Q) l1 l2 :
  descending key (l1 ++ l2) ->
  forall a b, In a l1 -> In b l2 -> key b <= key a.
Proof.
  unfold descending. induction l1 as [|x l1 IH]; intros Hs a b Ha Hb.
  - contradiction.
  - simpl in Hs. inversion Hs as [|? ? Hs' Hx]; subst.
    destruct Ha as [<- | Ha].
    + rewrite Forall_forall in Hx. apply Hx. apply in_or_app. right. exact Hb.
    + apply IH; assumption.
Qed.

(** X5. The summary comes in descending order of total, so
    [top_expense_categories] is the first five expense rows of the summary
    (all of them when there are at most five), and no expense row left
    out has a larger total than a row kept. *)
Theorem top_expenses_are_largest db y m ins :
  calculate_category_insights db y m = Ok (Some ins) ->
  let expenses :=
    rows_of_type despesa (FinanceDatabase.get_monthly_summary db y m) in
  top_expense_categories ins = firstn 5 expenses /\
  ((length expenses <= 5)%nat -> top_expense_categories ins = expenses) /\
  (forall r r', In r (skipn 5 expenses) -> In r' (top_expense_categories ins) ->
                sr_total r <= sr_total r').
Proof.
  intros H expenses.
  destruct (insights_some db y m ins H) as [_ [_ [_ [_ [_ [Ht _]]]]]].
  fold expenses in Ht.
  assert (Hdesc : descending sr_total expenses)
    by (apply descending_filter, summary_descending).
  assert (Htop : top_expense_categories ins = firstn 5 expenses).
  { rewrite Ht. unfold nlargest. rewrite (sort_desc_sorted _ _ Hdesc). reflexivity. }
  split; [exact Htop|]. split.
  - intros Hlen. rewrite Htop. apply firstn_all2. exact Hlen.
  - intros r r' Hr Hr'. rewrite Htop in Hr'.
    rewrite <- (firstn_skipn 5 expenses) in Hdesc.
    exact (descending_app sr_total _ _ Hdesc r' r Hr' Hr).
Qed.

Lemma top_expenses_are_largest_witness :
  exists ins,
    calculate_category_insights sample_month 2024 5 = Ok (Some ins) /\
    top_expense_categories ins =
      rows_of_type despesa (FinanceDatabase.get_monthly_summary sample_month 2024 5).
Proof.
  eexists. split; [vm_compute; reflexivity|].
  refine (proj1 (proj2 (top_expenses_are_largest sample_month 2024 5 _ _)) _).
  - vm_compute. reflexivity.
  - vm_compute. lia.
Defined.

Lemma sum_nonneg l : (forall x, In x l -> 0 <= x) -> 0 <= sum l.
Proof.
  induction l as [|x l IH]; intros H; simpl; [apply Qle_refl|].
  assert (0 <= x) by (apply H; left; reflexivity).
  assert (0 <= sum l) by (apply IH; intros y Hy; apply H; right; exact Hy).
  lra.
Qed.

Lemma rate_times_income income expenses :
  0 < income ->
  (income - expenses) / income * 100 * income == (income - expenses) * 100.
Proof. intros H. field. intros E. rewrite E in H. exact (Qlt_irrefl 0 H). Qed.

(** X6. The savings rate is negative exactly when there is income and the
    expenses exceed it; without income it is 0 however large the expenses. *)
Theorem savings_rate_sign db y m ins :
  calculate_category_insights db y m = Ok (Some ins) ->
  (savings_rate ins < 0 <->
   0 < total_income ins /\ total_income ins < total_expenses ins) /\
  (~ 0 < total_income ins -> savings_rate ins = 0).
Proof.
  intros H. destruct (insights_some db y m ins H) as [_ [_ [_ [_ [Hr _]]]]].
  rewrite Hr. clear Hr H.
  set (ti := total_income ins). set (te := total_expenses ins).
  destruct (Qlt_bool 0 ti) eqn:E.
  - apply Qlt_bool_iff in E. split; [|intros Hn; contradiction].
    pose proof (rate_times_income ti te E) as Hm.
    set (r := (ti - te) / ti * 100) in *.
    split.
    + intros Hneg. split; [exact E|].
      assert (r * ti < 0).
      { setoid_replace 0 with (0 * ti) by ring.
        apply Qmult_lt_compat_r; assumption. }
      lra.
    + intros [_ Hlt].
      destruct (Qlt_le_dec r 0) as [Hr | Hr]; [exact Hr|].
      exfalso.
      assert (0 <= r * ti) by (apply Qmult_le_0_compat; lra).
      lra.
  - split; [|reflexivity].
    split.
    + intros Hneg. exfalso. exact (Qlt_irrefl 0 Hneg).
    + intros [Hpos _]. apply Qlt_bool_iff in Hpos. congruence.
Qed.

Lemma savings_rate_sign_witness :
  exists ins,
    calculate_category_insights overspent_month 2024 5 = Ok (Some ins) /\
    0 < total_income ins /\ total_income ins < total_expenses ins /\
    savings_rate ins < 0.
Proof.
  eexists. split; [vm_compute; reflexivity|].
  split; [reflexivity|]. split; [reflexivity|].
  refine (proj2 (proj1 (savings_rate_sign overspent_month 2024 5 _ _)) _).
  - vm_compute. reflexivity.
  - split; reflexivity.
Defined.

(** X7. When no transaction of the month has a negative amount, the
    savings rate never exceeds 100. *)
Theorem savings_rate_at_most_100 db y m ins :
  (forall tx, In tx (month_transactions db y m) -> 0 <= tx_amount tx) ->
  calculate_category_insights db y m = Ok (Some ins) ->
  savings_rate ins <= 100.
Proof.
  intros Hnn H.
  destruct (insights_some db y m ins H) as [_ [_ [He [_ [Hr _]]]]].
  assert (Hte : 0 <= total_expenses ins).
  { rewrite He, summary_totals_of_type. apply sum_nonneg.
    intros x Hx. apply in_map_iff in Hx. destruct Hx as [tx [<- Htx]].
    apply Hnn. unfold of_type in Htx. apply filter_In in Htx. tauto. }
  rewrite Hr. clear Hr He H.
  set (ti := total_income ins) in *. set (te := total_expenses ins) in *.
  destruct (Qlt_bool 0 ti) eqn:E; [|discriminate].
  apply Qlt_bool_iff in E.
  pose proof (rate_times_income ti te E) as Hm.
  set (r := (ti - te) / ti * 100) in *.
  destruct (Qlt_le_dec 100 r) as [Hgt | Hle]; [|exact Hle].
  exfalso.
  assert (100 * ti < r * ti) by (apply Qmult_lt_compat_r; assumption).
  lra.
Qed.

Lemma savings_rate_at_most_100_witness :
  exists ins,
    (forall tx, In tx (month_transactions sample_month 2024 5) ->
                0 <= tx_amount tx) /\
    calculate_category_insights sample_month 2024 5 = Ok (Some ins) /\
    savings_rate ins <= 100.
Proof.
  assert (Hnn : forall tx, In tx (month_transactions sample_month 2024 5) ->
                           0 <= tx_amount tx).
  { intros tx Hin. vm_compute in Hin.
    repeat (destruct Hin as [<- | Hin]; [discriminate|]). contradiction. }
  eexists. split; [exact Hnn|]. split; [vm_compute; reflexivity|].
  apply (savings_rate_at_most_100 sample_month 2024 5); [exact Hnn|].
  vm_compute. reflexivity.
Defined.

(** ** The score and the transactions behind it *)

(** The score of a month with transactions, with its three factors read
    on the transactions. *)
Lemma score_with_data db y m :
  month_transactions db y m <> [] ->
  exists ins,
    calculate_category_insights db y m = Ok (Some ins) /\
    generate_financial_score db y m =
    Ok (Z.min
          (0 + fst (savings_factor (savings_rate ins))
           + fst (diversification_factor
                    (distinct_categories (of_type despesa (month_transactions db y m))))
           + fst (consistency_factor (Z.of_nat (length (month_transactions db y m)))))
          100,
        Factors
          [snd (savings_factor (savings_rate ins));
           snd (diversification_factor
                  (distinct_categories (of_type despesa (month_transactions db y m))));
           snd (consistency_factor (Z.of_nat (length (month_transactions db y m))))]).
Proof.
  intros HL.
  assert (Hne : FinanceDatabase.get_monthly_summary db y m <> []).
  { intros E. apply HL. apply summary_nil_iff. exact E. }
  pose proof (insights_of_rows _ Hne) as Hins.
  match type of Hins with _ = Ok (Some ?i) => set (ins := i) in Hins end.
  exists ins. split; [exact Hins|].
  destruct (insights_some db y m ins Hins) as [_ [_ [_ [_ [_ [_ Hd]]]]]].
  unfold generate_financial_score, calculate_category_insights.
  rewrite Hins. cbv beta iota delta [bind].
  rewrite Hd, length_map, summary_rows_of_type_length.
  assert (Htot : match FinanceDatabase.get_monthly_summary db y m with
                 | [] => 0%Z
                 | _ => Zsum (map sr_count (FinanceDatabase.get_monthly_summary db y m))
                 end = Z.of_nat (length (month_transactions db y m))).
  { rewrite <- summary_counts.
    destruct (FinanceDatabase.get_monthly_summary db y m); [contradiction|reflexivity]. }
  rewrite Htot. reflexivity.
Qed.

Lemma savings_factor_points rate :
  (0 <= fst (savings_factor rate) <= 40)%Z /\
  (fst (savings_factor rate) = 40%Z <-> 20 <= rate).
Proof.
  unfold savings_factor.
  destruct (Qle_bool 20 rate) eqn:E1.
  - cbn [fst]. split; [lia|]. split; [intros _|reflexivity].
    apply Qle_bool_iff. exact E1.
  - assert (Hn : ~ 20 <= rate).
    { intros H. apply Qle_bool_iff in H. congruence. }
    destruct (Qle_bool 10 rate); [|destruct (Qle_bool 0 rate)]; cbn [fst];
      (split; [lia|]); (split; [intros H; lia | intros H; contradiction]).
Qed.

Lemma diversification_factor_points n :
  (10 <= fst (diversification_factor n) <= 30)%Z /\
  (fst (diversification_factor n) = 30%Z <-> (5 <= n)%nat).
Proof.
  unfold diversification_factor.
  destruct (5 <=? n)%nat eqn:E.
  - apply Nat.leb_le in E. cbn [fst]. split; [lia|]. split; auto.
  - apply Nat.leb_gt in E.
    destruct (3 <=? n)%nat; cbn [fst]; (split; [lia|]); split; lia.
Qed.

Lemma consistency_factor_points k :
  (10 <= fst (consistency_factor k) <= 30)%Z /\
  (fst (consistency_factor k) = 30%Z <-> (20 <= k)%Z).
Proof.
  unfold consistency_factor.
  destruct (20 <=? k)%Z eqn:E.
  - apply Z.leb_le in E. cbn [fst]. split; [lia|]. split; auto.
  - apply Z.leb_gt in E.
    destruct (10 <=? k)%Z; cbn [fst]; (split; [lia|]); split; lia.
Qed.

Lemma factor_bounds rate n k :
  let p1 := fst (savings_factor rate) in
  let p2 := fst (diversification_factor n) in
  let p3 := fst (consistency_factor k) in
  (0 <= p1 <= 40 /\ 10 <= p2 <= 30 /\ 10 <= p3 <= 30)%Z /\
  (p1 = 40%Z <-> 20 <= rate) /\
  (p2 = 30%Z <-> (5 <= n)%nat) /\
  (p3 = 30%Z <-> (20 <= k)%Z).
Proof.
  cbv zeta.
  destruct (savings_factor_points rate) as [B1 I1].
  destruct (diversification_factor_points n) as [B2 I2].
  destruct (consistency_factor_points k) as [B3 I3].
  repeat split; try lia; try apply I1; try apply I2; try apply I3.
Qed.

(** X8. For a month with transactions the score is the plain sum of three
    parts, the cap at 100 never applying: the points of the savings rate,
    of the number of distinct expense categories of the month and of the
    number of its transactions.  It lies between 20 and 100; for a month
    without transactions it is 0, so a score of 0 tells exactly that. *)
Theorem financial_score_of_transactions db y m :
  (month_transactions db y m = [] ->
   generate_financial_score db y m =
     Ok (0%Z, Message "Dados insuficientes")) /\
  (month_transactions db y m <> [] ->
   exists ins score factors,
     calculate_category_insights db y m = Ok (Some ins) /\
     generate_financial_score db y m = Ok (score, Factors factors) /\
     score =
       (fst (savings_factor (savings_rate ins))
        + fst (diversification_factor
                 (distinct_categories (of_type despesa (month_transactions db y m))))
        + fst (consistency_factor (Z.of_nat (length (month_transactions db y m)))))%Z /\
     (20 <= score <= 100)%Z).
Proof.
  split.
  - intros E. apply summary_nil_iff in E.
    unfold generate_financial_score, calculate_category_insights.
    rewrite E. reflexivity.
  - intros HL. destruct (score_with_data db y m HL) as [ins [Hins Hs]].
    exists ins. eexists. eexists.
    split; [exact Hins|]. split; [exact Hs|].
    destruct (factor_bounds (savings_rate ins)
                (distinct_categories (of_type despesa (month_transactions db y m)))
                (Z.of_nat (length (month_transactions db y m)))) as [Hb _].
    cbv zeta in Hb. lia.
Qed.

Lemma financial_score_of_transactions_witness :
  month_transactions sample_month 2024 5 <> [] /\
  exists score factors,
    generate_financial_score sample_month 2024 5 = Ok (score, Factors factors) /\
    (20 <= score <= 100)%Z.
Proof.
  assert (HL : month_transactions sample_month 2024 5 <> [])
    by (vm_compute; discriminate).
  split; [exact HL|].
  destruct (proj2 (financial_score_of_transactions sample_month 2024 5) HL)
    as [ins [score [factors [_ [Hs [_ Hr]]]]]].
  exists score, factors. split; assumption.
Defined.

(** X9. The score is 100 exactly when the savings rate is at least 20, the
    month has at least 5 distinct expense categories and at least 20
    transactions. *)
Theorem financial_score_full_marks db y m ins :
  calculate_category_insights db y m = Ok (Some ins) ->
  ((exists e, generate_financial_score db y m = Ok (100%Z, e)) <->
   20 <= savings_rate ins /\
   (5 <= distinct_categories (of_type despesa (month_transactions db y m)))%nat /\
   (20 <= length (month_transactions db y m))%nat).
Proof.
  intros Hins.
  assert (HL : month_transactions db y m <> []).
  { intros E. apply summary_nil_iff in E.
    destruct (insights_some db y m ins Hins) as [Hne _]. contradiction. }
  destruct (score_with_data db y m HL) as [ins' [Hins' Hs]].
  assert (ins' = ins) by congruence. subst ins'.
  destruct (factor_bounds (savings_rate ins)
              (distinct_categories (of_type despesa (month_transactions db y m)))
              (Z.of_nat (length (month_transactions db y m))))
    as [Hb [H1 [H2 H3]]].
  cbv zeta in Hb, H1, H2, H3.
  rewrite Hs. split.
  - intros [e He]. injection He as He _.
    split; [apply H1; lia|]. split; [apply H2; lia|].
    assert (20 <= Z.of_nat (length (month_transactions db y m)))%Z
      by (apply H3; lia).
    lia.
  - intros [Hr [Hc Hn]]. eexists. f_equal. f_equal.
    apply H1 in Hr. apply H2 in Hc.
    assert (Hn' : (20 <= Z.of_nat (length (month_transactions db y m)))%Z) by lia.
    apply H3 in Hn'. lia.
Qed.

Lemma financial_score_full_marks_witness :
  exists ins,
    calculate_category_insights sample_month 2024 5 = Ok (Some ins) /\
    ((exists e, generate_financial_score sample_month 2024 5 = Ok (100%Z, e)) <->
     20 <= savings_rate ins /\
     (5 <= distinct_categories
             (of_type despesa (month_transactions sample_month 2024 5)))%nat /\
     (20 <= length (month_transactions sample_month 2024 5))%nat).
Proof.
  eexists. split; [vm_compute; reflexivity|].
  apply (financial_score_full_marks sample_month 2024 5).
  vm_compute. reflexivity.
Defined.

Lemma of_type_none k l :
  (forall tx, In tx l -> tx_type tx <> k) -> of_type k l = [].
Proof.
  unfold of_type. induction l as [|tx l IH]; intros H; auto.
  simpl. destruct (Kind_eqb (tx_type tx) k) eqn:E.
  - apply Kind_eqb_spec in E. exfalso. apply (H tx); [left; reflexivity | exact E].
  - apply IH. intros a Ha. apply H. right. exact Ha.
Qed.

(** X10. A month with expenses and no income transaction gets the 20
    points of a low savings rate, not the 0 points of spending more than
    is earned: the rate is 0 whenever the income is. *)
Theorem financial_score_without_income db y m :
  month_transactions db y m <> [] ->
  (forall tx, In tx (month_transactions db y m) -> tx_type tx = despesa) ->
  exists score f2 f3,
    generate_financial_score db y m =
    Ok (score, Factors ["Taxa de poupança baixa"%string; f2; f3]) /\
    (40 <= score <= 80)%Z.
Proof.
  intros HL Hd. destruct (score_with_data db y m HL) as [ins [Hins Hs]].
  destruct (insights_some db y m ins Hins) as [_ [Hi [_ [_ [Hr _]]]]].
  assert (Hinc : of_type receita (month_transactions db y m) = []).
  { apply of_type_none. intros tx Htx. rewrite (Hd tx Htx). discriminate. }
  assert (Hti : total_income ins == 0).
  { rewrite Hi, summary_totals_of_type, Hinc. reflexivity. }
  assert (Hrate : savings_rate ins = 0).
  { rewrite Hr. destruct (Qlt_bool 0 (total_income ins)) eqn:E; auto.
    apply Qlt_bool_iff in E. rewrite Hti in E.
    exfalso. exact (Qlt_irrefl 0 E). }
  rewrite Hrate in Hs. rewrite Hs.
  eexists. eexists. eexists. split; [reflexivity|].
  destruct (diversification_factor_points
              (distinct_categories (of_type despesa (month_transactions db y m))))
    as [B2 _].
  destruct (consistency_factor_points
              (Z.of_nat (length (month_transactions db y m)))) as [B3 _].
  change (fst (savings_factor 0)) with 20%Z. lia.
Qed.

Lemma financial_score_without_income_witness :
  month_transactions no_income_month 2024 5 <> [] /\
  (forall tx, In tx (month_transactions no_income_month 2024 5) ->
              tx_type tx = despesa) /\
  exists score f2 f3,
    generate_financial_score no_income_month 2024 5 =
    Ok (score, Factors ["Taxa de poupança baixa"%string; f2; f3]) /\
    (40 <= score <= 80)%Z.
Proof.
  assert (HL : month_transactions no_income_month 2024 5 <> [])
    by (vm_compute; discriminate).
  assert (Hd : forall tx, In tx (month_transactions no_income_month 2024 5) ->
                          tx_type tx = despesa).
  { intros tx Hin. vm_compute in Hin.
    repeat (destruct Hin as [<- | Hin]; [reflexivity|]). contradiction. }
  split; [exact HL|]. split; [exact Hd|].
  exact (financial_score_without_income no_income_month 2024 5 HL Hd).
Defined.

(** ** More on the annual projection *)

Lemma dict_get_None_iff {V} (d : dict V) k :
  dict_get d k = None <-> ~ In k (dict_keys d).
Proof.
  unfold dict_keys. induction d as [|[k' v'] d IH]; simpl; [tauto|].
  destruct (String.eqb k' k) eqn:E.
  - apply String.eqb_eq in E. split; [discriminate | intros H; tauto].
  - rewrite IH. split; [|tauto].
    intros H [H' | H']; [|tauto].
    subst. rewrite String.eqb_refl in E. discriminate.
Qed.

Lemma dict_set_keys {V} (d : dict V) k v :
  dict_keys (dict_set d k v) =
  if existsb (String.eqb k) (dict_keys d) then dict_keys d else dict_keys d ++ [k].
Proof.
  unfold dict_keys. induction d as [|[k' v'] d IH]; simpl; auto.
  rewrite (String.eqb_sym k k').
  destruct (String.eqb k' k) eqn:E; simpl; auto.
  rewrite IH. destruct (existsb (String.eqb k) (map fst d)); reflexivity.
Qed.

Lemma dict_set_keys_nodup {V} (d : dict V) k v :
  NoDup (dict_keys d) -> NoDup (dict_keys (dict_set d k v)).
Proof.
  intros H. rewrite dict_set_keys.
  destruct (existsb (String.eqb k) (dict_keys d)) eqn:E; auto.
  apply NoDup_app; auto.
  - constructor; [intros []|constructor].
  - intros a Ha [Ek | []]. subst a.
    assert (existsb (String.eqb k) (dict_keys d) = true).
    { apply existsb_exists. exists k. split; [exact Ha | apply String.eqb_refl]. }
    congruence.
Qed.

Lemma fold_dict_set_keys_nodup {V} (good : string -> bool) (val : string -> V) cats :
  forall acc,
    NoDup (dict_keys acc) ->
    NoDup (dict_keys
             (fold_left (fun d k => if good k then dict_set d k (val k) else d)
                cats acc)).
Proof.
  induction cats as [|c cats IH]; intros acc Hacc; cbn [fold_left]; auto.
  apply IH. destruct (good c); auto.
  apply dict_set_keys_nodup. exact Hacc.
Qed.

Lemma projections_keys_nodup df p :
  predict_annual_projection df = Some p -> NoDup (dict_keys p).
Proof.
  unfold predict_annual_projection.
  destruct (length df <? 3)%nat; [discriminate|].
  intros H. injection H as <-.
  exact (fold_dict_set_keys_nodup
           (fun k => (3 <=? length (category_rows k (monthly_category df)))%nat)
           (fun k => project (category_rows k (monthly_category df)))
           _ [] (NoDup_nil _)).
Qed.

Lemma distinct_groups_positive df c :
  (0 < distinct_groups c df)%nat -> exists tx, In tx df /\ tx_category tx = c.
Proof.
  unfold distinct_groups. intros H.
  destruct (filter (fun tx => String.eqb (tx_category tx) c) df) as [|tx l] eqn:E.
  - simpl in H. lia.
  - exists tx.
    assert (Hin : In tx (filter (fun tx => String.eqb (tx_category tx) c) df))
      by (rewrite E; left; reflexivity).
    apply filter_In in Hin. destruct Hin as [Hin Hc].
    apply String.eqb_eq in Hc. auto.
Qed.

(** X11. [predict_annual_projection] gives no map exactly for a frame of
    fewer than 3 transactions.  Otherwise the keys of the map are distinct,
    each is the category of a transaction of the frame, and the map is
    empty exactly when no category has 3 (month, type) combinations: a
    frame can have 3 transactions and still give the empty map. *)
Theorem projection_map_shape df :
  (predict_annual_projection df = None <-> (length df < 3)%nat) /\
  (forall p, predict_annual_projection df = Some p ->
     NoDup (dict_keys p) /\
     (forall c, In c (dict_keys p) -> exists tx, In tx df /\ tx_category tx = c) /\
     (p = [] <-> forall c, (distinct_groups c df < 3)%nat)).
Proof.
  split.
  - unfold predict_annual_projection.
    destruct (length df <? 3)%nat eqn:E.
    + apply Nat.ltb_lt in E. split; auto.
    + apply Nat.ltb_ge in E. split; [discriminate | lia].
  - intros p Hp.
    assert (Hget : forall c, dict_get p c <> None <-> (3 <= distinct_groups c df)%nat).
    { intros c. rewrite (projection_get df p c Hp), category_rows_count.
      destruct (3 <=? distinct_groups c df)%nat eqn:E.
      - apply Nat.leb_le in E. split; [auto | discriminate].
      - apply Nat.leb_gt in E. split; [congruence | lia]. }
    split; [exact (projections_keys_nodup df p Hp)|]. split.
    + intros c Hc. apply distinct_groups_positive.
      assert (dict_get p c <> None).
      { intros E. apply dict_get_None_iff in E. contradiction. }
      apply Hget in H. lia.
    + split.
      * intros -> c.
        destruct (Nat.lt_ge_cases (distinct_groups c df) 3) as [H | H]; auto.
        apply Hget in H. simpl in H. congruence.
      * intros Hall. destruct p as [|[k v] p]; auto. exfalso.
        assert (dict_get ((k, v) :: p) k <> None)
          by (simpl; rewrite String.eqb_refl; discriminate).
        apply Hget in H. specialize (Hall k). lia.
Qed.

Lemma projection_map_shape_witness :
  predict_annual_projection three_categories = Some [] /\
  NoDup (dict_keys (@nil (string * Projection))) /\
  forall c, (distinct_groups c three_categories < 3)%nat.
Proof.
  assert (Hp : predict_annual_projection three_categories = Some [])
    by (vm_compute; reflexivity).
  destruct (proj2 (projection_map_shape three_categories) [] Hp) as [Hn [_ He]].
  split; [exact Hp|]. split; [exact Hn|].
  apply He. reflexivity.
Defined.

Lemma Qlen_future_months model :
  Qlen (map (fun v => Qmax v 0) (predict model future_months)) = 12.
Proof. unfold Qlen, predict. rewrite !length_map. reflexivity. Qed.

(** The projection stored for a category of the map. *)
Lemma projection_entry df p c pr :
  predict_annual_projection df = Some p ->
  dict_get p c = Some pr ->
  pr = project (category_rows c (monthly_category df)) /\
  (3 <= length (category_rows c (monthly_category df)))%nat.
Proof.
  intros Hp Hc. rewrite (projection_get df p c Hp) in Hc.
  destruct (3 <=? length (category_rows c (monthly_category df)))%nat eqn:E;
    [|discriminate].
  apply Nat.leb_le in E. injection Hc as <-. auto.
Qed.

Lemma project_totals cat_data :
  0 <= annual_total (project cat_data) /\
  average_monthly (project cat_data) * 12 == annual_total (project cat_data).
Proof.
  unfold project. cbn [annual_total average_monthly].
  set (model := fit _ _).
  split.
  - apply sum_nonneg. intros x Hx. apply in_map_iff in Hx.
    destruct Hx as [v [<- _]]. apply Q.le_max_r.
  - unfold mean. rewrite Qlen_future_months. field.
Qed.

(** X12. For every category of the projection map, [annual_total] and
    [average_monthly] are not negative and [average_monthly] is a twelfth
    of [annual_total]. *)
Theorem projection_totals df p c pr :
  predict_annual_projection df = Some p ->
  dict_get p c = Some pr ->
  0 <= annual_total pr /\
  0 <= average_monthly pr /\
  average_monthly pr * 12 == annual_total pr.
Proof.
  intros Hp Hc. destruct (projection_entry df p c pr Hp Hc) as [-> _].
  destruct (project_totals (category_rows c (monthly_category df))) as [Ha Hm].
  split; [exact Ha|]. split; [|exact Hm]. lra.
Qed.

Lemma projection_totals_witness :
  exists p pr,
    predict_annual_projection four_months = Some p /\
    dict_get p "Transporte" = Some pr /\
    0 <= annual_total pr /\
    0 <= average_monthly pr /\
    average_monthly pr * 12 == annual_total pr.
Proof.
  eexists. eexists.
  split; [vm_compute; reflexivity|].
  split; [vm_compute; reflexivity|].
  eapply (projection_totals four_months _ "Transporte"); vm_compute; reflexivity.
Defined.

(** X13. The total the application and the report show under the
    projections, the sum of [annual_total] over the map, is not negative. *)
Theorem total_projected_nonnegative df p :
  predict_annual_projection df = Some p ->
  0 <= total_projected p.
Proof.
  intros Hp. unfold total_projected. apply sum_nonneg.
  intros x Hx. apply in_map_iff in Hx. destruct Hx as [[c pr] [<- Hin]].
  cbn [snd].
  assert (Hc : dict_get p c = Some pr).
  { apply dict_get_In; [exact (projections_keys_nodup df p Hp) | exact Hin]. }
  destruct (projection_entry df p c pr Hp Hc) as [-> _].
  apply project_totals.
Qed.

Lemma total_projected_nonnegative_witness :
  exists p,
    predict_annual_projection four_months = Some p /\ 0 <= total_projected p.
Proof.
  eexists. split; [vm_compute; reflexivity|].
  apply (total_projected_nonnegative four_months).
  vm_compute. reflexivity.
Defined.

(** ** More on the anomalies *)

Lemma z_value_nonneg amount mean_amount std_amount :
  0 <= z_value amount mean_amount std_amount.
Proof.
  unfold z_value. destruct (Qlt_bool 0 std_amount).
  - apply Qabs_nonneg.
  - apply Qle_refl.
Qed.

Lemma flag_In threshold mean_amount std_amount tx a :
  In a (flag threshold mean_amount std_amount tx) ->
  an_id a = tx_id tx /\ an_date a = tx_date tx /\
  an_description a = tx_description tx /\ an_amount a = tx_amount tx /\
  an_category a = tx_category tx /\
  z_score a = z_value (tx_amount tx) mean_amount std_amount /\
  threshold < z_score a /\
  severity a = (if Qlt_bool 3 (z_score a) then "alta" else "média")%string.
Proof.
  unfold flag. cbv zeta.
  destruct (Qlt_bool threshold _) eqn:E; [|contradiction].
  intros [<- | []]. cbn. apply Qlt_bool_iff in E. repeat split; auto.
Qed.

Lemma flag_threshold_mono t1 t2 mean_amount std_amount tx a :
  t1 <= t2 ->
  In a (flag t2 mean_amount std_amount tx) ->
  In a (flag t1 mean_amount std_amount tx).
Proof.
  intros Ht. unfold flag. cbv zeta.
  destruct (Qlt_bool t2 _) eqn:E2; [|contradiction].
  apply Qlt_bool_iff in E2.
  assert (E1 : Qlt_bool t1 (z_value (tx_amount tx) mean_amount std_amount) = true).
  { apply Qlt_bool_iff. eapply Qle_lt_trans; eassumption. }
  rewrite E1. auto.
Qed.

Lemma flag_category_threshold_mono sqrt t1 t2 df c a :
  t1 <= t2 ->
  In a (flag_category sqrt t2 df c) -> In a (flag_category sqrt t1 df c).
Proof.
  intros Ht. unfold flag_category. cbv zeta.
  destruct (length (category_transactions c df) <? 5)%nat; auto.
  rewrite !in_flat_map. intros [tx [Htx Ha]]. exists tx. split; auto.
  eapply flag_threshold_mono; eassumption.
Qed.

Lemma flag_category_origin sqrt threshold df c a :
  In a (flag_category sqrt threshold df c) ->
  exists tx,
    In tx df /\
    an_id a = tx_id tx /\ an_date a = tx_date tx /\
    an_description a = tx_description tx /\ an_amount a = tx_amount tx /\
    an_category a = tx_category tx /\
    threshold < z_score a /\ 0 <= z_score a /\
    severity a = (if Qlt_bool 3 (z_score a) then "alta" else "média")%string.
Proof.
  unfold flag_category. cbv zeta.
  destruct (length (category_transactions c df) <? 5)%nat; [contradiction|].
  rewrite in_flat_map. intros [tx [Htx Ha]].
  apply flag_In in Ha. destruct Ha as [H1 [H2 [H3 [H4 [H5 [H6 [H7 H8]]]]]]].
  exists tx. unfold category_transactions in Htx. apply filter_In in Htx.
  repeat split; try tauto.
  rewrite H6. apply z_value_nonneg.
Qed.

(** X15. Every anomaly returned by [detect_anomalies] is a copy of a
    transaction of the frame (id, date, description, amount, category); its
    z-score is not negative and above the threshold, and its severity is
    "alta" when the z-score is above 3 and "média" otherwise. *)
Theorem anomalies_come_from_transactions sqrt df threshold :
  exists anomalies,
    detect_anomalies sqrt df threshold = Ok anomalies /\
    forall a, In a anomalies ->
      (exists tx,
         In tx df /\
         an_id a = tx_id tx /\ an_date a = tx_date tx /\
         an_description a = tx_description tx /\ an_amount a = tx_amount tx /\
         an_category a = tx_category tx) /\
      threshold < z_score a /\ 0 <= z_score a /\
      (3 < z_score a -> severity a = "alta"%string) /\
      (z_score a <= 3 -> severity a = "média"%string).
Proof.
  eexists. split; [apply detect_anomalies_ok|].
  intros a Ha. apply detect_anomalies_In in Ha.
  apply in_flat_map in Ha. destruct Ha as [c [_ Ha]].
  apply flag_category_origin in Ha.
  destruct Ha as [tx [H0 [H1 [H2 [H3 [H4 [H5 [H6 [H7 H8]]]]]]]]].
  split; [exists tx; repeat split; assumption|].
  split; [exact H6|]. split; [exact H7|].
  rewrite H8. split.
  - intros H. apply Qlt_bool_iff in H. rewrite H. reflexivity.
  - intros H. destruct (Qlt_bool 3 (z_score a)) eqn:E; [|reflexivity].
    apply Qlt_bool_iff in E. exfalso. eapply Qlt_not_le; eassumption.
Qed.

(** X16. Raising the threshold never adds an anomaly: what is returned
    for a threshold is among what is returned for any smaller one. *)
Theorem anomalies_threshold_monotone sqrt df t1 t2 :
  t1 <= t2 ->
  exists low high,
    detect_anomalies sqrt df t1 = Ok low /\
    detect_anomalies sqrt df t2 = Ok high /\
    forall a, In a high -> In a low.
Proof.
  intros Ht. eexists. eexists.
  split; [apply detect_anomalies_ok|]. split; [apply detect_anomalies_ok|].
  intros a Ha. apply detect_anomalies_In in Ha.
  apply (Permutation_in _ (Permutation_sym (sort_perm _ _))).
  apply in_flat_map in Ha. destruct Ha as [c [Hc Ha]].
  apply in_flat_map. exists c. split; [exact Hc|].
  eapply flag_category_threshold_mono; eassumption.
Qed.

Lemma anomalies_threshold_monotone_witness :
  1 <= 2 /\
  exists low high,
    detect_anomalies sqrt_floor outlier_frame 1 = Ok low /\
    detect_anomalies sqrt_floor outlier_frame 2 = Ok high /\
    forall a, In a high -> In a low.
Proof.
  assert (H : 1 <= 2) by discriminate.
  split; [exact H|].
  exact (anomalies_threshold_monotone sqrt_floor outlier_frame 1 2 H).
Defined.

Lemma length_flat_map_le {A B C} (F : A -> list B) (G : A -> list C) ks :
  (forall k, (length (F k) <= length (G k))%nat) ->
  (length (flat_map F ks) <= length (flat_map G ks))%nat.
Proof.
  intros H. induction ks as [|k ks IH]; simpl; auto.
  rewrite !length_app. specialize (H k). lia.
Qed.

Lemma flag_category_length sqrt threshold df c :
  (length (flag_category sqrt threshold df c)
   <= length (category_transactions c df))%nat.
Proof.
  unfold flag_category. cbv zeta.
  destruct (length (category_transactions c df) <? 5)%nat; [simpl; lia|].
  generalize (category_transactions c df) at 3 4 as l.
  induction l as [|tx l IH]; simpl; auto.
  rewrite length_app. unfold flag at 1. cbv zeta.
  destruct (Qlt_bool threshold _); simpl; lia.
Qed.

Lemma few_transactions_no_flag sqrt threshold df cats :
  (length df < 5)%nat -> flat_map (flag_category sqrt threshold df) cats = [].
Proof.
  intros Hfew. induction cats as [|c cs IH]; auto.
  simpl. rewrite IH. unfold flag_category. cbv zeta.
  assert (Hc : (length (category_transactions c df) <? 5)%nat = true).
  { apply Nat.ltb_lt. unfold category_transactions.
    pose proof (filter_length_le (fun tx => String.eqb (tx_category tx) c) df).
    lia. }
  rewrite Hc. reflexivity.
Qed.

(** X17. There is at most one anomaly per transaction: the list returned
    is never longer than the frame, and a frame of fewer than 5
    transactions gives none. *)
Theorem anomalies_count_bound sqrt df threshold :
  exists anomalies,
    detect_anomalies sqrt df threshold = Ok anomalies /\
    (length anomalies <= length df)%nat /\
    ((length df < 5)%nat -> anomalies = []).
Proof.
  eexists. split; [apply detect_anomalies_ok|].
  set (found := flat_map (flag_category sqrt threshold df)
                  (unique String.eqb (map tx_category df))).
  assert (Hlen : (length found <= length df)%nat).
  { unfold found.
    rewrite <- (Permutation_length
                  (groups_partition String.eqb tx_category String.eqb_eq df)).
    apply (length_flat_map_le
             (flag_category sqrt threshold df)
             (fun k => filter (fun a => String.eqb (tx_category a) k) df)).
    intros k. apply flag_category_length. }
  assert (Hsort : length (sort_desc z_score found) = length found)
    by (apply Permutation_length, sort_perm).
  split; [lia|].
  intros Hfew.
  assert (Hnone : found = []) by (apply few_transactions_no_flag; exact Hfew).
  rewrite Hnone. reflexivity.
Qed.

(** ** Monthly trends *)

(** The group sums of the keys that pass a test add up to the sum over
    the rows whose key passes it. *)
Lemma sum_by_groups_where {A K} (eqb : K -> K -> bool) (f : A -> K) (g : A -> Q)
    (eqb_spec : forall x y, eqb x y = true <-> x = y) (q : K -> bool) l :
  sum (map (fun k => sum (map g (filter (fun a => eqb (f a) k) l)))
           (filter q (unique eqb (map f l))))
  == sum (map g (filter (fun a => q (f a)) l)).
Proof.
  rewrite (filter_unique eqb eqb_spec), filter_map_swap.
  rewrite <- (sum_by_groups eqb f g eqb_spec (filter (fun a => q (f a)) l)).
  rewrite (map_ext_in
             (fun k => sum (map g (filter (fun a => eqb (f a) k) l)))
             (fun k => sum (map g (filter (fun a => eqb (f a) k)
                                     (filter (fun a => q (f a)) l))))).
  - reflexivity.
  - intros k Hk. apply (proj1 (unique_In eqb eqb_spec _ _)) in Hk.
    apply in_map_iff in Hk. destruct Hk as [a [<- Ha]].
    apply filter_In in Ha. destruct Ha as [_ Hq].
    rewrite filter_filter_implied; [reflexivity|].
    intros b _ Hb. apply eqb_spec in Hb. rewrite Hb. exact Hq.
Qed.

Section SortGeneric.
Context {A : Type} (leb : A -> A -> bool).
Hypothesis leb_total : forall x y, leb x y = false -> leb y x = true.
Hypothesis leb_trans : forall x y z, leb x y = true -> leb y z = true -> leb x z = true.

Lemma insert_sorted x l :
  StronglySorted (fun a b => leb a b = true) l ->
  StronglySorted (fun a b => leb a b = true) (insert leb x l).
Proof.
  induction l as [|y l IH]; intros Hs; simpl.
  - constructor; constructor.
  - inversion Hs as [|? ? Hs' Hy]; subst.
    destruct (leb x y) eqn:E.
    + constructor; [exact Hs|]. constructor; [exact E|].
      eapply Forall_impl; [|exact Hy].
      intros a Ha. simpl in Ha. eapply leb_trans; eassumption.
    + constructor; [apply IH; exact Hs'|].
      eapply Permutation_Forall; [symmetry; apply insert_perm|].
      constructor; [apply leb_total; exact E | exact Hy].
Qed.

Lemma sort_sorted l : StronglySorted (fun a b => leb a b = true) (sort leb l).
Proof.
  induction l as [|x l IH]; simpl; [constructor|].
  apply insert_sorted. exact IH.
Qed.
End SortGeneric.

Lemma StronglySorted_map {A B} (R : A -> A -> Prop) (R' : B -> B -> Prop)
    (f : A -> B) l :
  (forall a b, R a b -> R' (f a) (f b)) ->
  StronglySorted R l -> StronglySorted R' (map f l).
Proof.
  intros H. induction 1 as [|a l Hs IH Ha]; simpl; constructor; auto.
  apply Forall_forall. intros b Hb. apply in_map_iff in Hb.
  destruct Hb as [x [<- Hx]]. apply H.
  rewrite Forall_forall in Ha. apply Ha. exact Hx.
Qed.

Lemma trend_key_eqb_spec a b : trend_key_eqb a b = true <-> a = b.
Proof.
  destruct a as [[y1 m1] k1], b as [[y2 m2] k2]. unfold trend_key_eqb.
  rewrite !andb_true_iff, !Z.eqb_eq, Kind_eqb_spec.
  split; [intros [[-> ->] ->]; reflexivity | intros H; inversion H; auto].
Qed.

Lemma trend_key_leb_iff a b :
  trend_key_leb a b = true <->
  (fst (fst a) < fst (fst b))%Z \/
  (fst (fst a) = fst (fst b) /\
   ((snd (fst a) < snd (fst b))%Z \/
    (snd (fst a) = snd (fst b) /\ Kind_leb (snd a) (snd b) = true))).
Proof.
  destruct a as [[y1 m1] k1], b as [[y2 m2] k2]. unfold trend_key_leb. cbn.
  rewrite !orb_true_iff, !andb_true_iff, !orb_true_iff, !andb_true_iff.
  rewrite !Z.ltb_lt, !Z.eqb_eq. tauto.
Qed.

Lemma trend_key_leb_total a b :
  trend_key_leb a b = false -> trend_key_leb b a = true.
Proof.
  intros H. apply trend_key_leb_iff.
  assert (Hn : ~ trend_key_leb a b = true) by congruence.
  rewrite trend_key_leb_iff in Hn.
  destruct a as [[y1 m1] k1], b as [[y2 m2] k2]. cbn in *.
  destruct (Z.lt_trichotomy y1 y2) as [Hy | [Hy | Hy]]; [tauto| |lia].
  right. split; [lia|].
  destruct (Z.lt_trichotomy m1 m2) as [Hm | [Hm | Hm]]; [tauto| |lia].
  right. split; [lia|].
  destruct k1, k2; try reflexivity. exfalso. apply Hn. right. auto.
Qed.

Lemma trend_key_leb_trans a b c :
  trend_key_leb a b = true -> trend_key_leb b c = true ->
  trend_key_leb a c = true.
Proof.
  rewrite !trend_key_leb_iff.
  destruct a as [[y1 m1] k1], b as [[y2 m2] k2], c as [[y3 m3] k3]. cbn.
  intros [H1 | [H1 [H1' | [H1' K1]]]] [H2 | [H2 [H2' | [H2' K2]]]];
    try (left; lia); right; (split; [lia|]); try (left; lia).
  right. split; [lia|]. destruct k1, k2, k3; auto.
Qed.

Lemma trends_rows df :
  get_monthly_trends df =
  map (fun k : trend_key =>
         let '(y, m, ty) := k in
         mkTrendRow (y, m) ty
           (sum (map tx_amount
                   (filter (fun tx => trend_key_eqb (trend_key_of tx) k) df))))
      (sort trend_key_leb (unique trend_key_eqb (map trend_key_of df))).
Proof. destruct df; reflexivity. Qed.

(** X18. The amounts of the trend rows of one type add up to the sum of
    the amounts of the transactions of that type: what the income line and
    the expense line of the chart show is all of the frame, nothing twice. *)
Theorem monthly_trends_conserve df k :
  sum (map tr_amount
         (filter (fun r => Kind_eqb (tr_type r) k) (get_monthly_trends df)))
  == sum (map tx_amount (of_type k df)).
Proof.
  rewrite trends_rows, filter_map_swap, map_map.
  set (keys := unique trend_key_eqb (map trend_key_of df)).
  set (h := fun k0 : trend_key =>
              sum (map tx_amount
                     (filter (fun tx => trend_key_eqb (trend_key_of tx) k0) df))).
  set (q := fun k0 : trend_key => Kind_eqb (snd k0) k).
  rewrite (filter_ext _ q) by (intros [[y m] ty]; reflexivity).
  rewrite (map_ext _ h) by (intros [[y m] ty]; reflexivity).
  rewrite (sum_perm _ _
             (Permutation_map h (filter_perm q _ _ (sort_perm trend_key_leb keys)))).
  exact (sum_by_groups_where trend_key_eqb trend_key_of tx_amount
           trend_key_eqb_spec q df).
Qed.

(** X19. The trend rows come in chronological order, and there is one row
    per month and type: no (month, type) pair appears twice. *)
Theorem monthly_trends_ordered df :
  StronglySorted (fun r1 r2 => period_le (year_month r1) (year_month r2))
    (get_monthly_trends df) /\
  NoDup (map (fun r => (year_month r, tr_type r)) (get_monthly_trends df)).
Proof.
  rewrite trends_rows. split.
  - apply StronglySorted_map
      with (R := fun a b => trend_key_leb a b = true).
    + intros [[y1 m1] k1] [[y2 m2] k2] H.
      apply trend_key_leb_iff in H. cbn in H. unfold period_le. cbn.
      destruct H as [H | [H [H' | [H' _]]]]; [left | right | right]; lia.
    + apply sort_sorted.
      * exact trend_key_leb_total.
      * exact trend_key_leb_trans.
  - rewrite map_map.
    eapply Permutation_NoDup.
    + apply Permutation_map. symmetry. apply sort_perm.
    + set (keys := unique trend_key_eqb (map trend_key_of df)).
      assert (Hk : NoDup keys) by (apply unique_NoDup, trend_key_eqb_spec).
      clearbody keys. induction Hk as [|k keys Hk Hnd IH]; simpl; constructor; auto.
      intros Hin. apply in_map_iff in Hin. destruct Hin as [k' [E Hk']].
      destruct k as [[y m] ty], k' as [[y' m'] ty']. cbn in E.
      injection E as -> -> ->. contradiction.
Qed.

(** ** The store *)

Lemma max_id_upper ids x : In x ids -> (x <= FinanceDatabase.max_id ids)%Z.
Proof.
  induction ids as [|y ids IH]; simpl; [contradiction|].
  intros [-> | H]; [lia|]. specialize (IH H). lia.
Qed.

Lemma next_id_fresh ids seq x :
  In x ids -> (x < FinanceDatabase.next_id ids seq)%Z.
Proof.
  intros H. apply max_id_upper in H. unfold FinanceDatabase.next_id. lia.
Qed.

Lemma next_id_above_seq ids seq : (seq < FinanceDatabase.next_id ids seq)%Z.
Proof. unfold FinanceDatabase.next_id. lia. Qed.

Lemma find_none_iff {A} (p : A -> bool) l :
  find p l = None <-> forall a, In a l -> p a = false.
Proof.
  induction l as [|x l IH]; simpl.
  - split; [intros _ a [] | reflexivity].
  - destruct (p x) eqn:E.
    + split; [discriminate|]. intros H. specialize (H x (or_introl eq_refl)).
      congruence.
    + rewrite IH. split.
      * intros H a [<- | Ha]; auto.
      * intros H a Ha. apply H. right. exact Ha.
Qed.

Lemma find_app_none {A} (p : A -> bool) l1 l2 :
  find p l1 = None -> find p (l1 ++ l2) = find p l2.
Proof.
  induction l1 as [|x l1 IH]; simpl; auto.
  destruct (p x); [discriminate | exact IH].
Qed.

Lemma find_app_tail_none {A} (p : A -> bool) l1 l2 :
  find p l2 = None -> find p (l1 ++ l2) = find p l1.
Proof.
  intros H. induction l1 as [|x l1 IH]; simpl; auto.
  destruct (p x); auto.
Qed.

Lemma find_filter_implied {A} (p q : A -> bool) l :
  (forall a, p a = true -> q a = true) -> find p (filter q l) = find p l.
Proof.
  intros H. induction l as [|x l IH]; simpl; auto.
  destruct (q x) eqn:Eq; simpl.
  - rewrite IH. reflexivity.
  - destruct (p x) eqn:Ep; auto.
    rewrite (H x Ep) in Eq. discriminate.
Qed.

Lemma find_map {A} (p : A -> bool) (g : A -> A) l :
  (forall a, p (g a) = p a) -> find p (map g l) = option_map g (find p l).
Proof.
  intros H. induction l as [|x l IH]; simpl; auto.
  rewrite H. destruct (p x); auto.
Qed.

(** X20. [add_transaction] stores the row under an id larger than every
    id of the table and than its counter, returns that id, and
    [get_transaction_by_id] then finds the row as given (with the current
    day when no date is passed); the rows under other ids and the
    categories are as before. *)
Theorem add_transaction_stored d today description amount ty category date due status :
  let r := FinanceDatabase.add_transaction d today description amount ty
             category date due status in
  let i := snd r in
  (forall tx, In tx (FinanceDatabase.transactions d) -> (tx_id tx < i)%Z) /\
  (FinanceDatabase.transactions_seq d < i)%Z /\
  FinanceDatabase.transactions_seq (fst r) = i /\
  FinanceDatabase.get_transaction_by_id (fst r) i =
    Some (mkTransaction i (match date with Some x => x | None => today end)
            description amount category ty due status) /\
  (forall j, j <> i ->
     FinanceDatabase.get_transaction_by_id (fst r) j =
     FinanceDatabase.get_transaction_by_id d j) /\
  FinanceDatabase.categories (fst r) = FinanceDatabase.categories d.
Proof.
  cbv zeta. unfold FinanceDatabase.add_transaction. cbn [fst snd].
  set (i := FinanceDatabase.next_id _ _).
  assert (Hfresh : forall tx, In tx (FinanceDatabase.transactions d) ->
                              (tx_id tx < i)%Z).
  { intros tx Htx. apply next_id_fresh. apply in_map. exact Htx. }
  split; [exact Hfresh|].
  split; [apply next_id_above_seq|].
  split; [reflexivity|].
  unfold FinanceDatabase.get_transaction_by_id.
  cbn [FinanceDatabase.transactions FinanceDatabase.categories].
  split; [|split; [|reflexivity]].
  - rewrite find_app_none.
    + simpl. rewrite Z.eqb_refl. reflexivity.
    + apply find_none_iff. intros tx Htx. apply Hfresh in Htx.
      apply Z.eqb_neq. lia.
  - intros j Hj. apply find_app_tail_none. simpl.
    destruct (i =? j)%Z eqn:E; auto. apply Z.eqb_eq in E. congruence.
Qed.

Lemma transaction_ids_ok_add d today description amount ty category date due status :
  transaction_ids_ok d ->
  transaction_ids_ok
    (fst (FinanceDatabase.add_transaction d today description amount ty
            category date due status)).
Proof.
  intros [Hnd Hb]. unfold transaction_ids_ok, FinanceDatabase.add_transaction.
  cbn [fst FinanceDatabase.transactions FinanceDatabase.transactions_seq].
  set (i := FinanceDatabase.next_id _ _).
  assert (Hfresh : forall x, In x (map tx_id (FinanceDatabase.transactions d)) ->
                             (x < i)%Z)
    by (intros x Hx; apply next_id_fresh; exact Hx).
  split.
  - rewrite map_app. simpl. apply NoDup_app; auto.
    + constructor; [intros []|constructor].
    + intros a Ha [E | []]. subst a. apply Hfresh in Ha. lia.
  - intros tx Htx. apply in_app_or in Htx. destruct Htx as [Htx | [<- | []]].
    + apply (in_map tx_id) in Htx. apply Hfresh in Htx. lia.
    + simpl. lia.
Qed.

Lemma NoDup_map_filter {A B} (f : A -> B) (p : A -> bool) l :
  NoDup (map f l) -> NoDup (map f (filter p l)).
Proof.
  induction l as [|x l IH]; simpl; intros H; [constructor|].
  inversion H as [|? ? Hx Hl]; subst.
  destruct (p x); simpl; auto.
  constructor; auto. intros Hin. apply Hx.
  apply in_map_iff in Hin. destruct Hin as [a [E Ha]].
  apply filter_In in Ha. apply in_map_iff. exists a. tauto.
Qed.

Lemma transaction_ids_ok_delete d j :
  transaction_ids_ok d -> transaction_ids_ok (FinanceDatabase.delete_transaction d j).
Proof.
  intros [Hnd Hb]. unfold transaction_ids_ok, FinanceDatabase.delete_transaction.
  cbn [FinanceDatabase.transactions FinanceDatabase.transactions_seq].
  split.
  - apply NoDup_map_filter. exact Hnd.
  - intros tx Htx. apply filter_In in Htx. apply Hb. tauto.
Qed.

Lemma update_status_ids d j status :
  map tx_id (FinanceDatabase.transactions
               (FinanceDatabase.update_transaction_status d j status)) =
  map tx_id (FinanceDatabase.transactions d).
Proof.
  unfold FinanceDatabase.update_transaction_status.
  cbn [FinanceDatabase.transactions]. rewrite map_map.
  apply map_ext. intros tx. destruct (tx_id tx =? j)%Z; reflexivity.
Qed.

Lemma transaction_ids_ok_update d j status :
  transaction_ids_ok d ->
  transaction_ids_ok (FinanceDatabase.update_transaction_status d j status).
Proof.
  intros [Hnd Hb]. unfold transaction_ids_ok.
  rewrite update_status_ids. split; [exact Hnd|].
  intros tx Htx.
  assert (Hid : In (tx_id tx)
                  (map tx_id (FinanceDatabase.transactions
                                (FinanceDatabase.update_transaction_status d j status))))
    by (apply in_map; exact Htx).
  rewrite update_status_ids in Hid. apply in_map_iff in Hid.
  destruct Hid as [tx' [E Htx']]. rewrite <- E.
  exact (Hb tx' Htx').
Qed.

(** X21. Adding, deleting and changing the status of transactions keep
    the ids distinct and below the counter of the table; so an id is never
    used again: a transaction added after a deletion gets an id different
    from the deleted one. *)
Theorem transaction_ids_never_reused d :
  transaction_ids_ok d ->
  (forall today description amount ty category date due status,
     transaction_ids_ok
       (fst (FinanceDatabase.add_transaction d today description amount ty
               category date due status))) /\
  (forall j, transaction_ids_ok (FinanceDatabase.delete_transaction d j)) /\
  (forall j status,
     transaction_ids_ok (FinanceDatabase.update_transaction_status d j status)) /\
  (forall j today description amount ty category date due status,
     In j (map tx_id (FinanceDatabase.transactions d)) ->
     snd (FinanceDatabase.add_transaction (FinanceDatabase.delete_transaction d j)
            today description amount ty category date due status) <> j).
Proof.
  intros Hok. split; [|split; [|split]].
  - intros. apply transaction_ids_ok_add. exact Hok.
  - intros. apply transaction_ids_ok_delete. exact Hok.
  - intros. apply transaction_ids_ok_update. exact Hok.
  - intros j today description amount ty category date due status Hj.
    apply in_map_iff in Hj. destruct Hj as [tx [<- Htx]].
    destruct Hok as [_ Hb]. specialize (Hb tx Htx).
    unfold FinanceDatabase.add_transaction, FinanceDatabase.delete_transaction.
    cbn [snd FinanceDatabase.transactions FinanceDatabase.transactions_seq].
    match goal with
    | |- FinanceDatabase.next_id ?ids ?seq <> _ =>
        pose proof (next_id_above_seq ids seq)
    end.
    lia.
Qed.

Lemma transaction_ids_never_reused_witness :
  transaction_ids_ok sample_tables /\
  snd (FinanceDatabase.add_transaction
         (FinanceDatabase.delete_transaction sample_tables 4)
         (mkDate 2024 6 1) "Mercado" 50 despesa "Moradia" None None "pago") <> 4%Z.
Proof.
  assert (Hok : transaction_ids_ok sample_tables).
  { split.
    - simpl. repeat (constructor; [simpl; intuition discriminate|]). constructor.
    - intros tx Hin. simpl in Hin.
      repeat (destruct Hin as [<- | Hin]; [simpl; lia|]). contradiction. }
  split; [exact Hok|].
  apply (proj2 (proj2 (proj2 (transaction_ids_never_reused sample_tables Hok)))).
  simpl. auto.
Defined.

(** X22. After [delete_transaction] the id is not found any more, the
    rows under other ids and the categories are as before, and deleting an
    id that is not in the table changes nothing. *)
Theorem delete_transaction_removes d j :
  FinanceDatabase.get_transaction_by_id (FinanceDatabase.delete_transaction d j) j
    = None /\
  (forall k, k <> j ->
     FinanceDatabase.get_transaction_by_id (FinanceDatabase.delete_transaction d j) k
     = FinanceDatabase.get_transaction_by_id d k) /\
  (FinanceDatabase.get_transaction_by_id d j = None ->
   FinanceDatabase.delete_transaction d j = d) /\
  FinanceDatabase.categories (FinanceDatabase.delete_transaction d j)
    = FinanceDatabase.categories d.
Proof.
  unfold FinanceDatabase.get_transaction_by_id, FinanceDatabase.delete_transaction.
  cbn [FinanceDatabase.transactions FinanceDatabase.categories].
  split; [|split; [|split; [|reflexivity]]].
  - apply find_none_iff. intros a Ha. apply filter_In in Ha.
    destruct Ha as [_ Ha]. apply negb_true_iff in Ha. exact Ha.
  - intros k Hk. apply find_filter_implied.
    intros a Ha. apply Z.eqb_eq in Ha. apply negb_true_iff.
    apply Z.eqb_neq. lia.
  - intros Hnone. destruct d as [txs seq cats cseq].
    cbn [FinanceDatabase.transactions FinanceDatabase.transactions_seq
         FinanceDatabase.categories FinanceDatabase.categories_seq] in *.
    f_equal. apply forallb_filter_id. apply forallb_forall.
    intros a Ha. rewrite (proj1 (find_none_iff _ _) Hnone a Ha). reflexivity.
Qed.

(** X23. [update_transaction_status] changes the status of the row with
    the given id and nothing else: the row is found with the new status and
    its other fields as they were, the rows under other ids and the
    categories are as before, and an id that is not in the table changes
    nothing. *)
Theorem update_transaction_status_sets d j status :
  FinanceDatabase.get_transaction_by_id
    (FinanceDatabase.update_transaction_status d j status) j
  = option_map (with_status status) (FinanceDatabase.get_transaction_by_id d j) /\
  (forall k, k <> j ->
     FinanceDatabase.get_transaction_by_id
       (FinanceDatabase.update_transaction_status d j status) k
     = FinanceDatabase.get_transaction_by_id d k) /\
  (FinanceDatabase.get_transaction_by_id d j = None ->
   FinanceDatabase.update_transaction_status d j status = d) /\
  FinanceDatabase.categories (FinanceDatabase.update_transaction_status d j status)
    = FinanceDatabase.categories d.
Proof.
  unfold FinanceDatabase.get_transaction_by_id,
    FinanceDatabase.update_transaction_status.
  cbn [FinanceDatabase.transactions FinanceDatabase.categories].
  split; [|split; [|split; [|reflexivity]]].
  - induction (FinanceDatabase.transactions d) as [|tx l IH]; simpl; auto.
    destruct (tx_id tx =? j)%Z eqn:E; simpl; rewrite E; auto.
  - intros k Hk.
    induction (FinanceDatabase.transactions d) as [|tx l IH]; simpl; auto.
    destruct (tx_id tx =? j)%Z eqn:E; simpl.
    + apply Z.eqb_eq in E.
      assert (Ek : (tx_id tx =? k)%Z = false) by (apply Z.eqb_neq; lia).
      rewrite Ek. exact IH.
    + destruct (tx_id tx =? k)%Z; auto.
  - intros Hnone. destruct d as [txs seq cats cseq].
    cbn [FinanceDatabase.transactions FinanceDatabase.transactions_seq
         FinanceDatabase.categories FinanceDatabase.categories_seq] in *.
    f_equal. rewrite <- (map_id txs) at 2. apply map_ext_in.
    intros a Ha. rewrite (proj1 (find_none_iff _ _) Hnone a Ha). reflexivity.
Qed.

(** ** Fields the analytics read *)

Lemma insert_map {A} (before : A -> A -> bool) (g : A -> A) x l :
  (forall a b, before (g a) (g b) = before a b) ->
  insert before (g x) (map g l) = map g (insert before x l).
Proof.
  intros H. induction l as [|y l IH]; simpl; auto.
  rewrite H. destruct (before x y); simpl; auto. rewrite IH. reflexivity.
Qed.

Lemma sort_map {A} (before : A -> A -> bool) (g : A -> A) l :
  (forall a b, before (g a) (g b) = before a b) ->
  sort before (map g l) = map g (sort before l).
Proof.
  intros H. induction l as [|x l IH]; simpl; auto.
  rewrite IH. apply insert_map. exact H.
Qed.

Lemma filter_map_same {A} (p : A -> bool) (g : A -> A) l :
  (forall a, p (g a) = p a) -> filter p (map g l) = map g (filter p l).
Proof.
  intros H. rewrite filter_map_swap. f_equal. apply filter_ext. exact H.
Qed.

Lemma map_map_same {A B} (f : A -> B) (g : A -> A) l :
  (forall a, f (g a) = f a) -> map f (map g l) = map f l.
Proof. intros H. rewrite map_map. apply map_ext. exact H. Qed.

Lemma flat_map_map {A B C} (F : B -> list C) (g : A -> B) l :
  flat_map F (map g l) = flat_map (fun a => F (g a)) l.
Proof.
  induction l as [|x l IH]; simpl; auto. rewrite IH. reflexivity.
Qed.

Section CoreFields.
(** A change of the rows that leaves alone what the analytics read: id,
    date, description, amount, category and type. *)
Variable g : Transaction -> Transaction.
Hypothesis g_id : forall tx, tx_id (g tx) = tx_id tx.
Hypothesis g_date : forall tx, tx_date (g tx) = tx_date tx.
Hypothesis g_description : forall tx, tx_description (g tx) = tx_description tx.
Hypothesis g_amount : forall tx, tx_amount (g tx) = tx_amount tx.
Hypothesis g_category : forall tx, tx_category (g tx) = tx_category tx.
Hypothesis g_type : forall tx, tx_type (g tx) = tx_type tx.

Lemma summary_of_map db y m :
  FinanceDatabase.get_monthly_summary (map g db) y m =
  FinanceDatabase.get_monthly_summary db y m.
Proof.
  unfold FinanceDatabase.get_monthly_summary. cbv zeta.
  rewrite (filter_map_same (FinanceDatabase.in_month y m) g)
    by (intros a; unfold FinanceDatabase.in_month; rewrite g_date; reflexivity).
  rewrite (map_map_same (fun tx => (tx_category tx, tx_type tx)) g)
    by (intros a; rewrite g_category, g_type; reflexivity).
  f_equal. apply map_ext. intros k.
  rewrite (filter_map_same (FinanceDatabase.in_group k) g)
    by (intros a; unfold FinanceDatabase.in_group;
        rewrite g_category, g_type; reflexivity).
  rewrite (map_map_same tx_amount g) by exact g_amount.
  rewrite length_map. reflexivity.
Qed.

Lemma monthly_category_of_map df :
  monthly_category (map g df) = monthly_category df.
Proof.
  unfold monthly_category.
  rewrite (map_map_same key_of g)
    by (intros a; unfold key_of; rewrite g_date, g_category, g_type; reflexivity).
  apply map_ext. intros [[mth c] ty].
  rewrite (filter_map_same (fun tx => key_eqb (key_of tx) (mth, c, ty)) g)
    by (intros a; unfold key_of; rewrite g_date, g_category, g_type; reflexivity).
  rewrite (map_map_same tx_amount g) by exact g_amount. reflexivity.
Qed.

Lemma projection_of_map df :
  predict_annual_projection (map g df) = predict_annual_projection df.
Proof.
  unfold predict_annual_projection.
  rewrite length_map, monthly_category_of_map. reflexivity.
Qed.

Lemma trends_of_map df :
  get_monthly_trends (map g df) = get_monthly_trends df.
Proof.
  rewrite !trends_rows.
  rewrite (map_map_same trend_key_of g)
    by (intros a; unfold trend_key_of; rewrite g_date, g_type; reflexivity).
  apply map_ext. intros [[yr mth] ty].
  rewrite (filter_map_same
             (fun tx => trend_key_eqb (trend_key_of tx) (yr, mth, ty)) g)
    by (intros a; unfold trend_key_of; rewrite g_date, g_type; reflexivity).
  rewrite (map_map_same tx_amount g) by exact g_amount. reflexivity.
Qed.

Lemma flag_of_map threshold mean_amount std_amount tx :
  flag threshold mean_amount std_amount (g tx) =
  flag threshold mean_amount std_amount tx.
Proof.
  unfold flag.
  rewrite g_id, g_date, g_description, g_amount, g_category. reflexivity.
Qed.

Lemma flag_category_of_map sqrt threshold df c :
  flag_category sqrt threshold (map g df) c = flag_category sqrt threshold df c.
Proof.
  unfold flag_category, category_transactions. cbv zeta.
  rewrite (filter_map_same (fun tx => String.eqb (tx_category tx) c) g)
    by (intros a; rewrite g_category; reflexivity).
  rewrite length_map, (map_map_same tx_amount g) by exact g_amount.
  rewrite flat_map_map.
  destruct (length _ <? 5)%nat; auto.
  apply flat_map_ext. intros a. apply flag_of_map.
Qed.

Lemma anomalies_of_map sqrt df threshold :
  detect_anomalies sqrt (map g df) threshold = detect_anomalies sqrt df threshold.
Proof.
  rewrite !detect_anomalies_ok.
  rewrite (map_map_same tx_category g) by exact g_category.
  f_equal. f_equal. apply flat_map_ext. intros c. apply flag_category_of_map.
Qed.

Lemma transactions_of_map d d' start_date end_date :
  FinanceDatabase.transactions d' = map g (FinanceDatabase.transactions d) ->
  FinanceDatabase.get_transactions d' start_date end_date =
  map g (FinanceDatabase.get_transactions d start_date end_date).
Proof.
  intros E. unfold FinanceDatabase.get_transactions. rewrite E.
  rewrite (filter_map_same (FinanceDatabase.in_range start_date end_date) g).
  - apply sort_map. intros a b. rewrite !g_date. reflexivity.
  - intros a. unfold FinanceDatabase.in_range. rewrite g_date. reflexivity.
Qed.
End CoreFields.

(** X24. The analytics never read the status: after
    [update_transaction_status] (a cancellation, say) the insights and the
    score of every month, and the projection, the anomalies and the trends
    computed from any date range, are what they were before. *)
Theorem status_is_invisible_to_analytics sqrt d j status :
  let d' := FinanceDatabase.update_transaction_status d j status in
  (forall y m,
     calculate_category_insights (FinanceDatabase.transactions d') y m =
     calculate_category_insights (FinanceDatabase.transactions d) y m) /\
  (forall y m,
     generate_financial_score (FinanceDatabase.transactions d') y m =
     generate_financial_score (FinanceDatabase.transactions d) y m) /\
  (forall s e,
     predict_annual_projection (FinanceDatabase.get_transactions d' s e) =
     predict_annual_projection (FinanceDatabase.get_transactions d s e)) /\
  (forall s e threshold,
     detect_anomalies sqrt (FinanceDatabase.get_transactions d' s e) threshold =
     detect_anomalies sqrt (FinanceDatabase.get_transactions d s e) threshold) /\
  (forall s e,
     get_monthly_trends (FinanceDatabase.get_transactions d' s e) =
     get_monthly_trends (FinanceDatabase.get_transactions d s e)).
Proof.
  cbv zeta.
  set (g := fun tx => if (tx_id tx =? j)%Z then with_status status tx else tx).
  assert (g_id : forall tx, tx_id (g tx) = tx_id tx)
    by (intros tx; unfold g; destruct (tx_id tx =? j)%Z; reflexivity).
  assert (g_date : forall tx, tx_date (g tx) = tx_date tx)
    by (intros tx; unfold g; destruct (tx_id tx =? j)%Z; reflexivity).
  assert (g_description : forall tx, tx_description (g tx) = tx_description tx)
    by (intros tx; unfold g; destruct (tx_id tx =? j)%Z; reflexivity).
  assert (g_amount : forall tx, tx_amount (g tx) = tx_amount tx)
    by (intros tx; unfold g; destruct (tx_id tx =? j)%Z; reflexivity).
  assert (g_category : forall tx, tx_category (g tx) = tx_category tx)
    by (intros tx; unfold g; destruct (tx_id tx =? j)%Z; reflexivity).
  assert (g_type : forall tx, tx_type (g tx) = tx_type tx)
    by (intros tx; unfold g; destruct (tx_id tx =? j)%Z; reflexivity).
  assert (E : FinanceDatabase.transactions
                (FinanceDatabase.update_transaction_status d j status) =
              map g (FinanceDatabase.transactions d)) by reflexivity.
  assert (Hs : forall y m,
             FinanceDatabase.get_monthly_summary
               (FinanceDatabase.transactions
                  (FinanceDatabase.update_transaction_status d j status)) y m =
             FinanceDatabase.get_monthly_summary (FinanceDatabase.transactions d) y m).
  { intros y m. rewrite E. apply summary_of_map; assumption. }
  assert (Ht : forall s e,
             FinanceDatabase.get_transactions
               (FinanceDatabase.update_transaction_status d j status) s e =
             map g (FinanceDatabase.get_transactions d s e))
    by (intros s e; apply transactions_of_map; assumption).
  split; [|split; [|split; [|split]]].
  - intros y m. unfold calculate_category_insights. rewrite Hs. reflexivity.
  - intros y m. unfold generate_financial_score, calculate_category_insights.
    rewrite Hs. reflexivity.
  - intros s e. rewrite Ht. apply projection_of_map; assumption.
  - intros s e threshold. rewrite Ht. apply anomalies_of_map; assumption.
  - intros s e. rewrite Ht. apply trends_of_map; assumption.
Qed.

(** ** Reading the transactions *)

Lemma date_leb_iff a b :
  FinanceDatabase.date_leb a b = true <->
  (year a < year b)%Z \/
  (year a = year b /\
   ((month a < month b)%Z \/ (month a = month b /\ (day a <= day b)%Z))).
Proof.
  unfold FinanceDatabase.date_leb.
  rewrite !orb_true_iff, !andb_true_iff, !orb_true_iff, !andb_true_iff.
  rewrite !Z.ltb_lt, !Z.eqb_eq, Z.leb_le. tauto.
Qed.

Lemma date_leb_total a b :
  FinanceDatabase.date_leb a b = false -> FinanceDatabase.date_leb b a = true.
Proof.
  intros H. apply date_leb_iff.
  assert (Hn : ~ FinanceDatabase.date_leb a b = true) by congruence.
  rewrite date_leb_iff in Hn. lia.
Qed.

Lemma date_leb_trans a b c :
  FinanceDatabase.date_leb a b = true -> FinanceDatabase.date_leb b c = true ->
  FinanceDatabase.date_leb a c = true.
Proof. rewrite !date_leb_iff. lia. Qed.

(** X25. [get_transactions] returns the rows of the table whose date
    passes the bounds that are given, each as often as it is in the table,
    latest date first; with both bounds the dates lie between them,
    bounds included. *)
Theorem get_transactions_spec d start_date end_date :
  Permutation
    (FinanceDatabase.get_transactions d start_date end_date)
    (filter (FinanceDatabase.in_range start_date end_date)
       (FinanceDatabase.transactions d)) /\
  StronglySorted
    (fun a b => FinanceDatabase.date_leb (tx_date b) (tx_date a) = true)
    (FinanceDatabase.get_transactions d start_date end_date) /\
  (forall s e tx,
     start_date = Some s -> end_date = Some e ->
     In tx (FinanceDatabase.get_transactions d start_date end_date) ->
     In tx (FinanceDatabase.transactions d) /\
     FinanceDatabase.date_leb s (tx_date tx) = true /\
     FinanceDatabase.date_leb (tx_date tx) e = true) /\
  (start_date = None -> end_date = None ->
   Permutation (FinanceDatabase.get_transactions d start_date end_date)
     (FinanceDatabase.transactions d)).
Proof.
  assert (Hperm : Permutation
                    (FinanceDatabase.get_transactions d start_date end_date)
                    (filter (FinanceDatabase.in_range start_date end_date)
                       (FinanceDatabase.transactions d)))
    by apply sort_perm.
  split; [exact Hperm|]. split; [|split].
  - unfold FinanceDatabase.get_transactions.
    apply (sort_sorted
             (fun x y => FinanceDatabase.date_leb (tx_date y) (tx_date x))).
    + intros x y. apply date_leb_total.
    + intros x y z H1 H2. eapply date_leb_trans; eassumption.
  - intros s e tx -> -> Hin.
    apply (Permutation_in _ Hperm) in Hin. apply filter_In in Hin.
    destruct Hin as [Hin Hr]. cbn in Hr. apply andb_true_iff in Hr. tauto.
  - intros -> ->. rewrite Hperm. rewrite filter_true. reflexivity.
Qed.

Lemma get_transactions_spec_witness :
  exists tx,
    In tx (FinanceDatabase.get_transactions sample_tables
             (Some (mkDate 2024 5 1)) (Some (mkDate 2024 5 31))) /\
    FinanceDatabase.date_leb (mkDate 2024 5 1) (tx_date tx) = true /\
    FinanceDatabase.date_leb (tx_date tx) (mkDate 2024 5 31) = true.
Proof.
  eexists. 
  assert (Hin : In (mkTransaction 2 (mkDate 2024 5 9) "Feira" 400 "Moradia" despesa
                      None "pago")
                  (FinanceDatabase.get_transactions sample_tables
                     (Some (mkDate 2024 5 1)) (Some (mkDate 2024 5 31))))
    by (vm_compute; auto).
  split; [exact Hin|].
  exact (proj2 (proj1 (proj2 (proj2 (get_transactions_spec sample_tables
                                       (Some (mkDate 2024 5 1))
                                       (Some (mkDate 2024 5 31)))))
                  _ _ _ eq_refl eq_refl Hin)).
Defined.

(** X26. The overdue transactions are the pending rows of the table whose
    due date is before the given day; each of them is among the pending
    transactions, and a row without due date is never overdue. *)
Theorem overdue_transactions_spec d today tx :
  (In tx (FinanceDatabase.get_overdue_transactions d today) <->
   In tx (FinanceDatabase.transactions d) /\
   tx_status tx = "pendente"%string /\
   exists due, tx_due_date tx = Some due /\
               FinanceDatabase.date_ltb due today = true) /\
  (In tx (FinanceDatabase.get_overdue_transactions d today) ->
   In tx (FinanceDatabase.get_pending_transactions d)) /\
  (In tx (FinanceDatabase.get_pending_transactions d) <->
   In tx (FinanceDatabase.transactions d) /\ tx_status tx = "pendente"%string).
Proof.
  assert (Hover : In tx (FinanceDatabase.get_overdue_transactions d today) <->
                  In tx (FinanceDatabase.transactions d) /\
                  tx_status tx = "pendente"%string /\
                  exists due, tx_due_date tx = Some due /\
                              FinanceDatabase.date_ltb due today = true).
  { unfold FinanceDatabase.get_overdue_transactions. split.
    - intros H. apply (Permutation_in _ (sort_perm _ _)) in H.
      apply filter_In in H. destruct H as [Hin Hc].
      apply andb_true_iff in Hc. destruct Hc as [Hp Hd].
      unfold FinanceDatabase.is_pending in Hp. apply String.eqb_eq in Hp.
      destruct (tx_due_date tx) as [due|]; [|discriminate].
      repeat split; auto. exists due. auto.
    - intros [Hin [Hs [due [Hd Hlt]]]].
      apply (Permutation_in _ (Permutation_sym (sort_perm _ _))).
      apply filter_In. split; [exact Hin|].
      unfold FinanceDatabase.is_pending. rewrite Hs, Hd, Hlt. reflexivity. }
  assert (Hpend : In tx (FinanceDatabase.get_pending_transactions d) <->
                  In tx (FinanceDatabase.transactions d) /\
                  tx_status tx = "pendente"%string).
  { unfold FinanceDatabase.get_pending_transactions. split.
    - intros H. apply (Permutation_in _ (sort_perm _ _)) in H.
      apply filter_In in H. destruct H as [Hin Hp].
      unfold FinanceDatabase.is_pending in Hp. apply String.eqb_eq in Hp. auto.
    - intros [Hin Hs].
      apply (Permutation_in _ (Permutation_sym (sort_perm _ _))).
      apply filter_In. split; [exact Hin|].
      unfold FinanceDatabase.is_pending. rewrite Hs. reflexivity. }
  split; [exact Hover|]. split; [|exact Hpend].
  intros H. apply Hpend. apply Hover in H. tauto.
Qed.

(** ** Categories *)

Lemma find_some_unique {A} (key : A -> Z) l c :
  NoDup (map key l) -> In c l ->
  find (fun a => (key a =? key c)%Z) l = Some c.
Proof.
  induction l as [|x l IH]; simpl; intros Hnd Hin; [contradiction|].
  inversion Hnd as [|? ? Hx Hl]; subst.
  destruct Hin as [-> | Hin].
  - rewrite Z.eqb_refl. reflexivity.
  - destruct (key x =? key c)%Z eqn:E.
    + apply Z.eqb_eq in E. exfalso. apply Hx. rewrite E.
      apply in_map. exact Hin.
    + apply IH; assumption.
Qed.

Lemma linked_transactions_positive d i :
  (0 < FinanceDatabase.linked_transactions d i)%nat <->
  exists c,
    FinanceDatabase.get_category_by_id d i = Some c /\
    exists tx, In tx (FinanceDatabase.transactions d) /\
               tx_category tx = FinanceDatabase.cat_name c.
Proof.
  unfold FinanceDatabase.linked_transactions.
  destruct (FinanceDatabase.get_category_by_id d i) as [c|].
  - split.
    + intros H. exists c. split; [reflexivity|].
      destruct (filter _ (FinanceDatabase.transactions d)) as [|tx l] eqn:E;
        [simpl in H; lia|].
      exists tx.
      assert (Hin : In tx (filter (fun tx => String.eqb (tx_category tx)
                                               (FinanceDatabase.cat_name c))
                             (FinanceDatabase.transactions d)))
        by (rewrite E; left; reflexivity).
      apply filter_In in Hin. destruct Hin as [Hin Hc].
      apply String.eqb_eq in Hc. auto.
    + intros [c' [Ec [tx [Hin Hc]]]]. injection Ec as <-.
      assert (Hf : In tx (filter (fun tx => String.eqb (tx_category tx)
                                              (FinanceDatabase.cat_name c))
                            (FinanceDatabase.transactions d))).
      { apply filter_In. split; [exact Hin|]. apply String.eqb_eq. exact Hc. }
      destruct (filter _ (FinanceDatabase.transactions d));
        [contradiction | simpl; lia].
  - split; [lia|]. intros [c [Ec _]]. discriminate.
Qed.

(** X27. [delete_category] refuses, leaving the tables as they are,
    exactly when the id is that of a category whose name some transaction
    carries.  Otherwise it reports success, the id is not found any more
    and the categories under other ids stay; for an id that is not in the
    table it reports success as well and changes nothing.  It never
    touches the transactions. *)
Theorem delete_category_guard d i :
  let r := FinanceDatabase.delete_category d i in
  FinanceDatabase.transactions (fst r) = FinanceDatabase.transactions d /\
  (fst (snd r) = false <->
   exists c,
     FinanceDatabase.get_category_by_id d i = Some c /\
     exists tx, In tx (FinanceDatabase.transactions d) /\
                tx_category tx = FinanceDatabase.cat_name c) /\
  (fst (snd r) = false -> fst r = d) /\
  (fst (snd r) = true ->
   snd (snd r) = "Categoria excluída com sucesso!"%string /\
   FinanceDatabase.get_category_by_id (fst r) i = None /\
   forall k, k <> i ->
     FinanceDatabase.get_category_by_id (fst r) k =
     FinanceDatabase.get_category_by_id d k) /\
  (FinanceDatabase.get_category_by_id d i = None ->
   fst (snd r) = true /\ fst r = d).
Proof.
  cbv zeta. rewrite <- linked_transactions_positive.
  unfold FinanceDatabase.delete_category. cbv zeta.
  destruct (0 <? FinanceDatabase.linked_transactions d i)%nat eqn:E.
  - apply Nat.ltb_lt in E. cbn [fst snd].
    split; [reflexivity|]. split; [tauto|]. split; [reflexivity|].
    split; [discriminate|].
    intros Hnone. exfalso.
    unfold FinanceDatabase.linked_transactions in E. rewrite Hnone in E. lia.
  - apply Nat.ltb_ge in E. cbn [fst snd FinanceDatabase.transactions].
    split; [reflexivity|]. split; [split; [discriminate | lia]|].
    split; [discriminate|]. split.
    + intros _. split; [reflexivity|].
      unfold FinanceDatabase.get_category_by_id.
      cbn [FinanceDatabase.categories]. split.
      * apply find_none_iff. intros a Ha. apply filter_In in Ha.
        destruct Ha as [_ Ha]. apply negb_true_iff in Ha. exact Ha.
      * intros k Hk. apply find_filter_implied.
        intros a Ha. apply Z.eqb_eq in Ha. apply negb_true_iff.
        apply Z.eqb_neq. lia.
    + intros Hnone. split; [reflexivity|].
      destruct d as [txs seq cats cseq].
      unfold FinanceDatabase.get_category_by_id in Hnone.
      cbn [FinanceDatabase.transactions FinanceDatabase.transactions_seq
           FinanceDatabase.categories FinanceDatabase.categories_seq] in *.
      f_equal. apply forallb_filter_id. apply forallb_forall.
      intros a Ha. rewrite (proj1 (find_none_iff _ _) Hnone a Ha). reflexivity.
Qed.

(** X28. With distinct category ids, [delete_category] keeps the
    references whole: a transaction whose category was the name of a
    category still finds it afterwards. *)
Theorem delete_category_keeps_references d i tx :
  NoDup (map FinanceDatabase.cat_id (FinanceDatabase.categories d)) ->
  In tx (FinanceDatabase.transactions d) ->
  category_known (FinanceDatabase.categories d) tx ->
  category_known
    (FinanceDatabase.categories (fst (FinanceDatabase.delete_category d i))) tx.
Proof.
  intros Hnd Htx [c [Hc Hname]].
  unfold FinanceDatabase.delete_category. cbv zeta.
  destruct (0 <? FinanceDatabase.linked_transactions d i)%nat eqn:E.
  - cbn [fst]. exists c. auto.
  - apply Nat.ltb_ge in E. cbn [fst FinanceDatabase.categories].
    exists c. split; [|exact Hname].
    apply filter_In. split; [exact Hc|].
    apply negb_true_iff. apply Z.eqb_neq. intros Hid.
    assert (Hpos : (0 < FinanceDatabase.linked_transactions d i)%nat).
    { apply linked_transactions_positive. exists c. split.
      - unfold FinanceDatabase.get_category_by_id. rewrite <- Hid.
        apply find_some_unique; assumption.
      - exists tx. auto. }
    lia.
Qed.

Lemma delete_category_keeps_references_witness :
  NoDup (map FinanceDatabase.cat_id (FinanceDatabase.categories sample_tables)) /\
  forall tx, In tx (FinanceDatabase.transactions sample_tables) ->
    category_known (FinanceDatabase.categories sample_tables) tx /\
    category_known
      (FinanceDatabase.categories
         (fst (FinanceDatabase.delete_category sample_tables 1))) tx /\
    category_known
      (FinanceDatabase.categories
         (fst (FinanceDatabase.delete_category sample_tables 3))) tx.
Proof.
  assert (Hnd : NoDup (map FinanceDatabase.cat_id
                         (FinanceDatabase.categories sample_tables))).
  { simpl. repeat (constructor; [simpl; intuition discriminate|]). constructor. }
  split; [exact Hnd|].
  intros tx Hin.
  assert (Hk : category_known (FinanceDatabase.categories sample_tables) tx).
  { simpl in Hin.
    destruct Hin as [<- | [<- | [<- | []]]].
    - exists (FinanceDatabase.mkCategory 1 "Moradia" despesa 1500 "#8B4513").
      simpl. auto.
    - exists (FinanceDatabase.mkCategory 1 "Moradia" despesa 1500 "#8B4513").
      simpl. auto.
    - exists (FinanceDatabase.mkCategory 2 "Salário CLT" receita 0 "#228B22").
      simpl. auto. }
  split; [exact Hk|].
  split; apply delete_category_keeps_references; assumption.
Defined.

(** X29. [add_category] is refused exactly when a category of that name
    exists.  Otherwise the category is stored under an id above all ids of
    the table and is found under it, the categories under other ids and
    the transactions are as before, and distinct names stay distinct. *)
Theorem add_category_unique_names d name ty budget color :
  match FinanceDatabase.add_category d name ty budget color with
  | FinanceDatabase.IntegrityError =>
      exists c, In c (FinanceDatabase.categories d) /\
                FinanceDatabase.cat_name c = name
  | FinanceDatabase.Stored (d', i) =>
      (forall c, In c (FinanceDatabase.categories d) ->
         FinanceDatabase.cat_name c <> name /\ (FinanceDatabase.cat_id c < i)%Z) /\
      FinanceDatabase.get_category_by_id d' i =
        Some (FinanceDatabase.mkCategory i name ty budget color) /\
      (forall k, k <> i ->
         FinanceDatabase.get_category_by_id d' k =
         FinanceDatabase.get_category_by_id d k) /\
      FinanceDatabase.transactions d' = FinanceDatabase.transactions d /\
      (NoDup (map FinanceDatabase.cat_name (FinanceDatabase.categories d)) ->
       NoDup (map FinanceDatabase.cat_name (FinanceDatabase.categories d')))
  end.
Proof.
  unfold FinanceDatabase.add_category.
  destruct (existsb _ (FinanceDatabase.categories d)) eqn:E.
  - apply existsb_exists in E. destruct E as [c [Hc Hn]].
    apply String.eqb_eq in Hn. exists c. auto.
  - cbv zeta. set (i := FinanceDatabase.next_id _ _).
    assert (Hnew : forall c, In c (FinanceDatabase.categories d) ->
                     FinanceDatabase.cat_name c <> name /\
                     (FinanceDatabase.cat_id c < i)%Z).
    { intros c Hc. split.
      - intros Hn.
        assert (existsb (fun c0 => String.eqb (FinanceDatabase.cat_name c0) name)
                  (FinanceDatabase.categories d) = true).
        { apply existsb_exists. exists c. split; [exact Hc|].
          apply String.eqb_eq. exact Hn. }
        congruence.
      - apply next_id_fresh. apply in_map. exact Hc. }
    split; [exact Hnew|].
    unfold FinanceDatabase.get_category_by_id.
    cbn [FinanceDatabase.categories FinanceDatabase.transactions].
    split; [|split; [|split; [reflexivity|]]].
    + rewrite find_app_none.
      * simpl. rewrite Z.eqb_refl. reflexivity.
      * apply find_none_iff. intros c Hc. apply Hnew in Hc.
        apply Z.eqb_neq. lia.
    + intros k Hk. apply find_app_tail_none. simpl.
      destruct (i =? k)%Z eqn:Ek; auto. apply Z.eqb_eq in Ek. congruence.
    + intros Hnd. rewrite map_app. simpl. apply NoDup_app; auto.
      * constructor; [intros []|constructor].
      * intros a Ha [Ea | []]. subst a.
        apply in_map_iff in Ha. destruct Ha as [c [Hn Hc]].
        apply Hnew in Hc. tauto.
Qed.

Lemma find_some_In {A} (p : A -> bool) l a :
  find p l = Some a -> In a l /\ p a = true.
Proof.
  induction l as [|x l IH]; simpl; [discriminate|].
  destruct (p x) eqn:E.
  - intros H. injection H as <-. auto.
  - intros H. destruct (IH H). auto.
Qed.

Lemma NoDup_map_eq {A B} (f : A -> B) l a b :
  NoDup (map f l) -> In a l -> In b l -> f a = f b -> a = b.
Proof.
  induction l as [|x l IH]; simpl; intros Hnd Ha Hb Hf; [contradiction|].
  inversion Hnd as [|? ? Hx Hl]; subst.
  destruct Ha as [-> | Ha], Hb as [-> | Hb]; auto.
  - exfalso. apply Hx. rewrite Hf. apply in_map. exact Hb.
  - exfalso. apply Hx. rewrite <- Hf. apply in_map. exact Ha.
Qed.

(** X30. [update_category] renames the category and leaves the
    transactions alone: after a category that transactions use is given a
    new, unused name, these transactions carry a name no category has, and
    [delete_category], which refused the category before, deletes it. *)
Theorem update_category_no_cascade d i c n budget color tx :
  NoDup (map FinanceDatabase.cat_id (FinanceDatabase.categories d)) ->
  NoDup (map FinanceDatabase.cat_name (FinanceDatabase.categories d)) ->
  FinanceDatabase.get_category_by_id d i = Some c ->
  (forall c', In c' (FinanceDatabase.categories d) ->
              FinanceDatabase.cat_name c' <> n) ->
  (forall tx', In tx' (FinanceDatabase.transactions d) -> tx_category tx' <> n) ->
  In tx (FinanceDatabase.transactions d) ->
  tx_category tx = FinanceDatabase.cat_name c ->
  exists d',
    FinanceDatabase.update_category d i (Some n) budget color
      = FinanceDatabase.Stored d' /\
    FinanceDatabase.transactions d' = FinanceDatabase.transactions d /\
    FinanceDatabase.get_category_by_id d' i =
      Some (FinanceDatabase.mkCategory i n (FinanceDatabase.cat_type c)
              (match budget with
               | Some b => b | None => FinanceDatabase.cat_budget c end)
              (match color with
               | Some x => x | None => FinanceDatabase.cat_color c end)) /\
    category_known (FinanceDatabase.categories d) tx /\
    ~ category_known (FinanceDatabase.categories d') tx /\
    fst (snd (FinanceDatabase.delete_category d i)) = false /\
    fst (snd (FinanceDatabase.delete_category d' i)) = true.
Proof.
  intros Hids Hnames Hc Hfresh Hunused Htx Hcat.
  destruct (find_some_In _ _ _ Hc) as [Hin Hid]. apply Z.eqb_eq in Hid.
  set (g := fun c0 : FinanceDatabase.Category =>
              if (FinanceDatabase.cat_id c0 =? i)%Z
              then FinanceDatabase.mkCategory (FinanceDatabase.cat_id c0) n
                     (FinanceDatabase.cat_type c0)
                     (match budget with
                      | Some b => b | None => FinanceDatabase.cat_budget c0 end)
                     (match color with
                      | Some x => x | None => FinanceDatabase.cat_color c0 end)
              else c0).
  set (d' := {| FinanceDatabase.transactions := FinanceDatabase.transactions d;
                FinanceDatabase.transactions_seq :=
                  FinanceDatabase.transactions_seq d;
                FinanceDatabase.categories :=
                  map g (FinanceDatabase.categories d);
                FinanceDatabase.categories_seq :=
                  FinanceDatabase.categories_seq d |}).
  assert (Hother :
    existsb (fun c0 => negb (FinanceDatabase.cat_id c0 =? i)%Z
                       && String.eqb (FinanceDatabase.cat_name c0) n)
            (FinanceDatabase.categories d) = false).
  { destruct (existsb _ (FinanceDatabase.categories d)) eqn:E; [|reflexivity].
    apply existsb_exists in E. destruct E as [c0 [H0 Hb]].
    apply andb_true_iff in Hb. destruct Hb as [_ Hb].
    apply String.eqb_eq in Hb. exfalso. exact (Hfresh c0 H0 Hb). }
  assert (Hupd : FinanceDatabase.update_category d i (Some n) budget color
                 = FinanceDatabase.Stored d').
  { unfold FinanceDatabase.update_category. rewrite Hother, andb_false_r.
    reflexivity. }
  assert (Hget : FinanceDatabase.get_category_by_id d' i = Some (g c)).
  { unfold FinanceDatabase.get_category_by_id, d'.
    cbn [FinanceDatabase.categories].
    rewrite find_map.
    - unfold FinanceDatabase.get_category_by_id in Hc. rewrite Hc. reflexivity.
    - intros a. unfold g.
      destruct (FinanceDatabase.cat_id a =? i)%Z eqn:E; [|exact E].
      cbn [FinanceDatabase.cat_id]. exact E. }
  assert (Hgc : g c = FinanceDatabase.mkCategory i n (FinanceDatabase.cat_type c)
              (match budget with
               | Some b => b | None => FinanceDatabase.cat_budget c end)
              (match color with
               | Some x => x | None => FinanceDatabase.cat_color c end)).
  { unfold g. rewrite Hid, Z.eqb_refl. reflexivity. }
  exists d'. split; [exact Hupd|]. split; [reflexivity|].
  split; [rewrite Hget, Hgc; reflexivity|].
  split; [exists c; auto|].
  split.
  - intros [c1 [H1 Hn1]]. unfold d' in H1. cbn [FinanceDatabase.categories] in H1.
    apply in_map_iff in H1. destruct H1 as [c0 [Hg H0]]. subst c1.
    unfold g in Hn1.
    destruct (FinanceDatabase.cat_id c0 =? i)%Z eqn:E.
    + cbn [FinanceDatabase.cat_name] in Hn1.
      apply (Hfresh c Hin). congruence.
    + apply Z.eqb_neq in E. apply E.
      rewrite (NoDup_map_eq FinanceDatabase.cat_name _ c0 c Hnames H0 Hin);
        [exact Hid | congruence].
  - split.
    + unfold FinanceDatabase.delete_category. cbv zeta.
      assert (Hpos : (0 < FinanceDatabase.linked_transactions d i)%nat).
      { apply linked_transactions_positive. exists c. split; [exact Hc|].
        exists tx. auto. }
      apply Nat.ltb_lt in Hpos. rewrite Hpos. reflexivity.
    + unfold FinanceDatabase.delete_category. cbv zeta.
      assert (Hzero : FinanceDatabase.linked_transactions d' i = 0%nat).
      { destruct (FinanceDatabase.linked_transactions d' i) eqn:E; [reflexivity|].
        assert (Hpos : (0 < FinanceDatabase.linked_transactions d' i)%nat) by lia.
        apply linked_transactions_positive in Hpos.
        destruct Hpos as [c1 [H1 [tx1 [Hin1 Hn1]]]].
        rewrite Hget, Hgc in H1. injection H1 as <-.
        cbn [FinanceDatabase.cat_name] in Hn1.
        exfalso. exact (Hunused tx1 Hin1 Hn1). }
      rewrite Hzero. reflexivity.
Qed.

Lemma update_category_no_cascade_witness :
  exists d',
    FinanceDatabase.update_category sample_tables 1 (Some "Casa"%string) None None
      = FinanceDatabase.Stored d' /\
    fst (snd (FinanceDatabase.delete_category sample_tables 1)) = false /\
    fst (snd (FinanceDatabase.delete_category d' 1)) = true.
Proof.
  destruct (update_category_no_cascade sample_tables 1
              (FinanceDatabase.mkCategory 1 "Moradia" despesa 1500 "#8B4513")
              "Casa"%string None None
              (mkTransaction 1 (mkDate 2024 5 2) "Aluguel" 1000 "Moradia" despesa
                 (Some (mkDate 2024 5 10)) "pendente"))
    as [d' [Hu [_ [_ [_ [_ [H1 H2]]]]]]].
  - simpl. repeat (constructor; [simpl; intuition discriminate|]). constructor.
  - simpl. repeat (constructor; [simpl; intuition discriminate|]). constructor.
  - reflexivity.
  - simpl. intros c' [<- | [<- | [<- | []]]]; simpl; discriminate.
  - simpl. intros tx' [<- | [<- | [<- | []]]]; simpl; discriminate.
  - simpl. auto.
  - reflexivity.
  - exists d'. auto.
Defined.
